(** * Balance-consistency engine of the bookkeeping ledger

    A shallow embedding of the supplier side of the model layer
    ([models/database.py], [models/supplier.py], [models/purchase.py],
    [models/payment.py]) and the properties of its create / update /
    delete operations and of its reading operations.

    Modelling conventions.
    - A table is the list of its rows in rowid order; a statement is a
      function on the tables that either yields the new tables or is
      rejected by a constraint of the schema of [Database.init_db].
    - The code holds a monetary value in binary64: [app.py] passes
      [float(...)] of the form field, the repositories compute on Python
      floats, and the DECIMAL(15,2) columns have NUMERIC affinity, so SQLite
      stores and adds 8-byte floats (or 64-bit integers for whole
      numbers).  The main development takes a monetary value as an exact
      integer, a whole number of currency units: binary64 and SQLite compute
      exactly on whole numbers up to 2^53.  A theorem that depends on a sum
      or a difference being exact carries the range of the values as a
      hypothesis ([exact_range], [in_range], [sum_in_range]).  Module
      [Binary64] holds the operations that compute on money once more, on
      [float], to run them on amounts with cents.
    - The columns [created_at] / [updated_at] hold wall-clock time and are
      left out, together with the triggers that only refresh them.
    - Text is a [string] of code points below 256; a date is passed as
      text, so the [isinstance] test that opens [create] always passes.
    - The [sqlite3] connection is modelled with its implicit transaction:
      the first INSERT / UPDATE / DELETE opens one, [commit] and [rollback]
      close it.  [except sqlite3.Error] does not catch [ValueError].
    - A statement can also fail for reasons outside the schema (I/O error,
      locked file); every operation takes a predicate that says at which of
      its statement sites this happens.
    - The [date] columns have NUMERIC affinity: SQLite may store the text
      of a date converted and compares the stored values.  The order of the
      dates is therefore a parameter [date_le] of the reading operations,
      and nothing is stated about the stored form of a date.
    - ORDER BY is a stable sort of the scanned rows; SQLite leaves the
      place of rows that compare equal open, and the theorems on ordered
      results state which rows are returned and that they are in order.
      The reading operations that also order by [created_at] ([get_all] of
      purchases and payments, [Supplier.get_transactions]) and
      [Payment.get_by_mode_summary] are not modelled.
    - The customer / sale / receipt side mirrors the supplier side and is
      not repeated. *)

From Stdlib Require Import ZArith List String Ascii Bool Lia Permutation PrimFloat.
Import ListNotations.
Open Scope string_scope.
Open Scope list_scope.
Open Scope Z_scope.
Set Warnings "-inexact-float".

(** ** Rows and tables *)

Record supplier_row := mk_supplier {
  s_id : Z;
  s_name : string;
  s_contact : option string;
  s_address : option string;
  s_balance : Z
}.

Record purchase_row := mk_purchase {
  p_id : Z;
  p_date : string;
  p_supplier_id : Z;
  p_bill_no : option string;
  p_amount : Z;
  p_paid_amount : Z;
  p_items : option string;
  p_notes : option string
}.

Record payment_row := mk_payment {
  y_id : Z;
  y_date : string;
  y_supplier_id : Z;
  y_purchase_id : option Z;
  y_amount : Z;
  y_payment_mode : string;
  y_reference_no : option string;
  y_notes : option string
}.

(** The three tables and, for each, the counter that AUTOINCREMENT keeps in
    [sqlite_sequence]. *)
Record store := mk_store {
  suppliers : list supplier_row;
  purchases : list purchase_row;
  payments : list payment_row;
  seq_suppliers : Z;
  seq_purchases : Z;
  seq_payments : Z
}.

Definition empty_store : store := mk_store [] [] [] 0 0 0.

(** ** Exceptions and the connection *)

Inductive exn :=
| ValueError (msg : string)
| TypeError
| IntegrityError
| OperationalError.

(** [except sqlite3.Error] catches the two storage exceptions only. *)
Definition sqlite3_Error (e : exn) : bool :=
  match e with
  | IntegrityError | OperationalError => true
  | ValueError _ | TypeError => false
  end.

Definition sqlite3_IntegrityError (e : exn) : bool :=
  match e with
  | IntegrityError => true
  | _ => false
  end.

Inductive outcome (A : Type) :=
| Return (a : A)
| Raise (e : exn).
Arguments Return {A} a.
Arguments Raise {A} e.

(** The connection held in [g.db]: the tables as this connection sees them
    and, while a transaction is open, the tables as they were when it
    began. *)
Record connection := mk_conn {
  tables : store;
  txn : option store
}.

Definition M (A : Type) : Type := connection -> outcome A * connection.

Definition ret {A} (a : A) : M A := fun c => (Return a, c).

Definition bind {A B} (m : M A) (k : A -> M B) : M B :=
  fun c =>
    match m c with
    | (Return a, c1) => k a c1
    | (Raise e, c1) => (Raise e, c1)
    end.

Definition raise {A} (e : exn) : M A := fun c => (Raise e, c).

(** [try: m  except <sel>: h] *)
Definition try_except {A} (m : M A) (sel : exn -> bool) (h : exn -> M A) : M A :=
  fun c =>
    match m c with
    | (Return a, c1) => (Return a, c1)
    | (Raise e, c1) => if sel e then h e c1 else (Raise e, c1)
    end.

Declare Scope py_scope.
Delimit Scope py_scope with py.
Notation "x <- m ;; k" := (bind m (fun x => k))
  (at level 61, m at next level, right associativity) : py_scope.
Notation "m ;; k" := (bind m (fun _ => k))
  (at level 61, right associativity) : py_scope.
Open Scope py_scope.

(** [if b: raise e] *)
Definition raise_if (b : bool) (e : exn) : M unit :=
  if b then raise e else ret tt.

(** No uncommitted change is pending on the connection. *)
Definition clean (c : connection) : Prop :=
  txn c = None \/ txn c = Some (tables c).

Definition fresh_connection (t : store) : connection := mk_conn t None.

(** ** Python helpers *)

(** Truth value of an optional integer: [None] and [0] are false. *)
Definition truthy (o : option Z) : bool :=
  match o with
  | Some n => negb (n =? 0)
  | None => false
  end.

Definition is_some {A} (o : option A) : bool :=
  match o with Some _ => true | None => false end.

(** [str.isspace] on a single code point below 256. *)
Definition isspace (a : ascii) : bool :=
  let n := nat_of_ascii a in
  ((9 <=? n) && (n <=? 13) || (28 <=? n) && (n <=? 32)
   || (n =? 133) || (n =? 160))%nat.

Fixpoint lstrip (s : string) : string :=
  match s with
  | EmptyString => EmptyString
  | String a s' => if isspace a then lstrip s' else s
  end.

Fixpoint rstrip (s : string) : string :=
  match s with
  | EmptyString => EmptyString
  | String a s' =>
      match rstrip s' with
      | EmptyString => if isspace a then EmptyString else String a EmptyString
      | r => String a r
      end
  end.

(** [str.strip()] *)
Definition strip (s : string) : string := rstrip (lstrip s).

Definition payment_modes : list string := ["cash"; "bank"; "cheque"; "upi"; "card"].

Definition mode_in (m : string) : bool := existsb (String.eqb m) payment_modes.

Definition sum_Z (l : list Z) : Z := fold_right Z.add 0 l.

(** ** SQL helpers *)

(** ORDER BY: rows are put in the order [le]; rows that compare equal keep
    their scan order. *)
Fixpoint insert_by {A} (le : A -> A -> bool) (x : A) (l : list A) : list A :=
  match l with
  | [] => [x]
  | y :: l' => if le x y then x :: l else y :: insert_by le x l'
  end.

Definition order_by {A} (le : A -> A -> bool) (l : list A) : list A :=
  fold_right (insert_by le) [] l.

(** LIMIT n: a negative [n] means no limit. *)
Definition sql_limit {A} (n : Z) (l : list A) : list A :=
  if n <? 0 then l else firstn (Z.to_nat n) l.

(** [l JOIN r ON on] *)
Definition inner_join {A B} (l : list A) (on : A -> B -> bool) (r : list B)
  : list (A * B) :=
  flat_map (fun a => map (pair a) (filter (on a) r)) l.

(** The distinct values of a column, in order of first occurrence (the
    groups of a GROUP BY). *)
Fixpoint distinct_keys (l : list Z) : list Z :=
  match l with
  | [] => []
  | k :: l' => k :: filter (fun k' => negb (k' =? k)) (distinct_keys l')
  end.

(** COALESCE(SUM(e), 0) over a column expression that is never NULL. *)
Fixpoint some_sum (col : list Z) : option Z :=
  match col with
  | [] => None
  | v :: col' =>
      match some_sum col' with
      | Some s => Some (v + s)
      | None => Some v
      end
  end.

Definition sum_or_zero (col : list Z) : Z :=
  match some_sum col with Some v => v | None => 0 end.

(** Truth value of an optional text: [None] and the empty text are false. *)
Definition truthy_str (o : option string) : bool :=
  match o with
  | Some (String _ _) => true
  | _ => false
  end.

(** The comparison behind LIKE: [%] matches any run of characters, [_] any
    one character, and the letters A-Z match without regard to case. *)
Definition lower (a : ascii) : ascii :=
  let n := nat_of_ascii a in
  if ((65 <=? n) && (n <=? 90))%nat then ascii_of_nat (n + 32) else a.

Definition eq_nocase (a c : ascii) : bool := Ascii.eqb (lower a) (lower c).

Fixpoint pattern_compare (p t : string) : bool :=
  match p with
  | EmptyString => match t with EmptyString => true | String _ _ => false end
  | String a p' =>
      if Ascii.eqb a "%"
      then (fix star (t : string) : bool :=
              pattern_compare p' t
              || match t with
                 | EmptyString => false
                 | String _ t' => star t'
                 end) t
      else match t with
           | EmptyString => false
           | String c t' => (Ascii.eqb a "_" || eq_nocase a c) && pattern_compare p' t'
           end
  end.

(** A text as SQLite's string functions read it: up to its first NUL. *)
Fixpoint c_str (s : string) : string :=
  match s with
  | EmptyString => EmptyString
  | String a s' => if Ascii.eqb a "000" then EmptyString else String a (c_str s')
  end.

(** The number of bytes of the UTF-8 form of a text of code points below
    256. *)
Fixpoint utf8_length (s : string) : Z :=
  match s with
  | EmptyString => 0
  | String a s' => (if (nat_of_ascii a <? 128)%nat then 1 else 2) + utf8_length s'
  end.

(** SQLITE_MAX_LIKE_PATTERN_LENGTH *)
Definition max_like_pattern_length : Z := 50000.

(** [t LIKE p]: [None] is the error "LIKE or GLOB pattern too complex",
    raised for a pattern of more than 50,000 bytes. *)
Definition like (p t : string) : option bool :=
  if max_like_pattern_length <? utf8_length p then None
  else Some (pattern_compare (c_str p) (c_str t)).

(** WHERE with a condition that can fail: the rows that satisfy it, or
    [None] when it fails on a row. *)
Fixpoint filter_rows {A} (f : A -> option bool) (l : list A) : option (list A) :=
  match l with
  | [] => Some []
  | x :: l' =>
      match f x with
      | None => None
      | Some b =>
          match filter_rows f l' with
          | None => None
          | Some r => Some (if b then x :: r else r)
          end
      end
  end.

(** ** [models/database.py]: schema, triggers and statements *)

Module Database.

(** AUTOINCREMENT: one more than the largest rowid the table ever held. *)
Definition next_rowid (seq : Z) (ids : list Z) : Z :=
  Z.max seq (fold_right Z.max 0 ids) + 1.

(** CHECK constraints of [purchases] and [payments]. *)
Definition check_purchase (p : purchase_row) : bool :=
  (0 <=? p_amount p) && (0 <=? p_paid_amount p).

Definition check_payment (y : payment_row) : bool :=
  (0 <? y_amount y) && mode_in (y_payment_mode y).

(** FOREIGN KEY constraints ([PRAGMA foreign_keys = ON]). *)
Definition supplier_exists (t : store) (id : Z) : bool :=
  existsb (fun s => s_id s =? id) (suppliers t).

Definition purchase_exists (t : store) (id : Z) : bool :=
  existsb (fun p => p_id p =? id) (purchases t).

Definition fk_purchase (t : store) (p : purchase_row) : bool :=
  supplier_exists t (p_supplier_id p).

Definition fk_payment (t : store) (y : payment_row) : bool :=
  supplier_exists t (y_supplier_id y)
  && match y_purchase_id y with
     | None => true
     | Some pid => purchase_exists t pid
     end.

(** UNIQUE constraint on [suppliers.name]: row [s] is the only row of [l]
    that carries its name. *)
Definition unique_name (l : list supplier_row) (s : supplier_row) : bool :=
  (List.length (filter (fun s' => String.eqb (s_name s') (s_name s)) l) <=? 1)%nat.

(** Body shared by the triggers [update_supplier_balance_on_purchase] and
    [update_supplier_balance_on_payment]:
    [UPDATE suppliers SET balance = balance + delta WHERE id = sid]. *)
Definition add_balance (sid delta : Z) (l : list supplier_row) : list supplier_row :=
  map (fun s =>
         if s_id s =? sid
         then mk_supplier (s_id s) (s_name s) (s_contact s) (s_address s)
                          (s_balance s + delta)
         else s) l.

(** A statement maps the tables to the new tables and a number ([lastrowid]
    for INSERT, [rowcount] otherwise), or is rejected by a constraint. *)
Definition statement : Type := store -> option (store * Z).

(** [INSERT INTO suppliers (name, contact, address) VALUES (?, ?, ?)] *)
Definition insert_supplier (name : string) (contact address : option string)
  : statement := fun t =>
  let id := next_rowid (seq_suppliers t) (map s_id (suppliers t)) in
  let row := mk_supplier id name contact address 0 in
  if existsb (fun s => String.eqb (s_name s) name) (suppliers t) then None
  else Some (mk_store (suppliers t ++ [row]) (purchases t) (payments t)
                      id (seq_purchases t) (seq_payments t), id).

(** [INSERT INTO purchases (date, supplier_id, bill_no, amount, paid_amount,
    items, notes) VALUES (...)], followed by its AFTER INSERT trigger. *)
Definition insert_purchase (date : string) (supplier_id : Z)
    (bill_no : option string) (amount paid_amount : Z)
    (items notes : option string) : statement := fun t =>
  let id := next_rowid (seq_purchases t) (map p_id (purchases t)) in
  let row := mk_purchase id date supplier_id bill_no amount paid_amount items notes in
  if check_purchase row && fk_purchase t row
  then Some (mk_store
               (add_balance supplier_id (amount - paid_amount) (suppliers t))
               (purchases t ++ [row]) (payments t)
               (seq_suppliers t) id (seq_payments t), id)
  else None.

(** [INSERT INTO payments (date, supplier_id, purchase_id, amount,
    payment_mode, reference_no, notes) VALUES (...)], followed by its AFTER
    INSERT trigger. *)
Definition insert_payment (date : string) (supplier_id : Z)
    (purchase_id : option Z) (amount : Z) (payment_mode : string)
    (reference_no notes : option string) : statement := fun t =>
  let id := next_rowid (seq_payments t) (map y_id (payments t)) in
  let row := mk_payment id date supplier_id purchase_id amount payment_mode
                        reference_no notes in
  if check_payment row && fk_payment t row
  then Some (mk_store
               (add_balance supplier_id (- amount) (suppliers t))
               (purchases t) (payments t ++ [row])
               (seq_suppliers t) (seq_purchases t) id, id)
  else None.

Definition count_if {A} (f : A -> bool) (l : list A) : Z :=
  Z.of_nat (List.length (filter f l)).

(** [UPDATE <table> SET ... WHERE id = ?]: [f] rewrites the matching rows,
    [ok] is the constraint every rewritten row must meet. *)
Definition update_where {A} (sel : A -> bool) (f : A -> A) (l : list A) : list A :=
  map (fun r => if sel r then f r else r) l.

Definition rewritten_ok {A} (sel ok : A -> bool) (f : A -> A) (l : list A) : bool :=
  forallb (fun r => if sel r then ok (f r) else true) l.

(** [UPDATE purchases SET paid_amount = paid_amount + ? WHERE id = ?] *)
Definition add_paid (delta : Z) (p : purchase_row) : purchase_row :=
  mk_purchase (p_id p) (p_date p) (p_supplier_id p) (p_bill_no p) (p_amount p)
              (p_paid_amount p + delta) (p_items p) (p_notes p).

Definition update_paid_amount (delta id : Z) : statement := fun t =>
  let sel := fun p => p_id p =? id in
  if rewritten_ok sel check_purchase (add_paid delta) (purchases t)
  then Some (mk_store (suppliers t)
               (update_where sel (add_paid delta) (purchases t)) (payments t)
               (seq_suppliers t) (seq_purchases t) (seq_payments t),
             count_if sel (purchases t))
  else None.

(** The column assignments a dynamic UPDATE is assembled from
    ([updates.append('col = ?')] with its parameter). *)
Inductive supplier_set :=
| S_name (v : string) | S_contact (v : string) | S_address (v : string).

Inductive purchase_set :=
| P_date (v : string) | P_supplier_id (v : Z) | P_bill_no (v : string)
| P_amount (v : Z) | P_paid_amount (v : Z) | P_items (v : string)
| P_notes (v : string).

Inductive payment_set :=
| Y_date (v : string) | Y_amount (v : Z) | Y_payment_mode (v : string)
| Y_reference_no (v : string) | Y_notes (v : string).

Definition set_supplier (s : supplier_row) (a : supplier_set) : supplier_row :=
  match a with
  | S_name v => mk_supplier (s_id s) v (s_contact s) (s_address s) (s_balance s)
  | S_contact v => mk_supplier (s_id s) (s_name s) (Some v) (s_address s) (s_balance s)
  | S_address v => mk_supplier (s_id s) (s_name s) (s_contact s) (Some v) (s_balance s)
  end.

Definition set_purchase (p : purchase_row) (a : purchase_set) : purchase_row :=
  match a with
  | P_date v => mk_purchase (p_id p) v (p_supplier_id p) (p_bill_no p) (p_amount p)
                            (p_paid_amount p) (p_items p) (p_notes p)
  | P_supplier_id v => mk_purchase (p_id p) (p_date p) v (p_bill_no p) (p_amount p)
                            (p_paid_amount p) (p_items p) (p_notes p)
  | P_bill_no v => mk_purchase (p_id p) (p_date p) (p_supplier_id p) (Some v)
                            (p_amount p) (p_paid_amount p) (p_items p) (p_notes p)
  | P_amount v => mk_purchase (p_id p) (p_date p) (p_supplier_id p) (p_bill_no p) v
                            (p_paid_amount p) (p_items p) (p_notes p)
  | P_paid_amount v => mk_purchase (p_id p) (p_date p) (p_supplier_id p) (p_bill_no p)
                            (p_amount p) v (p_items p) (p_notes p)
  | P_items v => mk_purchase (p_id p) (p_date p) (p_supplier_id p) (p_bill_no p)
                            (p_amount p) (p_paid_amount p) (Some v) (p_notes p)
  | P_notes v => mk_purchase (p_id p) (p_date p) (p_supplier_id p) (p_bill_no p)
                            (p_amount p) (p_paid_amount p) (p_items p) (Some v)
  end.

Definition set_payment (y : payment_row) (a : payment_set) : payment_row :=
  match a with
  | Y_date v => mk_payment (y_id y) v (y_supplier_id y) (y_purchase_id y) (y_amount y)
                           (y_payment_mode y) (y_reference_no y) (y_notes y)
  | Y_amount v => mk_payment (y_id y) (y_date y) (y_supplier_id y) (y_purchase_id y) v
                           (y_payment_mode y) (y_reference_no y) (y_notes y)
  | Y_payment_mode v => mk_payment (y_id y) (y_date y) (y_supplier_id y)
                           (y_purchase_id y) (y_amount y) v (y_reference_no y) (y_notes y)
  | Y_reference_no v => mk_payment (y_id y) (y_date y) (y_supplier_id y)
                           (y_purchase_id y) (y_amount y) (y_payment_mode y) (Some v)
                           (y_notes y)
  | Y_notes v => mk_payment (y_id y) (y_date y) (y_supplier_id y) (y_purchase_id y)
                           (y_amount y) (y_payment_mode y) (y_reference_no y) (Some v)
  end.

(** [UPDATE suppliers SET <updates> WHERE id = ?] *)
Definition update_suppliers (updates : list supplier_set) (id : Z) : statement :=
  fun t =>
  let sel := fun s => s_id s =? id in
  let rows := update_where sel (fun s => fold_left set_supplier updates s) (suppliers t) in
  if forallb (fun s => negb (sel s) || unique_name rows (fold_left set_supplier updates s))
             (suppliers t)
  then Some (mk_store rows (purchases t) (payments t)
               (seq_suppliers t) (seq_purchases t) (seq_payments t),
             count_if sel (suppliers t))
  else None.

(** [UPDATE purchases SET <updates> WHERE id = ?] *)
Definition update_purchases (updates : list purchase_set) (id : Z) : statement :=
  fun t =>
  let sel := fun p => p_id p =? id in
  let f := fun p => fold_left set_purchase updates p in
  if rewritten_ok sel (fun p => check_purchase p && fk_purchase t p) f (purchases t)
  then Some (mk_store (suppliers t) (update_where sel f (purchases t)) (payments t)
               (seq_suppliers t) (seq_purchases t) (seq_payments t),
             count_if sel (purchases t))
  else None.

(** [UPDATE payments SET <updates> WHERE id = ?] *)
Definition update_payments (updates : list payment_set) (id : Z) : statement :=
  fun t =>
  let sel := fun y => y_id y =? id in
  let f := fun y => fold_left set_payment updates y in
  if rewritten_ok sel check_payment f (payments t)
  then Some (mk_store (suppliers t) (purchases t) (update_where sel f (payments t))
               (seq_suppliers t) (seq_purchases t) (seq_payments t),
             count_if sel (payments t))
  else None.

(** [DELETE FROM suppliers WHERE id = ?]; both referencing keys are
    ON DELETE RESTRICT. *)
Definition delete_supplier (id : Z) : statement := fun t =>
  let sel := fun s => s_id s =? id in
  if existsb sel (suppliers t)
     && (existsb (fun p => p_supplier_id p =? id) (purchases t)
         || existsb (fun y => y_supplier_id y =? id) (payments t))
  then None
  else Some (mk_store (filter (fun s => negb (sel s)) (suppliers t))
               (purchases t) (payments t)
               (seq_suppliers t) (seq_purchases t) (seq_payments t),
             count_if sel (suppliers t)).

(** [DELETE FROM purchases WHERE id = ?]; [payments.purchase_id] is
    ON DELETE SET NULL. *)
Definition unlink (id : Z) (y : payment_row) : payment_row :=
  match y_purchase_id y with
  | Some pid =>
      if pid =? id
      then mk_payment (y_id y) (y_date y) (y_supplier_id y) None (y_amount y)
                      (y_payment_mode y) (y_reference_no y) (y_notes y)
      else y
  | None => y
  end.

Definition delete_purchase (id : Z) : statement := fun t =>
  let sel := fun p => p_id p =? id in
  Some (mk_store (suppliers t)
          (filter (fun p => negb (sel p)) (purchases t))
          (if existsb sel (purchases t) then map (unlink id) (payments t)
           else payments t)
          (seq_suppliers t) (seq_purchases t) (seq_payments t),
        count_if sel (purchases t)).

(** [DELETE FROM payments WHERE id = ?] *)
Definition delete_payment (id : Z) : statement := fun t =>
  let sel := fun y => y_id y =? id in
  Some (mk_store (suppliers t) (purchases t)
          (filter (fun y => negb (sel y)) (payments t))
          (seq_suppliers t) (seq_purchases t) (seq_payments t),
        count_if sel (payments t)).

(** *** Running statements on the connection

    [flt] tells at which statement sites the storage engine fails for a
    reason unrelated to the schema (the raise of [sqlite3.OperationalError]);
    a site is named by the line of its call in the source file. *)
Section Cursor.
Variable flt : nat -> bool.

(** The implicit BEGIN the [sqlite3] module issues before INSERT, UPDATE
    and DELETE when no transaction is open. *)
Definition begin (c : connection) : connection :=
  match txn c with
  | Some _ => c
  | None => mk_conn (tables c) (Some (tables c))
  end.

(** [cursor.execute(SELECT ...)] followed by the fetch. *)
Definition fetch {A} (site : nat) (q : store -> A) : M A := fun c =>
  if flt site then (Raise OperationalError, c)
  else (Return (q (tables c)), c).

(** [cursor.execute(INSERT | UPDATE | DELETE ...)]; a rejected or failed
    statement leaves the tables as they were. *)
Definition execute (site : nat) (stmt : statement) : M Z := fun c =>
  let c1 := begin c in
  if flt site then (Raise OperationalError, c1)
  else match stmt (tables c1) with
       | Some (t', n) => (Return n, mk_conn t' (txn c1))
       | None => (Raise IntegrityError, c1)
       end.

Definition commit (site : nat) : M unit := fun c =>
  if flt site then (Raise OperationalError, c)
  else (Return tt, mk_conn (tables c) None).

Definition rollback : M unit := fun c =>
  (Return tt,
   mk_conn (match txn c with Some t0 => t0 | None => tables c end) None).
End Cursor.

(** *** Read helpers of [Database]

    [date_le] is the order in which SQLite compares the values of a [date]
    column (the column has NUMERIC affinity, so it is not always the order
    of the texts). *)
Section Queries.
Variable flt : nat -> bool.
Variable date_le : string -> string -> bool.

(** [SELECT balance FROM suppliers WHERE id = ?] *)
Definition select_balance (supplier_id : Z) (t : store) : option Z :=
  option_map s_balance (find (fun s => s_id s =? supplier_id) (suppliers t)).

Definition get_supplier_balance (supplier_id : Z) : M Z :=
  result <- fetch flt 189 (select_balance supplier_id) ;;
  ret (match result with Some balance => balance | None => 0 end).

(** A row of [get_outstanding_purchases]: the purchase, the supplier's
    name and [amount - paid_amount]. *)
Record outstanding_row := mk_outstanding {
  o_purchase : purchase_row;
  o_supplier_name : string;
  o_outstanding : Z
}.

(** purchases JOIN suppliers WHERE amount > paid_amount
    [AND supplier_id = ?] ORDER BY date *)
Definition select_outstanding (supplier_id : option Z) (t : store)
  : list outstanding_row :=
  let joined :=
    inner_join (purchases t) (fun p s => p_supplier_id p =? s_id s) (suppliers t) in
  let wanted := fun (r : purchase_row * supplier_row) =>
    (p_paid_amount (fst r) <? p_amount (fst r))
    && match supplier_id with
       | Some sid => if sid =? 0 then true else p_supplier_id (fst r) =? sid
       | None => true
       end in
  map (fun r => mk_outstanding (fst r) (s_name (snd r))
                               (p_amount (fst r) - p_paid_amount (fst r)))
      (order_by (fun a b => date_le (p_date (fst a)) (p_date (fst b)))
                (filter wanted joined)).

Definition get_outstanding_purchases (supplier_id : option Z)
  : M (list outstanding_row) :=
  fetch flt 222 (select_outstanding supplier_id).
End Queries.

End Database.

Import Database.

(** [if o: body(o) else: skip] for an optional integer. *)
Definition if_truthy {A} (o : option Z) (body : Z -> M A) (skip : M A) : M A :=
  match o with
  | Some n => if n =? 0 then skip else body n
  | None => skip
  end.

(** [if v is not None: updates.append(a v)] *)
Definition append_set {V S} (v : option V) (a : V -> S) (updates : list S) : list S :=
  match v with
  | Some x => updates ++ [a x]
  | None => updates
  end.

Definition is_nil {A} (l : list A) : bool :=
  match l with [] => true | _ => false end.

(** SQL aggregates over a nullable column. *)
Definition sql_count {A} (col : list (option A)) : Z :=
  Z.of_nat (List.length (filter is_some col)).

Fixpoint sql_sum (col : list (option Z)) : option Z :=
  match col with
  | [] => None
  | None :: col' => sql_sum col'
  | Some v :: col' =>
      match sql_sum col' with
      | Some s => Some (v + s)
      | None => Some v
      end
  end.

Definition coalesce (o : option Z) (d : Z) : Z :=
  match o with Some v => v | None => d end.

(** [l LEFT JOIN r ON on]: every row of [l] with each of its matches, or
    with NULL when it has none. *)
Definition left_join {A B} (l : list A) (on : A -> B -> bool) (r : list B)
  : list (A * option B) :=
  flat_map (fun a =>
              match filter (on a) r with
              | [] => [(a, None)]
              | bs => map (fun b => (a, Some b)) bs
              end) l.

(** The rows [LEFT JOIN r ON on] yields for one row [a] of the left table. *)
Definition joined_with {A B} (on : A -> B -> bool) (r : list B) (a : A)
  : list (A * option B) :=
  match filter (on a) r with
  | [] => [(a, None)]
  | bs => map (fun b => (a, Some b)) bs
  end.

(** ** [models/supplier.py] *)

Module Supplier.

Record details := mk_details {
  row : supplier_row;
  total_purchases : Z;
  total_purchase_amount : Z;
  total_paid_amount : Z;
  total_payments : Z
}.

(** The SELECT of [get_by_id]: suppliers LEFT JOIN purchases LEFT JOIN
    payments, both joins on the supplier's id, restricted to one supplier
    id and grouped by it. *)
Definition select_details (id : Z) (t : store) : option details :=
  let s_rows := filter (fun s => s_id s =? id) (suppliers t) in
  let sp := left_join s_rows (fun s p => s_id s =? p_supplier_id p) (purchases t) in
  let spy := left_join sp (fun r pay => s_id (fst r) =? y_supplier_id pay) (payments t) in
  match spy with
  | [] => None
  | (s, _, _) :: _ =>
      let p_col := fun (f : purchase_row -> Z) => map (fun r => option_map f (snd (fst r))) spy in
      let pay_col := fun (f : payment_row -> Z) => map (fun r => option_map f (snd r)) spy in
      Some (mk_details s
              (sql_count (p_col p_id))
              (coalesce (sql_sum (p_col p_amount)) 0)
              (coalesce (sql_sum (p_col p_paid_amount)) 0)
              (coalesce (sql_sum (pay_col y_amount)) 0))
  end.

(** A row of [get_all]. *)
Record listing := mk_listing {
  l_row : supplier_row;
  l_total_purchases : Z;
  l_total_purchase_amount : Z;
  l_total_paid_amount : Z
}.

Definition by_name (a b : supplier_row) : bool := String.leb (s_name a) (s_name b).

(** The SELECT of [get_all]: suppliers LEFT JOIN purchases, grouped by the
    supplier's id, ordered by name. *)
Definition select_all (t : store) : list listing :=
  let joined :=
    left_join (suppliers t) (fun s p => s_id s =? p_supplier_id p) (purchases t) in
  let groups :=
    map (fun k => filter (fun r => s_id (fst r) =? k) joined)
        (distinct_keys (map (fun r => s_id (fst r)) joined)) in
  let rows :=
    flat_map (fun g =>
                match g with
                | [] => []
                | (s, _) :: _ =>
                    let p_col := fun (f : purchase_row -> Z) =>
                      map (fun r => option_map f (snd r)) g in
                    [mk_listing s
                       (sql_count (p_col p_id))
                       (coalesce (sql_sum (p_col p_amount)) 0)
                       (coalesce (sql_sum (p_col p_paid_amount)) 0)]
                end) groups in
  order_by (fun a b => by_name (l_row a) (l_row b)) rows.

(** [SELECT * FROM suppliers WHERE name = ?] *)
Definition select_by_name (name : string) (t : store) : option supplier_row :=
  find (fun s => String.eqb (s_name s) name) (suppliers t).

(** [SELECT * FROM suppliers WHERE name LIKE ? OR contact LIKE ?
    ORDER BY name], both parameters being [%query%]; [None] when LIKE
    fails. *)
Definition select_search (query : string) (t : store)
  : option (list supplier_row) :=
  let search_pattern := ("%" ++ query ++ "%")%string in
  option_map (order_by by_name)
    (filter_rows
       (fun s =>
          match like search_pattern (s_name s) with
          | Some false =>
              match s_contact s with
              | Some contact => like search_pattern contact
              | None => Some false
              end
          | r => r
          end)
       (suppliers t)).

(** [SELECT * FROM suppliers [WHERE balance > 0 | < 0 | = 0] ORDER BY name] *)
Definition select_with_balance (balance_type : string) (t : store)
  : list supplier_row :=
  order_by by_name
    (filter (fun s =>
               if String.eqb balance_type "payable" then 0 <? s_balance s
               else if String.eqb balance_type "advance" then s_balance s <? 0
               else if String.eqb balance_type "zero" then s_balance s =? 0
               else true)
            (suppliers t)).

(** The row of [get_summary_stats]. *)
Record stats := mk_stats {
  total_suppliers : Z;
  suppliers_with_payable : Z;
  suppliers_with_advance : Z;
  suppliers_zero_balance : Z;
  total_payable : Z;
  total_advance : Z;
  net_payable : Z
}.

Definition select_summary_stats (t : store) : stats :=
  let rows := suppliers t in
  mk_stats
    (Z.of_nat (List.length rows))
    (count_if (fun s => 0 <? s_balance s) rows)
    (count_if (fun s => s_balance s <? 0) rows)
    (count_if (fun s => s_balance s =? 0) rows)
    (sum_or_zero (map (fun s => if 0 <? s_balance s then s_balance s else 0) rows))
    (sum_or_zero (map (fun s => if s_balance s <? 0 then - s_balance s else 0) rows))
    (sum_or_zero (map s_balance rows)).


Section Ops.
Variable flt : nat -> bool.

Definition get_by_id (id : Z) : M (option details) :=
  try_except
    (fetch flt 32 (select_details id))
    sqlite3_Error (fun _ => ret None).

Definition create (name : string) (contact address : option string) : M Z :=
  try_except
    (supplier_id <- execute flt 78 (insert_supplier (strip name) contact address) ;;
     commit flt 82 ;;
     ret supplier_id)
    sqlite3_Error
    (fun e =>
       if sqlite3_IntegrityError e
       then raise (ValueError "Supplier with name already exists")
       else (rollback ;; raise e)).

Definition update (id : Z) (name contact address : option string) : M bool :=
  try_except
    (let updates := [] in
     let updates := append_set (option_map strip name) S_name updates in
     let updates := append_set contact S_contact updates in
     let updates := append_set address S_address updates in
     if is_nil updates then ret false
     else
       rowcount <- execute flt 119 (update_suppliers updates id) ;;
       commit flt 120 ;;
       ret (0 <? rowcount))
    sqlite3_Error
    (fun e =>
       if sqlite3_IntegrityError e
       then raise (ValueError "Supplier with name already exists")
       else (rollback ;; raise e)).

Definition delete (id : Z) : M bool :=
  try_except
    (purchase_count <-
       fetch flt 143 (fun t => count_if (fun p => p_supplier_id p =? id) (purchases t)) ;;
     payment_count <-
       fetch flt 148 (fun t => count_if (fun y => y_supplier_id y =? id) (payments t)) ;;
     raise_if ((0 <? purchase_count) || (0 <? payment_count))
              (ValueError "Cannot delete supplier with existing transactions") ;;
     rowcount <- execute flt 156 (delete_supplier id) ;;
     commit flt 157 ;;
     ret (0 <? rowcount))
    sqlite3_Error (fun e => rollback ;; raise e).
Variable date_le : string -> string -> bool.

Definition get_all : M (list listing) :=
  try_except (fetch flt 13 select_all) sqlite3_Error (fun _ => ret []).

Definition get_by_name (name : string) : M (option supplier_row) :=
  try_except (fetch flt 53 (select_by_name name)) sqlite3_Error (fun _ => ret None).

Definition search (query : string) : M (list supplier_row) :=
  try_except
    (rows <- fetch flt 64 (select_search query) ;;
     match rows with
     | Some rows => ret rows
     | None => raise OperationalError
     end)
    sqlite3_Error (fun _ => ret []).

Definition get_balance (id : Z) : M Z := get_supplier_balance flt id.

Definition get_outstanding_purchases (id : Z) : M (list outstanding_row) :=
  Database.get_outstanding_purchases flt date_le (Some id).

Definition get_suppliers_with_balance (balance_type : string)
  : M (list supplier_row) :=
  try_except (fetch flt 256 (select_with_balance balance_type))
             sqlite3_Error (fun _ => ret []).

Definition get_summary_stats : M (option stats) :=
  try_except (fetch flt 266 (fun t => Some (select_summary_stats t)))
             sqlite3_Error (fun _ => ret None).
End Ops.

End Supplier.

(** ** [models/purchase.py] *)

Module Purchase.

(** The SELECT of [get_by_id]: purchases JOIN suppliers, one purchase id.
    Of the selected columns the callers below read those of the purchase
    row only. *)
Definition select_by_id (id : Z) (t : store) : option purchase_row :=
  find (fun p => (p_id p =? id) && supplier_exists t (p_supplier_id p)) (purchases t).

(** [SELECT id FROM suppliers WHERE id = ?] *)
Definition select_supplier_id (id : Z) (t : store) : option Z :=
  option_map s_id (find (fun s => s_id s =? id) (suppliers t)).

(** The WHERE clause that [get_summary_stats] builds from its two optional
    dates; [date_le] is SQLite's order on the values of a [date] column. *)
Definition date_filter (date_le : string -> string -> bool)
    (start_date end_date : option string) (d : string) : bool :=
  match start_date, end_date with
  | Some s, Some e =>
      if truthy_str start_date && truthy_str end_date
      then date_le s d && date_le d e
      else if truthy_str start_date then date_le s d
      else if truthy_str end_date then date_le d e
      else true
  | Some s, None => if truthy_str start_date then date_le s d else true
  | None, Some e => if truthy_str end_date then date_le d e else true
  | None, None => true
  end.

(** A row of [get_by_supplier]: the purchase with the supplier's name, the
    outstanding amount and the payment status. *)
Record view := mk_view {
  v_purchase : purchase_row;
  v_supplier_name : string;
  v_outstanding : Z;
  v_payment_status : string
}.

Definition payment_status (p : purchase_row) : string :=
  if p_amount p <=? p_paid_amount p then "Paid"
  else if 0 <? p_paid_amount p then "Partial"
  else "Unpaid".

(** purchases JOIN suppliers WHERE supplier_id = ? ORDER BY date DESC
    [LIMIT ?] *)
Definition select_by_supplier (date_le : string -> string -> bool)
    (supplier_id : Z) (limit : option Z) (t : store) : list view :=
  let joined :=
    inner_join (purchases t) (fun p s => p_supplier_id p =? s_id s) (suppliers t) in
  let rows :=
    order_by (fun a b => date_le (p_date (fst b)) (p_date (fst a)))
             (filter (fun r => p_supplier_id (fst r) =? supplier_id) joined) in
  let rows :=
    match limit with
    | Some n => if n =? 0 then rows else sql_limit n rows
    | None => rows
    end in
  map (fun r => mk_view (fst r) (s_name (snd r))
                        (p_amount (fst r) - p_paid_amount (fst r))
                        (payment_status (fst r))) rows.

(** The SELECT of [get_payments]: payments JOIN suppliers WHERE
    purchase_id = ? ORDER BY date DESC; each payment with the name of its
    supplier. *)
Definition select_payments (date_le : string -> string -> bool) (id : Z)
    (t : store) : list (payment_row * string) :=
  let joined :=
    inner_join (payments t) (fun y s => y_supplier_id y =? s_id s) (suppliers t) in
  map (fun r => (fst r, s_name (snd r)))
      (order_by (fun a b => date_le (y_date (fst b)) (y_date (fst a)))
                (filter (fun r => match y_purchase_id (fst r) with
                                  | Some pid => pid =? id
                                  | None => false
                                  end) joined)).

(** The row of [get_summary_stats]. *)
Record stats := mk_stats {
  total_purchases : Z;
  total_amount : Z;
  total_paid : Z;
  total_outstanding : Z;
  paid_purchases : Z;
  partial_purchases : Z;
  unpaid_purchases : Z
}.

Definition select_summary_stats (date_le : string -> string -> bool)
    (start_date end_date : option string) (t : store) : stats :=
  let rows :=
    filter (fun p => date_filter date_le start_date end_date (p_date p))
           (purchases t) in
  mk_stats
    (Z.of_nat (List.length rows))
    (sum_or_zero (map p_amount rows))
    (sum_or_zero (map p_paid_amount rows))
    (sum_or_zero (map (fun p => p_amount p - p_paid_amount p) rows))
    (count_if (fun p => p_amount p <=? p_paid_amount p) rows)
    (count_if (fun p => (0 <? p_paid_amount p) && (p_paid_amount p <? p_amount p))
              rows)
    (count_if (fun p => p_paid_amount p =? 0) rows).


Section Ops.
Variable flt : nat -> bool.

Definition get_by_id (id : Z) : M (option purchase_row) :=
  try_except
    (fetch flt 46 (select_by_id id))
    sqlite3_Error (fun _ => ret None).

Definition create (date : string) (supplier_id amount : Z) (bill_no : option string)
    (paid_amount : Z) (items notes : option string) : M Z :=
  try_except
    (raise_if (amount <=? 0) (ValueError "Amount must be positive") ;;
     raise_if (paid_amount <? 0) (ValueError "Paid amount cannot be negative") ;;
     raise_if (amount <? paid_amount)
              (ValueError "Paid amount cannot exceed total amount") ;;
     s <- fetch flt 131 (select_supplier_id supplier_id) ;;
     raise_if (negb (is_some s)) (ValueError "Supplier does not exist") ;;
     purchase_id <-
       execute flt 135
         (insert_purchase date supplier_id bill_no amount paid_amount items notes) ;;
     commit flt 140 ;;
     ret purchase_id)
    sqlite3_Error (fun e => rollback ;; raise e).

Definition update (id : Z) (date : option string) (supplier_id : option Z)
    (bill_no : option string) (amount paid_amount : option Z)
    (items notes : option string) : M bool :=
  try_except
    (current <- get_by_id id ;;
     match current with
     | None => raise (ValueError "Purchase does not exist")
     | Some current =>
         let updates := [] in
         let updates := append_set date P_date updates in
         updates <-
           match supplier_id with
           | Some sid =>
               s <- fetch flt 169 (select_supplier_id sid) ;;
               raise_if (negb (is_some s)) (ValueError "Supplier does not exist") ;;
               ret (updates ++ [P_supplier_id sid])
           | None => ret updates
           end ;;
         let updates := append_set bill_no P_bill_no updates in
         updates <-
           match amount with
           | Some a =>
               raise_if (a <=? 0) (ValueError "Amount must be positive") ;;
               ret (updates ++ [P_amount a])
           | None => ret updates
           end ;;
         updates <-
           match paid_amount with
           | Some pa =>
               raise_if (pa <? 0) (ValueError "Paid amount cannot be negative") ;;
               let final_amount :=
                 match amount with Some a => a | None => p_amount current end in
               raise_if (final_amount <? pa)
                        (ValueError "Paid amount cannot exceed total amount") ;;
               ret (updates ++ [P_paid_amount pa])
           | None => ret updates
           end ;;
         let updates := append_set items P_items updates in
         let updates := append_set notes P_notes updates in
         if is_nil updates then ret false
         else
           rowcount <- execute flt 203 (update_purchases updates id) ;;
           commit flt 204 ;;
           ret (0 <? rowcount)
     end)
    sqlite3_Error (fun e => rollback ;; raise e).

Definition delete (id : Z) : M bool :=
  try_except
    (payment_count <-
       fetch flt 223
         (fun t => count_if (fun y => match y_purchase_id y with
                                      | Some pid => pid =? id
                                      | None => false
                                      end) (payments t)) ;;
     raise_if (0 <? payment_count)
              (ValueError "Cannot delete purchase with associated payments") ;;
     rowcount <- execute flt 229 (delete_purchase id) ;;
     commit flt 230 ;;
     ret (0 <? rowcount))
    sqlite3_Error (fun e => rollback ;; raise e).
Variable date_le : string -> string -> bool.

Definition get_by_supplier (supplier_id : Z) (limit : option Z) : M (list view) :=
  try_except (fetch flt 87 (select_by_supplier date_le supplier_id limit))
             sqlite3_Error (fun _ => ret []).

Definition get_outstanding : M (list outstanding_row) :=
  Database.get_outstanding_purchases flt date_le None.

Definition get_payments (id : Z) : M (list (payment_row * string)) :=
  try_except (fetch flt 252 (select_payments date_le id))
             sqlite3_Error (fun _ => ret []).

Definition add_payment (id amount : Z) : M bool :=
  try_except
    (purchase <- get_by_id id ;;
     match purchase with
     | None => raise (ValueError "Purchase does not exist")
     | Some purchase =>
         let new_paid_amount := p_paid_amount purchase + amount in
         raise_if (p_amount purchase <? new_paid_amount)
                  (ValueError "Payment amount exceeds outstanding balance") ;;
         execute flt 278 (update_purchases [P_paid_amount new_paid_amount] id) ;;
         commit flt 282 ;;
         ret true
     end)
    sqlite3_Error (fun e => rollback ;; raise e).

Definition get_summary_stats (start_date end_date : option string)
  : M (option stats) :=
  try_except
    (fetch flt 319
       (fun t => Some (select_summary_stats date_le start_date end_date t)))
    sqlite3_Error (fun _ => ret None).
End Ops.

End Purchase.

(** ** [models/payment.py] *)

Module Payment.

(** The SELECT of [get_by_id]: payments JOIN suppliers LEFT JOIN purchases,
    one payment id.  The callers below read the columns of the payment row
    only. *)
Definition select_by_id (id : Z) (t : store) : option payment_row :=
  find (fun y => (y_id y =? id) && supplier_exists t (y_supplier_id y)) (payments t).

(** [SELECT amount, paid_amount FROM purchases WHERE id = ? AND supplier_id = ?] *)
Definition select_purchase_of (purchase_id supplier_id : Z) (t : store)
  : option purchase_row :=
  find (fun p => (p_id p =? purchase_id) && (p_supplier_id p =? supplier_id))
       (purchases t).

(** [SELECT amount, paid_amount FROM purchases WHERE id = ?] *)
Definition select_purchase (purchase_id : Z) (t : store) : option purchase_row :=
  find (fun p => p_id p =? purchase_id) (purchases t).

(** payments JOIN suppliers WHERE payment_mode = ? ORDER BY date DESC *)
Definition select_by_payment_mode (date_le : string -> string -> bool)
    (payment_mode : string) (t : store) : list (payment_row * string) :=
  let joined :=
    inner_join (payments t) (fun y s => y_supplier_id y =? s_id s) (suppliers t) in
  map (fun r => (fst r, s_name (snd r)))
      (order_by (fun a b => date_le (y_date (fst b)) (y_date (fst a)))
                (filter (fun r => String.eqb (y_payment_mode (fst r)) payment_mode)
                        joined)).

(** The row of [get_summary_stats]. *)
Record stats := mk_stats {
  total_payments : Z;
  total_amount : Z;
  purchase_payments : Z;
  advance_payments : Z;
  purchase_payment_amount : Z;
  advance_payment_amount : Z
}.

Definition select_summary_stats (date_le : string -> string -> bool)
    (start_date end_date : option string) (t : store) : stats :=
  let rows :=
    filter (fun y => Purchase.date_filter date_le start_date end_date (y_date y))
           (payments t) in
  mk_stats
    (Z.of_nat (List.length rows))
    (sum_or_zero (map y_amount rows))
    (count_if (fun y => is_some (y_purchase_id y)) rows)
    (count_if (fun y => negb (is_some (y_purchase_id y))) rows)
    (sum_or_zero (map (fun y => if is_some (y_purchase_id y) then y_amount y else 0)
                      rows))
    (sum_or_zero (map (fun y => if is_some (y_purchase_id y) then 0 else y_amount y)
                      rows)).


Section Ops.
Variable flt : nat -> bool.

Definition get_by_id (id : Z) : M (option payment_row) :=
  try_except
    (fetch flt 44 (select_by_id id))
    sqlite3_Error (fun _ => ret None).

Definition create (date : string) (supplier_id amount : Z) (payment_mode : string)
    (purchase_id : option Z) (reference_no notes : option string) : M Z :=
  try_except
    (raise_if (amount <=? 0) (ValueError "Amount must be positive") ;;
     raise_if (negb (mode_in payment_mode)) (ValueError "Invalid payment mode") ;;
     s <- fetch flt 142 (Purchase.select_supplier_id supplier_id) ;;
     raise_if (negb (is_some s)) (ValueError "Supplier does not exist") ;;
     if_truthy purchase_id
       (fun pid =>
          purchase <- fetch flt 148 (select_purchase_of pid supplier_id) ;;
          match purchase with
          | None => raise (ValueError "Purchase does not exist for this supplier")
          | Some purchase =>
              let outstanding := p_amount purchase - p_paid_amount purchase in
              raise_if (outstanding <? amount)
                       (ValueError "Payment amount exceeds outstanding balance")
          end)
       (ret tt) ;;
     payment_id <-
       execute flt 162
         (insert_payment date supplier_id purchase_id amount payment_mode
                         reference_no notes) ;;
     if_truthy purchase_id
       (fun pid => execute flt 171 (update_paid_amount amount pid) ;; ret tt)
       (ret tt) ;;
     commit flt 177 ;;
     ret payment_id)
    sqlite3_Error (fun e => rollback ;; raise e).

Definition update (id : Z) (date : option string) (amount : option Z)
    (payment_mode reference_no notes : option string) : M bool :=
  try_except
    (current <- get_by_id id ;;
     match current with
     | None => raise (ValueError "Payment does not exist")
     | Some current =>
         let old_amount := y_amount current in
         let updates := [] in
         let updates := append_set date Y_date updates in
         updates <-
           match amount with
           | Some a =>
               raise_if (a <=? 0) (ValueError "Amount must be positive") ;;
               if_truthy (y_purchase_id current)
                 (fun pid =>
                    purchase <- fetch flt 211 (select_purchase pid) ;;
                    match purchase with
                    | None => raise TypeError
                    | Some purchase =>
                        let other_payments := p_paid_amount purchase - old_amount in
                        let new_total_paid := other_payments + a in
                        raise_if (p_amount purchase <? new_total_paid)
                          (ValueError
                             "Updated payment amount would exceed purchase amount")
                    end)
                 (ret tt) ;;
               ret (updates ++ [Y_amount a])
           | None => ret updates
           end ;;
         updates <-
           match payment_mode with
           | Some m =>
               raise_if (negb (mode_in m)) (ValueError "Invalid payment mode") ;;
               ret (updates ++ [Y_payment_mode m])
           | None => ret updates
           end ;;
         let updates := append_set reference_no Y_reference_no updates in
         let updates := append_set notes Y_notes updates in
         if is_nil updates then ret false
         else
           rowcount <- execute flt 243 (update_payments updates id) ;;
           rowcount <-
             match amount with
             | Some a =>
                 if_truthy (y_purchase_id current)
                   (fun pid =>
                      let amount_difference := a - old_amount in
                      execute flt 248 (update_paid_amount amount_difference pid))
                   (ret rowcount)
             | None => ret rowcount
             end ;;
           commit flt 254 ;;
           ret (0 <? rowcount)
     end)
    sqlite3_Error (fun e => rollback ;; raise e).

Definition delete (id : Z) : M bool :=
  try_except
    (payment <- get_by_id id ;;
     match payment with
     | None => raise (ValueError "Payment does not exist")
     | Some payment =>
         if_truthy (y_purchase_id payment)
           (fun pid =>
              execute flt 279 (update_paid_amount (- y_amount payment) pid) ;; ret tt)
           (ret tt) ;;
         rowcount <- execute flt 285 (delete_payment id) ;;
         commit flt 286 ;;
         ret (0 <? rowcount)
     end)
    sqlite3_Error (fun e => rollback ;; raise e).
Variable date_le : string -> string -> bool.

Definition get_by_payment_mode (payment_mode : string)
  : M (list (payment_row * string)) :=
  try_except (fetch flt 116 (select_by_payment_mode date_le payment_mode))
             sqlite3_Error (fun _ => ret []).

Definition get_summary_stats (start_date end_date : option string)
  : M (option stats) :=
  try_except
    (fetch flt 326
       (fun t => Some (select_summary_stats date_le start_date end_date t)))
    sqlite3_Error (fun _ => ret None).
End Ops.

End Payment.

(** No storage fault at any site. *)
Definition no_fault : nat -> bool := fun _ => false.

(** ** Invariants and derived quantities *)

(** The payment references purchase [pid]. *)
Definition linked_to (pid : Z) (y : payment_row) : bool :=
  match y_purchase_id y with
  | Some q => q =? pid
  | None => false
  end.

(** Sum of the amounts of the payment rows whose [purchase_id] is [pid]. *)
Definition linked_total (pid : Z) (t : store) : Z :=
  sum_Z (map y_amount (filter (linked_to pid) (payments t))).

(** I1 for one purchase row. *)
Definition within_amount (p : purchase_row) : Prop :=
  0 <= p_paid_amount p <= p_amount p.

(** I2 for the purchase(s) with id [pid]. *)
Definition paid_matches_payments (pid : Z) (t : store) : Prop :=
  forall p, In p (purchases t) -> p_id p = pid ->
            p_paid_amount p = linked_total pid t.

(** The from-scratch aggregate of I3 for supplier id [sid]. *)
Definition of_supplier (sid : Z) (p : purchase_row) : bool := p_supplier_id p =? sid.

Definition unlinked_of (sid : Z) (y : payment_row) : bool :=
  (y_supplier_id y =? sid) && negb (is_some (y_purchase_id y)).

Definition outstanding_total (sid : Z) (t : store) : Z :=
  sum_Z (map (fun p => p_amount p - p_paid_amount p)
             (filter (of_supplier sid) (purchases t))).

Definition amount_total (sid : Z) (t : store) : Z :=
  sum_Z (map p_amount (filter (of_supplier sid) (purchases t))).

Definition paid_total (sid : Z) (t : store) : Z :=
  sum_Z (map p_paid_amount (filter (of_supplier sid) (purchases t))).

Definition unlinked_total (sid : Z) (t : store) : Z :=
  sum_Z (map y_amount (filter (unlinked_of sid) (payments t))).

Definition aggregate_balance (sid : Z) (t : store) : Z :=
  outstanding_total sid t - unlinked_total sid t.

Definition balance_matches (sid : Z) (t : store) : Prop :=
  forall s, In s (suppliers t) -> s_id s = sid ->
            s_balance s = aggregate_balance sid t.

(** What the schema guarantees of every stored state: primary keys are
    distinct, purchase ids were issued by AUTOINCREMENT, the CHECK
    constraints hold and the supplier keys of purchases and payments
    resolve. *)
Record wf (t : store) : Prop := mk_wf {
  wf_purchase_ids : NoDup (map p_id (purchases t));
  wf_payment_ids : NoDup (map y_id (payments t));
  wf_purchase_pos : forall p, In p (purchases t) -> 0 < p_id p;
  wf_purchase_check : forall p, In p (purchases t) -> check_purchase p = true;
  wf_payment_check : forall y, In y (payments t) -> check_payment y = true;
  wf_purchase_fk : forall p, In p (purchases t) ->
                             supplier_exists t (p_supplier_id p) = true;
  wf_payment_fk : forall y, In y (payments t) ->
                            supplier_exists t (y_supplier_id y) = true
}.

(** The same, as a test on a concrete state. *)
Fixpoint distinct (l : list Z) : bool :=
  match l with
  | [] => true
  | x :: l' => negb (existsb (Z.eqb x) l') && distinct l'
  end.

Definition wfb (t : store) : bool :=
  distinct (map p_id (purchases t))
  && distinct (map y_id (payments t))
  && forallb (fun p => (0 <? p_id p) && check_purchase p
                       && supplier_exists t (p_supplier_id p)) (purchases t)
  && forallb (fun y => check_payment y && supplier_exists t (y_supplier_id y))
             (payments t).

(** A call was refused: it raised [ValueError], or the storage engine
    itself failed, and the tables are as before the call. *)
Definition refused {A} (flt : nat -> bool) (c : connection)
    (r : outcome A * connection) : Prop :=
  tables (snd r) = tables c
  /\ ((exists msg, fst r = Raise (ValueError msg))
      \/ (fst r = Raise OperationalError /\ exists site, flt site = true)).

(** The same, with the message of the [ValueError]. *)
Definition refused_with {A} (msg : string) (flt : nat -> bool) (c : connection)
    (r : outcome A * connection) : Prop :=
  tables (snd r) = tables c
  /\ (fst r = Raise (ValueError msg)
      \/ (fst r = Raise OperationalError /\ exists site, flt site = true)).

(** A connection between two repository calls. *)
Definition ready (c : connection) : Prop := wf (tables c) /\ clean c.

(** One successful payment operation. *)
Inductive payment_step : connection -> connection -> Prop :=
| step_create flt date supplier_id amount payment_mode purchase_id reference_no notes
    c id c' :
    Payment.create flt date supplier_id amount payment_mode purchase_id
                   reference_no notes c = (Return id, c') ->
    payment_step c c'
| step_update flt id date amount payment_mode reference_no notes c b c' :
    Payment.update flt id date amount payment_mode reference_no notes c
      = (Return b, c') ->
    payment_step c c'
| step_delete flt id c b c' :
    Payment.delete flt id c = (Return b, c') ->
    payment_step c c'.

(** One successful [Purchase.create] or [Payment.create]. *)
Inductive create_step : connection -> connection -> Prop :=
| step_purchase flt date supplier_id amount bill_no paid_amount items notes c id c' :
    Purchase.create flt date supplier_id amount bill_no paid_amount items notes c
      = (Return id, c') ->
    create_step c c'
| step_payment flt date supplier_id amount payment_mode purchase_id reference_no notes
    c id c' :
    Payment.create flt date supplier_id amount payment_mode purchase_id
                   reference_no notes c = (Return id, c') ->
    create_step c c'.

(** Finite sequences of steps. *)
Inductive steps (R : connection -> connection -> Prop) : connection -> connection -> Prop :=
| steps_nil c : steps R c c
| steps_snoc c c1 c2 : steps R c c1 -> R c1 c2 -> steps R c c2.

(** A name made of whitespace only (the empty name included). *)
Fixpoint blank (s : string) : bool :=
  match s with
  | EmptyString => true
  | String a s' => isspace a && blank s'
  end.

(** A text that neither starts nor ends with whitespace. *)
Definition starts_clean (s : string) : bool :=
  match s with
  | EmptyString => true
  | String a _ => negb (isspace a)
  end.

Fixpoint ends_clean (s : string) : bool :=
  match s with
  | EmptyString => true
  | String a EmptyString => negb (isspace a)
  | String _ s' => ends_clean s'
  end.

(** The storage engine fails at one site. *)
Definition fault_at (n : nat) : nat -> bool := fun site => Nat.eqb site n.

(** *** Invariants of a whole session *)

(** I1 for every purchase. *)
Definition all_within_amount (t : store) : Prop :=
  forall p, In p (purchases t) -> within_amount p.

(** The row of [Supplier.get_all] for supplier [s], computed from the
    purchases table alone. *)
Definition listing_of (t : store) (s : supplier_row) : Supplier.listing :=
  Supplier.mk_listing s
    (count_if (of_supplier (s_id s)) (purchases t))
    (amount_total (s_id s) t) (paid_total (s_id s) t).

(** Supplier ids and supplier names are keys. *)
Definition suppliers_keyed (t : store) : Prop :=
  NoDup (map s_id (suppliers t)) /\ NoDup (map s_name (suppliers t)).

(** Every purchase has a positive amount. *)
Definition amounts_positive (t : store) : Prop :=
  forall p, In p (purchases t) -> 0 < p_amount p.

(** What the operations keep besides [wf]. *)
Definition shaped (t : store) : Prop := suppliers_keyed t /\ amounts_positive t.

(** A connection between two calls of a session. *)
Definition consistent (c : connection) : Prop := ready c /\ shaped (tables c).

(** One call of a writing operation of the three repositories, whatever its
    arguments, its storage faults and its outcome. *)
Inductive api_step : connection -> connection -> Prop :=
| api_supplier_create flt name contact address c o c' :
    Supplier.create flt name contact address c = (o, c') -> api_step c c'
| api_supplier_update flt id name contact address c o c' :
    Supplier.update flt id name contact address c = (o, c') -> api_step c c'
| api_supplier_delete flt id c o c' :
    Supplier.delete flt id c = (o, c') -> api_step c c'
| api_purchase_create flt date supplier_id amount bill_no paid_amount items notes
    c o c' :
    Purchase.create flt date supplier_id amount bill_no paid_amount items notes c
      = (o, c') ->
    api_step c c'
| api_purchase_update flt id date supplier_id bill_no amount paid_amount items notes
    c o c' :
    Purchase.update flt id date supplier_id bill_no amount paid_amount items notes c
      = (o, c') ->
    api_step c c'
| api_purchase_delete flt id c o c' :
    Purchase.delete flt id c = (o, c') -> api_step c c'
| api_purchase_add_payment flt id amount c o c' :
    Purchase.add_payment flt id amount c = (o, c') -> api_step c c'
| api_payment_create flt date supplier_id amount payment_mode purchase_id
    reference_no notes c o c' :
    Payment.create flt date supplier_id amount payment_mode purchase_id
                   reference_no notes c = (o, c') ->
    api_step c c'
| api_payment_update flt id date amount payment_mode reference_no notes c o c' :
    Payment.update flt id date amount payment_mode reference_no notes c = (o, c') ->
    api_step c c'
| api_payment_delete flt id c o c' :
    Payment.delete flt id c = (o, c') -> api_step c c'.

(** AUTOINCREMENT: no stored id is above the sequence of its table, and
    the sequences of [t'] are not below those of [t]. *)
Definition sequenced (t : store) : Prop :=
  (forall s, In s (suppliers t) -> s_id s <= seq_suppliers t)
  /\ (forall p, In p (purchases t) -> p_id p <= seq_purchases t)
  /\ (forall y, In y (payments t) -> y_id y <= seq_payments t).

Definition seq_le (t t' : store) : Prop :=
  seq_suppliers t <= seq_suppliers t'
  /\ seq_purchases t <= seq_purchases t'
  /\ seq_payments t <= seq_payments t'.

Definition grows (t t' : store) : Prop :=
  seq_le t t' /\ (sequenced t -> sequenced t').

(** *** Whole-number amounts

    binary64 represents every whole number of magnitude up to 2^53 and adds
    and subtracts two of them exactly when the result is one of them
    again.  With every value within 2^52 each sum and difference the
    operations compute on two such values is exact. *)
Definition exact_range (z : Z) : Prop := - 2 ^ 52 <= z <= 2 ^ 52.

Definition in_range (t : store) : Prop :=
  (forall s, In s (suppliers t) -> exact_range (s_balance s))
  /\ (forall p, In p (purchases t) ->
                 exact_range (p_amount p) /\ exact_range (p_paid_amount p))
  /\ (forall y, In y (payments t) -> exact_range (y_amount y)).

(** The same, as a test on a concrete state. *)
Definition exact_rangeb (z : Z) : bool := (- 2 ^ 52 <=? z) && (z <=? 2 ^ 52).

Definition in_rangeb (t : store) : bool :=
  forallb (fun s => exact_rangeb (s_balance s)) (suppliers t)
  && forallb (fun p => exact_rangeb (p_amount p) && exact_rangeb (p_paid_amount p))
             (purchases t)
  && forallb (fun y => exact_rangeb (y_amount y)) (payments t).

(** A step between two states of whole-number amounts in that range. *)
Definition within (R : connection -> connection -> Prop) (c c' : connection)
  : Prop :=
  R c c' /\ in_range (tables c) /\ in_range (tables c').

(** A column whose SUM is exact: the magnitudes add up to at most 2^52. *)
Definition sum_in_range (col : list Z) : Prop := sum_Z (map Z.abs col) <= 2 ^ 52.

(** A text without NUL. *)
Fixpoint no_nul (s : string) : bool :=
  match s with
  | EmptyString => true
  | String a s' => negb (Ascii.eqb a "000") && no_nul s'
  end.

(** Two texts of the same length that agree up to the case of A-Z. *)
Fixpoint same_nocase (q q' : string) : bool :=
  match q, q' with
  | EmptyString, EmptyString => true
  | String a q1, String c q1' => eq_nocase a c && same_nocase q1 q1'
  | _, _ => false
  end.

(** Rows in a given order. *)
Fixpoint ordered {A} (le : A -> A -> bool) (l : list A) : bool :=
  match l with
  | [] => true
  | x :: l' =>
      match l' with
      | [] => true
      | y :: _ => le x y && ordered le l'
      end
  end.

(** *** Concrete states used in the examples

    The scenarios of the specification: supplier "Acme" alone; then
    (scenario A) a purchase of 1000; then (scenario B) a payment of 400
    against it. *)
Definition acme_only : store :=
  mk_store [mk_supplier 1 "Acme" None None 0] [] [] 1 0 0.

Definition scenario_A : store :=
  mk_store [mk_supplier 1 "Acme" None None 1000]
           [mk_purchase 1 "2024-01-01" 1 None 1000 0 None None] [] 1 1 0.

Definition acme : supplier_row := mk_supplier 1 "Acme" None None 600.
Definition bill : purchase_row :=
  mk_purchase 1 "2024-01-01" 1 None 1000 400 None None.
Definition part_payment : payment_row :=
  mk_payment 1 "2024-01-02" 1 (Some 1) 400 "cash" None None.
Definition scenario_B : store := mk_store [acme] [bill] [part_payment] 1 1 1.

(** Scenario B followed by an advance payment of 100. *)
Definition advance : payment_row :=
  mk_payment 2 "2024-01-03" 1 None 100 "upi" None None.
Definition scenario_advance : store :=
  mk_store [mk_supplier 1 "Acme" None None 500] [bill] [part_payment; advance] 1 1 2.


(** Two suppliers without transactions. *)
Definition two_suppliers : store :=
  mk_store [mk_supplier 1 "Acme" None None 0;
            mk_supplier 2 "Bolt" (Some "Bolt and Sons") None 0] [] [] 2 0 0.

(** Scenario B after [Purchase.update (amount = 50)]. *)
Definition bill_cut : purchase_row :=
  mk_purchase 1 "2024-01-01" 1 None 50 400 None None.
Definition scenario_cut : store := mk_store [acme] [bill_cut] [part_payment] 1 1 1.

(** ** The money path on binary64 values

    The code holds every monetary value in binary64: [app.py] passes
    [float(...)] of the form fields, the repositories compute on Python
    floats, and the DECIMAL(15,2) columns have NUMERIC affinity, under which
    SQLite stores and adds such values as 8-byte floats.  This module
    re-embeds the operations that compute on money -- [Purchase.create],
    [Payment.create], [Payment.delete], their statements and the two
    balance triggers -- with [float] in the place of the exact integers, so
    that they can be run on amounts with cents.  Everything else (keys,
    transaction, exceptions, storage faults) is as above.

    It covers the finite values of magnitude below 2^53.  Outside stand NaN,
    which the driver binds as NULL, and the larger whole numbers, which
    SQLite keeps and adds as 64-bit integers. *)

Module Binary64.

Record supplier_row := mk_supplier {
  s_id : Z;
  s_name : string;
  s_contact : option string;
  s_address : option string;
  s_balance : float
}.

Record purchase_row := mk_purchase {
  p_id : Z;
  p_date : string;
  p_supplier_id : Z;
  p_bill_no : option string;
  p_amount : float;
  p_paid_amount : float;
  p_items : option string;
  p_notes : option string
}.

Record payment_row := mk_payment {
  y_id : Z;
  y_date : string;
  y_supplier_id : Z;
  y_purchase_id : option Z;
  y_amount : float;
  y_payment_mode : string;
  y_reference_no : option string;
  y_notes : option string
}.

Record store := mk_store {
  suppliers : list supplier_row;
  purchases : list purchase_row;
  payments : list payment_row;
  seq_suppliers : Z;
  seq_purchases : Z;
  seq_payments : Z
}.

Record connection := mk_conn {
  tables : store;
  txn : option store
}.

Definition fresh_connection (t : store) : connection := mk_conn t None.

Definition M (A : Type) : Type := connection -> outcome A * connection.

Definition ret {A} (a : A) : M A := fun c => (Return a, c).

Definition bind {A B} (m : M A) (k : A -> M B) : M B :=
  fun c =>
    match m c with
    | (Return a, c1) => k a c1
    | (Raise e, c1) => (Raise e, c1)
    end.

Definition raise {A} (e : exn) : M A := fun c => (Raise e, c).

Definition try_except {A} (m : M A) (sel : exn -> bool) (h : exn -> M A) : M A :=
  fun c =>
    match m c with
    | (Return a, c1) => (Return a, c1)
    | (Raise e, c1) => if sel e then h e c1 else (Raise e, c1)
    end.

Declare Scope b64_scope.
Delimit Scope b64_scope with b64.
Notation "x <- m ;; k" := (bind m (fun x => k))
  (at level 61, m at next level, right associativity) : b64_scope.
Notation "m ;; k" := (bind m (fun _ => k))
  (at level 61, right associativity) : b64_scope.
Local Open Scope b64_scope.

Definition raise_if (b : bool) (e : exn) : M unit :=
  if b then raise e else ret tt.

Definition if_truthy {A} (o : option Z) (body : Z -> M A) (skip : M A) : M A :=
  match o with
  | Some n => if n =? 0 then skip else body n
  | None => skip
  end.

(** *** Schema, triggers and statements *)

(** CHECK(amount >= 0), CHECK(paid_amount >= 0) *)
Definition check_purchase (p : purchase_row) : bool :=
  (0 <=? p_amount p)%float && (0 <=? p_paid_amount p)%float.

(** CHECK(amount > 0), CHECK(payment_mode IN (...)) *)
Definition check_payment (y : payment_row) : bool :=
  (0 <? y_amount y)%float && mode_in (y_payment_mode y).

Definition supplier_exists (t : store) (id : Z) : bool :=
  existsb (fun s => s_id s =? id) (suppliers t).

Definition purchase_exists (t : store) (id : Z) : bool :=
  existsb (fun p => p_id p =? id) (purchases t).

Definition fk_purchase (t : store) (p : purchase_row) : bool :=
  supplier_exists t (p_supplier_id p).

Definition fk_payment (t : store) (y : payment_row) : bool :=
  supplier_exists t (y_supplier_id y)
  && match y_purchase_id y with
     | None => true
     | Some pid => purchase_exists t pid
     end.

(** [UPDATE suppliers SET balance = <f balance> WHERE id = sid], the body
    of both triggers. *)
Definition set_balance (sid : Z) (f : float -> float)
    (l : list supplier_row) : list supplier_row :=
  map (fun s =>
         if s_id s =? sid
         then mk_supplier (s_id s) (s_name s) (s_contact s) (s_address s)
                          (f (s_balance s))
         else s) l.

Definition statement : Type := store -> option (store * Z).

(** INSERT INTO purchases, then [update_supplier_balance_on_purchase]:
    [balance = balance + NEW.amount - NEW.paid_amount]. *)
Definition insert_purchase (date : string) (supplier_id : Z)
    (bill_no : option string) (amount paid_amount : float)
    (items notes : option string) : statement := fun t =>
  let id := next_rowid (seq_purchases t) (map p_id (purchases t)) in
  let row := mk_purchase id date supplier_id bill_no amount paid_amount items notes in
  if check_purchase row && fk_purchase t row
  then Some (mk_store
               (set_balance supplier_id
                  (fun balance => (balance + amount - paid_amount)%float)
                  (suppliers t))
               (purchases t ++ [row]) (payments t)
               (seq_suppliers t) id (seq_payments t), id)
  else None.

(** INSERT INTO payments, then [update_supplier_balance_on_payment]:
    [balance = balance - NEW.amount]. *)
Definition insert_payment (date : string) (supplier_id : Z)
    (purchase_id : option Z) (amount : float) (payment_mode : string)
    (reference_no notes : option string) : statement := fun t =>
  let id := next_rowid (seq_payments t) (map y_id (payments t)) in
  let row := mk_payment id date supplier_id purchase_id amount payment_mode
                        reference_no notes in
  if check_payment row && fk_payment t row
  then Some (mk_store
               (set_balance supplier_id (fun balance => (balance - amount)%float)
                            (suppliers t))
               (purchases t) (payments t ++ [row])
               (seq_suppliers t) (seq_purchases t) id, id)
  else None.

(** [UPDATE purchases SET paid_amount = <f paid_amount> WHERE id = ?] *)
Definition set_paid (f : float -> float) (p : purchase_row)
  : purchase_row :=
  mk_purchase (p_id p) (p_date p) (p_supplier_id p) (p_bill_no p) (p_amount p)
              (f (p_paid_amount p)) (p_items p) (p_notes p).

Definition update_paid (f : float -> float) (id : Z)
  : statement := fun t =>
  let sel := fun p => p_id p =? id in
  if rewritten_ok sel check_purchase (set_paid f) (purchases t)
  then Some (mk_store (suppliers t)
               (update_where sel (set_paid f) (purchases t)) (payments t)
               (seq_suppliers t) (seq_purchases t) (seq_payments t),
             count_if sel (purchases t))
  else None.

(** [SET paid_amount = paid_amount + ?] *)
Definition add_paid_amount (delta : float) (id : Z) : statement :=
  update_paid (fun paid_amount => (paid_amount + delta)%float) id.

(** [SET paid_amount = paid_amount - ?] *)
Definition subtract_paid_amount (delta : float) (id : Z) : statement :=
  update_paid (fun paid_amount => (paid_amount - delta)%float) id.

(** [DELETE FROM payments WHERE id = ?] *)
Definition delete_payment (id : Z) : statement := fun t =>
  let sel := fun y => y_id y =? id in
  Some (mk_store (suppliers t) (purchases t)
          (filter (fun y => negb (sel y)) (payments t))
          (seq_suppliers t) (seq_purchases t) (seq_payments t),
        count_if sel (payments t)).

Section Cursor.
Variable flt : nat -> bool.

Definition begin (c : connection) : connection :=
  match txn c with
  | Some _ => c
  | None => mk_conn (tables c) (Some (tables c))
  end.

Definition fetch {A} (site : nat) (q : store -> A) : M A := fun c =>
  if flt site then (Raise OperationalError, c)
  else (Return (q (tables c)), c).

Definition execute (site : nat) (stmt : statement) : M Z := fun c =>
  let c1 := begin c in
  if flt site then (Raise OperationalError, c1)
  else match stmt (tables c1) with
       | Some (t', n) => (Return n, mk_conn t' (txn c1))
       | None => (Raise IntegrityError, c1)
       end.

Definition commit (site : nat) : M unit := fun c =>
  if flt site then (Raise OperationalError, c)
  else (Return tt, mk_conn (tables c) None).

Definition rollback : M unit := fun c =>
  (Return tt,
   mk_conn (match txn c with Some t0 => t0 | None => tables c end) None).
End Cursor.

(** [SELECT id FROM suppliers WHERE id = ?] *)
Definition select_supplier_id (id : Z) (t : store) : option Z :=
  option_map s_id (find (fun s => s_id s =? id) (suppliers t)).

(** [SELECT amount, paid_amount FROM purchases WHERE id = ? AND supplier_id = ?] *)
Definition select_purchase_of (purchase_id supplier_id : Z) (t : store)
  : option purchase_row :=
  find (fun p => (p_id p =? purchase_id) && (p_supplier_id p =? supplier_id))
       (purchases t).

(** The SELECT of [Payment.get_by_id]. *)
Definition select_by_id (id : Z) (t : store) : option payment_row :=
  find (fun y => (y_id y =? id) && supplier_exists t (y_supplier_id y)) (payments t).

(** *** [models/purchase.py] *)

Module Purchase.
Section Ops.
Variable flt : nat -> bool.

Definition create (date : string) (supplier_id : Z) (amount : float)
    (bill_no : option string) (paid_amount : float)
    (items notes : option string) : M Z :=
  try_except
    (raise_if (amount <=? 0)%float (ValueError "Amount must be positive") ;;
     raise_if (paid_amount <? 0)%float
              (ValueError "Paid amount cannot be negative") ;;
     raise_if (amount <? paid_amount)%float
              (ValueError "Paid amount cannot exceed total amount") ;;
     s <- fetch flt 131 (select_supplier_id supplier_id) ;;
     raise_if (negb (is_some s)) (ValueError "Supplier does not exist") ;;
     purchase_id <-
       execute flt 135
         (insert_purchase date supplier_id bill_no amount paid_amount items notes) ;;
     commit flt 140 ;;
     ret purchase_id)
    sqlite3_Error (fun e => rollback ;; raise e).
End Ops.
End Purchase.

(** *** [models/payment.py] *)

Module Payment.
Section Ops.
Variable flt : nat -> bool.

Definition get_by_id (id : Z) : M (option payment_row) :=
  try_except
    (fetch flt 44 (select_by_id id))
    sqlite3_Error (fun _ => ret None).

Definition create (date : string) (supplier_id : Z) (amount : float)
    (payment_mode : string) (purchase_id : option Z)
    (reference_no notes : option string) : M Z :=
  try_except
    (raise_if (amount <=? 0)%float (ValueError "Amount must be positive") ;;
     raise_if (negb (mode_in payment_mode)) (ValueError "Invalid payment mode") ;;
     s <- fetch flt 142 (select_supplier_id supplier_id) ;;
     raise_if (negb (is_some s)) (ValueError "Supplier does not exist") ;;
     if_truthy purchase_id
       (fun pid =>
          purchase <- fetch flt 148 (select_purchase_of pid supplier_id) ;;
          match purchase with
          | None => raise (ValueError "Purchase does not exist for this supplier")
          | Some purchase =>
              let outstanding := (p_amount purchase - p_paid_amount purchase)%float in
              raise_if (outstanding <? amount)%float
                       (ValueError "Payment amount exceeds outstanding balance")
          end)
       (ret tt) ;;
     payment_id <-
       execute flt 162
         (insert_payment date supplier_id purchase_id amount payment_mode
                         reference_no notes) ;;
     if_truthy purchase_id
       (fun pid => execute flt 171 (add_paid_amount amount pid) ;; ret tt)
       (ret tt) ;;
     commit flt 177 ;;
     ret payment_id)
    sqlite3_Error (fun e => rollback ;; raise e).

Definition delete (id : Z) : M bool :=
  try_except
    (payment <- get_by_id id ;;
     match payment with
     | None => raise (ValueError "Payment does not exist")
     | Some payment =>
         if_truthy (y_purchase_id payment)
           (fun pid =>
              execute flt 279 (subtract_paid_amount (y_amount payment) pid) ;;
              ret tt)
           (ret tt) ;;
         rowcount <- execute flt 285 (delete_payment id) ;;
         commit flt 286 ;;
         ret (0 <? rowcount)
     end)
    sqlite3_Error (fun e => rollback ;; raise e).
End Ops.
End Payment.

(** Supplier "Acme" alone, with balance 0. *)
Definition acme_only : store :=
  mk_store [mk_supplier 1 "Acme" None None 0%float] [] [] 1 0 0.

End Binary64.

(** * Proofs *)

(** ** Facts about lists and sums *)

Arguments sum_Z : simpl never.

Lemma sum_Z_cons x l : sum_Z (x :: l) = x + sum_Z l.
Proof. reflexivity. Qed.

Lemma sum_Z_app l1 l2 : sum_Z (l1 ++ l2) = sum_Z l1 + sum_Z l2.
Proof.
  induction l1 as [|x l1 IH]; [reflexivity|].
  rewrite <- app_comm_cons, !sum_Z_cons, IH. lia.
Qed.

Section ListFacts.
Context {A : Type}.

Lemma update_where_key {K} (key : A -> K) sel f (l : list A) :
  (forall r, key (f r) = key r) ->
  map key (update_where sel f l) = map key l.
Proof.
  intros Hk. unfold update_where. rewrite map_map. apply map_ext.
  intros r. destruct (sel r); auto.
Qed.

Lemma in_update_where sel f (l : list A) r' :
  In r' (update_where sel f l) ->
  exists r, In r l /\ r' = (if sel r then f r else r).
Proof.
  unfold update_where. rewrite in_map_iff. intros (r & E & Hin). eauto.
Qed.

Lemma rewritten_ok_spec sel ok f (l : list A) r :
  rewritten_ok sel ok f l = true -> In r l -> sel r = true -> ok (f r) = true.
Proof.
  unfold rewritten_ok. rewrite forallb_forall. intros H Hin Hs.
  specialize (H r Hin). rewrite Hs in H. exact H.
Qed.

Lemma NoDup_map_snoc {K} (key : A -> K) (l : list A) r :
  NoDup (map key l) -> ~ In (key r) (map key l) ->
  NoDup (map key (l ++ [r])).
Proof.
  induction l as [|x l IH]; simpl; intros Hn Hr.
  - constructor; [intros [] | constructor].
  - inversion Hn as [|? ? Hx Hn']; subst. constructor.
    + rewrite map_app, in_app_iff. simpl. intros [H | [H | []]]; [tauto|].
      apply Hr. left. symmetry. exact H.
    + apply IH; [assumption | tauto].
Qed.

Lemma NoDup_map_filter {K} (key : A -> K) g (l : list A) :
  NoDup (map key l) -> NoDup (map key (filter g l)).
Proof.
  induction l as [|x l IH]; simpl; intros Hn; [constructor|].
  inversion Hn as [|? ? Hx Hn']; subst.
  destruct (g x); simpl; [constructor|]; auto.
  intros Hin. apply Hx. rewrite in_map_iff in *.
  destruct Hin as (y & E & Hy). apply filter_In in Hy. exists y. tauto.
Qed.

(** In a table with distinct keys, a lookup by key finds the row. *)
Lemma find_by_key (key : A -> Z) (extra : A -> bool) (l : list A) r :
  NoDup (map key l) -> In r l -> extra r = true ->
  find (fun x => (key x =? key r) && extra x) l = Some r.
Proof.
  induction l as [|x l IH]; simpl; intros Hn Hin He; [contradiction|].
  inversion Hn as [|? ? Hx Hn']; subst. destruct Hin as [-> | Hin].
  - rewrite Z.eqb_refl, He. reflexivity.
  - destruct (Z.eqb_spec (key x) (key r)) as [E | E]; simpl.
    + exfalso. apply Hx. rewrite E. apply in_map. exact Hin.
    + apply IH; assumption.
Qed.
End ListFacts.

Lemma fold_max_ge ids x : In x ids -> x <= fold_right Z.max 0 ids.
Proof.
  induction ids as [|y ids IH]; simpl; [contradiction|].
  intros [-> | H]; [lia | specialize (IH H); lia].
Qed.

Lemma next_rowid_fresh seq ids : ~ In (next_rowid seq ids) ids.
Proof.
  intros H. apply fold_max_ge in H. unfold next_rowid in H. lia.
Qed.

Lemma fold_max_nonneg ids : 0 <= fold_right Z.max 0 ids.
Proof. induction ids; simpl; lia. Qed.

Lemma next_rowid_pos seq ids : 0 < next_rowid seq ids.
Proof. pose proof (fold_max_nonneg ids). unfold next_rowid. lia. Qed.

Lemma distinct_NoDup l : distinct l = true -> NoDup l.
Proof.
  induction l as [|x l IH]; simpl; [constructor|].
  rewrite andb_true_iff, negb_true_iff. intros [Hx Hl]. constructor; auto.
  intros Hin. assert (existsb (Z.eqb x) l = true); [|congruence].
  apply existsb_exists. exists x. split; [assumption | apply Z.eqb_refl].
Qed.

Lemma wfb_sound t : wfb t = true -> wf t.
Proof.
  unfold wfb. rewrite !andb_true_iff, !forallb_forall.
  intros [[[H1 H2] H3] H4]. constructor.
  - apply distinct_NoDup, H1.
  - apply distinct_NoDup, H2.
  - intros p Hp. specialize (H3 p Hp). rewrite !andb_true_iff in H3. lia.
  - intros p Hp. specialize (H3 p Hp). rewrite !andb_true_iff in H3. tauto.
  - intros y Hy. specialize (H4 y Hy). rewrite !andb_true_iff in H4. tauto.
  - intros p Hp. specialize (H3 p Hp). rewrite !andb_true_iff in H3. tauto.
  - intros y Hy. specialize (H4 y Hy). rewrite !andb_true_iff in H4. tauto.
Qed.

(** ** The statements keep the schema's guarantees *)

Lemma exists_add_balance sid delta l id :
  existsb (fun s => s_id s =? id) (add_balance sid delta l)
  = existsb (fun s => s_id s =? id) l.
Proof.
  induction l as [|s l IH]; simpl; [reflexivity|]. rewrite IH.
  destruct (s_id s =? sid); reflexivity.
Qed.

Lemma exists_snoc {A} (f : A -> bool) l r :
  existsb f l = true -> existsb f (l ++ [r]) = true.
Proof. rewrite existsb_app. intros ->. reflexivity. Qed.

Lemma set_supplier_id updates s : s_id (fold_left set_supplier updates s) = s_id s.
Proof.
  revert s. induction updates as [|a u IH]; intros s; simpl; [reflexivity|].
  rewrite IH. destruct a; reflexivity.
Qed.

Lemma set_purchase_id updates p : p_id (fold_left set_purchase updates p) = p_id p.
Proof.
  revert p. induction updates as [|a u IH]; intros p; simpl; [reflexivity|].
  rewrite IH. destruct a; reflexivity.
Qed.

Lemma set_payment_frame updates y :
  y_id (fold_left set_payment updates y) = y_id y
  /\ y_supplier_id (fold_left set_payment updates y) = y_supplier_id y
  /\ y_purchase_id (fold_left set_payment updates y) = y_purchase_id y.
Proof.
  revert y. induction updates as [|a u IH]; intros y; simpl; [auto|].
  destruct (IH (set_payment y a)) as (-> & -> & ->). destruct a; auto.
Qed.

Lemma insert_supplier_wf name contact address t t' n :
  wf t -> insert_supplier name contact address t = Some (t', n) -> wf t'.
Proof.
  intros [H1 H2 H3 H4 H5 H6 H7]. unfold insert_supplier.
  destruct (existsb _ _); [discriminate|]. intros E. inversion E; subst; clear E.
  constructor; simpl; auto.
  - intros p Hp. unfold supplier_exists; simpl. apply exists_snoc, H6, Hp.
  - intros y Hy. unfold supplier_exists; simpl. apply exists_snoc, H7, Hy.
Qed.

Lemma insert_purchase_wf date sid bill_no amount paid items notes t t' n :
  wf t -> insert_purchase date sid bill_no amount paid items notes t = Some (t', n) ->
  wf t'.
Proof.
  intros [H1 H2 H3 H4 H5 H6 H7]. unfold insert_purchase.
  destruct (check_purchase _ && fk_purchase _ _) eqn:Hc; [|discriminate].
  apply andb_true_iff in Hc. destruct Hc as [Hc Hf].
  intros E. inversion E; subst; clear E.
  constructor; simpl; auto.
  - apply NoDup_map_snoc; [assumption | apply next_rowid_fresh].
  - intros p Hp. apply in_app_iff in Hp. destruct Hp as [Hp | [<- | []]]; auto.
    simpl. apply next_rowid_pos.
  - intros p Hp. apply in_app_iff in Hp. destruct Hp as [Hp | [<- | []]]; auto.
  - intros p Hp. unfold supplier_exists; simpl. rewrite exists_add_balance.
    apply in_app_iff in Hp. destruct Hp as [Hp | [<- | []]]; [apply H6, Hp | exact Hf].
  - intros y Hy. unfold supplier_exists; simpl. rewrite exists_add_balance.
    apply H7, Hy.
Qed.

Lemma insert_payment_wf date sid purchase_id amount mode ref notes t t' n :
  wf t -> insert_payment date sid purchase_id amount mode ref notes t = Some (t', n) ->
  wf t'.
Proof.
  intros [H1 H2 H3 H4 H5 H6 H7]. unfold insert_payment.
  destruct (check_payment _ && fk_payment _ _) eqn:Hc; [|discriminate].
  apply andb_true_iff in Hc. destruct Hc as [Hc Hf].
  unfold fk_payment in Hf. apply andb_true_iff in Hf. destruct Hf as [Hf _].
  intros E. inversion E; subst; clear E.
  constructor; simpl; auto.
  - apply NoDup_map_snoc; [assumption | apply next_rowid_fresh].
  - intros y Hy. apply in_app_iff in Hy. destruct Hy as [Hy | [<- | []]]; auto.
  - intros p Hp. unfold supplier_exists; simpl. rewrite exists_add_balance.
    apply H6, Hp.
  - intros y Hy. unfold supplier_exists; simpl. rewrite exists_add_balance.
    apply in_app_iff in Hy. destruct Hy as [Hy | [<- | []]]; [apply H7, Hy | exact Hf].
Qed.

Lemma update_paid_amount_wf delta id t t' n :
  wf t -> update_paid_amount delta id t = Some (t', n) -> wf t'.
Proof.
  intros [H1 H2 H3 H4 H5 H6 H7]. unfold update_paid_amount.
  destruct (rewritten_ok _ _ _ _) eqn:Hc; [|discriminate].
  intros E. inversion E; subst; clear E.
  constructor; simpl; auto.
  - rewrite update_where_key; auto.
  - intros p' Hp. apply in_update_where in Hp. destruct Hp as (p & Hp & ->).
    destruct (p_id p =? id); simpl; auto.
  - intros p' Hp. apply in_update_where in Hp. destruct Hp as (p & Hp & ->).
    destruct (p_id p =? id) eqn:Hs; auto.
    exact (rewritten_ok_spec _ _ _ _ p Hc Hp Hs).
  - intros p' Hp. apply in_update_where in Hp. destruct Hp as (p & Hp & ->).
    unfold supplier_exists; simpl.
    destruct (p_id p =? id); simpl; apply H6, Hp.
Qed.

Lemma update_suppliers_wf updates id t t' n :
  wf t -> update_suppliers updates id t = Some (t', n) -> wf t'.
Proof.
  intros [H1 H2 H3 H4 H5 H6 H7]. unfold update_suppliers.
  destruct (forallb _ _); [|discriminate].
  intros E. inversion E; subst; clear E.
  assert (Hex : forall k, existsb (fun s => s_id s =? k)
                   (update_where (fun s => s_id s =? id)
                      (fun s => fold_left set_supplier updates s) (suppliers t))
                 = existsb (fun s => s_id s =? k) (suppliers t)).
  { intros k. induction (suppliers t) as [|s l IH]; simpl; [reflexivity|].
    rewrite IH. destruct (s_id s =? id); [rewrite set_supplier_id|]; reflexivity. }
  constructor; simpl; auto.
  - intros p Hp. unfold supplier_exists; simpl. rewrite Hex. apply H6, Hp.
  - intros y Hy. unfold supplier_exists; simpl. rewrite Hex. apply H7, Hy.
Qed.

Lemma update_purchases_wf updates id t t' n :
  wf t -> update_purchases updates id t = Some (t', n) -> wf t'.
Proof.
  intros [H1 H2 H3 H4 H5 H6 H7]. unfold update_purchases.
  destruct (rewritten_ok _ _ _ _) eqn:Hc; [|discriminate].
  intros E. inversion E; subst; clear E.
  constructor; simpl; auto.
  - rewrite update_where_key; auto. intros; apply set_purchase_id.
  - intros p' Hp. apply in_update_where in Hp. destruct Hp as (p & Hp & ->).
    destruct (p_id p =? id); [rewrite set_purchase_id|]; auto.
  - intros p' Hp. apply in_update_where in Hp. destruct Hp as (p & Hp & ->).
    destruct (p_id p =? id) eqn:Hs; auto.
    pose proof (rewritten_ok_spec _ _ _ _ p Hc Hp Hs) as Hr.
    apply andb_true_iff in Hr. tauto.
  - intros p' Hp. apply in_update_where in Hp. destruct Hp as (p & Hp & ->).
    unfold supplier_exists; simpl.
    destruct (p_id p =? id) eqn:Hs; [|apply H6, Hp].
    pose proof (rewritten_ok_spec _ _ _ _ p Hc Hp Hs) as Hr.
    apply andb_true_iff in Hr. apply Hr.
Qed.

Lemma update_payments_wf updates id t t' n :
  wf t -> update_payments updates id t = Some (t', n) -> wf t'.
Proof.
  intros [H1 H2 H3 H4 H5 H6 H7]. unfold update_payments.
  destruct (rewritten_ok _ _ _ _) eqn:Hc; [|discriminate].
  intros E. inversion E; subst; clear E.
  constructor; simpl; auto.
  - rewrite update_where_key; auto. intros; apply set_payment_frame.
  - intros y' Hy. apply in_update_where in Hy. destruct Hy as (y & Hy & ->).
    destruct (y_id y =? id) eqn:Hs; auto.
    exact (rewritten_ok_spec _ _ _ _ y Hc Hy Hs).
  - intros y' Hy. apply in_update_where in Hy. destruct Hy as (y & Hy & ->).
    unfold supplier_exists; simpl.
    destruct (y_id y =? id); [|apply H7, Hy].
    destruct (set_payment_frame updates y) as (_ & -> & _). apply H7, Hy.
Qed.

Lemma exists_filter_other id k l :
  k <> id ->
  existsb (fun s => s_id s =? k) (filter (fun s => negb (s_id s =? id)) l)
  = existsb (fun s => s_id s =? k) l.
Proof.
  intros Hk. induction l as [|s l IH]; simpl; [reflexivity|].
  destruct (Z.eqb_spec (s_id s) id) as [E | E]; simpl; rewrite IH; [|reflexivity].
  destruct (Z.eqb_spec (s_id s) k); [congruence | reflexivity].
Qed.

Lemma delete_supplier_wf id t t' n :
  wf t -> delete_supplier id t = Some (t', n) -> wf t'.
Proof.
  intros [H1 H2 H3 H4 H5 H6 H7]. unfold delete_supplier.
  destruct (existsb _ (suppliers t) && _) eqn:Hc; [discriminate|].
  intros E. inversion E; subst; clear E.
  apply andb_false_iff in Hc.
  constructor; simpl; auto.
  - intros p Hp. unfold supplier_exists; simpl.
    destruct (Z.eq_dec (p_supplier_id p) id) as [E | E].
    + exfalso. pose proof (H6 p Hp) as Hs. unfold supplier_exists in Hs.
      rewrite E in Hs. destruct Hc as [Hc | Hc]; [congruence|].
      apply orb_false_iff in Hc. destruct Hc as [Hc _].
      assert (existsb (fun q => p_supplier_id q =? id) (purchases t) = true);
        [|congruence].
      apply existsb_exists. exists p. split; [assumption | lia].
    + rewrite exists_filter_other by assumption. apply H6, Hp.
  - intros y Hy. unfold supplier_exists; simpl.
    destruct (Z.eq_dec (y_supplier_id y) id) as [E | E].
    + exfalso. pose proof (H7 y Hy) as Hs. unfold supplier_exists in Hs.
      rewrite E in Hs. destruct Hc as [Hc | Hc]; [congruence|].
      apply orb_false_iff in Hc. destruct Hc as [_ Hc].
      assert (existsb (fun q => y_supplier_id q =? id) (payments t) = true);
        [|congruence].
      apply existsb_exists. exists y. split; [assumption | lia].
    + rewrite exists_filter_other by assumption. apply H7, Hy.
Qed.

Lemma unlink_frame id y :
  y_id (unlink id y) = y_id y
  /\ y_supplier_id (unlink id y) = y_supplier_id y
  /\ check_payment (unlink id y) = check_payment y.
Proof.
  unfold unlink. destruct (y_purchase_id y) as [pid|]; auto.
  destruct (pid =? id); auto.
Qed.

Lemma delete_purchase_wf id t t' n :
  wf t -> delete_purchase id t = Some (t', n) -> wf t'.
Proof.
  intros [H1 H2 H3 H4 H5 H6 H7]. unfold delete_purchase.
  intros E. inversion E; subst; clear E.
  assert (Hin : forall y', In y' (if existsb (fun p => p_id p =? id) (purchases t)
                                  then map (unlink id) (payments t) else payments t) ->
                exists y, In y (payments t) /\ y_id y' = y_id y
                          /\ y_supplier_id y' = y_supplier_id y
                          /\ check_payment y' = check_payment y).
  { intros y'. destruct (existsb _ _); [|eauto 6].
    rewrite in_map_iff. intros (y & <- & Hy). exists y.
    destruct (unlink_frame id y) as (? & ? & ?). auto. }
  constructor; simpl; auto.
  - apply NoDup_map_filter, H1.
  - destruct (existsb _ _); [|assumption].
    rewrite map_map. erewrite map_ext; [exact H2|].
    intros y. apply unlink_frame.
  - intros p Hp. apply filter_In in Hp. apply H3, Hp.
  - intros p Hp. apply filter_In in Hp. apply H4, Hp.
  - intros y' Hy. apply Hin in Hy. destruct Hy as (y & Hy & _ & _ & ->). auto.
  - intros p Hp. apply filter_In in Hp. apply H6, Hp.
  - intros y' Hy. apply Hin in Hy. destruct Hy as (y & Hy & _ & E & _).
    unfold supplier_exists; simpl. rewrite E. apply H7, Hy.
Qed.

Lemma delete_payment_wf id t t' n :
  wf t -> delete_payment id t = Some (t', n) -> wf t'.
Proof.
  intros [H1 H2 H3 H4 H5 H6 H7]. unfold delete_payment.
  intros E. inversion E; subst; clear E.
  constructor; simpl; auto.
  - apply NoDup_map_filter, H2.
  - intros y Hy. apply filter_In in Hy. apply H5, Hy.
  - intros y Hy. apply filter_In in Hy. apply H7, Hy.
Qed.

(** ** Case analysis of the repository operations *)

Arguments insert_supplier : simpl never.
Arguments insert_purchase : simpl never.
Arguments insert_payment : simpl never.
Arguments update_paid_amount : simpl never.
Arguments update_suppliers : simpl never.
Arguments update_purchases : simpl never.
Arguments update_payments : simpl never.
Arguments delete_supplier : simpl never.
Arguments delete_purchase : simpl never.
Arguments delete_payment : simpl never.
Arguments Payment.select_by_id : simpl never.
Arguments Payment.select_purchase_of : simpl never.
Arguments Payment.select_purchase : simpl never.
Arguments Purchase.select_by_id : simpl never.
Arguments Purchase.select_supplier_id : simpl never.
Arguments count_if : simpl never.

(** Split on the innermost test of the run recorded in [H]. *)
Ltac break_in H :=
  match type of H with
  | context [match ?x with _ => _ end] =>
      lazymatch x with
      | context [match ?y with _ => _ end] => fail
      | _ => destruct x eqn:?
      end
  end.

Ltac unfold_ops H :=
  unfold Payment.create, Payment.update, Payment.delete, Payment.get_by_id,
    Purchase.create, Purchase.update, Purchase.delete, Purchase.get_by_id,
    Supplier.create, Supplier.update, Supplier.delete, Supplier.get_by_id,
    try_except, bind, raise_if, if_truthy, raise, ret,
    fetch, execute, commit, rollback in H;
  cbv beta in H.

(** A connection without pending changes is [(t, None)] or [(t, Some t)]. *)
Ltac split_clean c Hc :=
  let t := fresh "t" in
  let tx := fresh "tx" in
  destruct c as [t tx]; unfold clean in Hc; simpl in Hc;
  destruct Hc as [Hc | Hc]; subst tx.

Ltac crunch H :=
  unfold_ops H; simpl in H;
  repeat (break_in H; simpl in H; try discriminate).

(** The two DELETE statements without RESTRICT are never rejected. *)
Ltac never_rejected :=
  match goal with
  | E : delete_purchase _ _ = None |- _ => unfold delete_purchase in E; discriminate E
  | E : delete_payment _ _ = None |- _ => unfold delete_payment in E; discriminate E
  end.

Ltac finish H :=
  try never_rejected;
  inversion H; subst; clear H; simpl; unfold clean; simpl.

(** *** Failed calls change nothing *)

Lemma Payment_create_raise flt date sid amount mode purchase_id ref notes c e c' :
  clean c ->
  Payment.create flt date sid amount mode purchase_id ref notes c = (Raise e, c') ->
  tables c' = tables c /\ clean c'.
Proof. intros Hc H. split_clean c Hc; crunch H; finish H; auto. Qed.

Lemma Payment_update_raise flt id date amount mode ref notes c e c' :
  clean c ->
  Payment.update flt id date amount mode ref notes c = (Raise e, c') ->
  tables c' = tables c /\ clean c'.
Proof. intros Hc H. split_clean c Hc; crunch H; finish H; auto. Qed.

Lemma Payment_delete_raise flt id c e c' :
  clean c ->
  Payment.delete flt id c = (Raise e, c') ->
  tables c' = tables c /\ clean c'.
Proof. intros Hc H. split_clean c Hc; crunch H; finish H; auto. Qed.

Lemma Purchase_create_raise flt date sid amount bill_no paid items notes c e c' :
  clean c ->
  Purchase.create flt date sid amount bill_no paid items notes c = (Raise e, c') ->
  tables c' = tables c /\ clean c'.
Proof. intros Hc H. split_clean c Hc; crunch H; finish H; auto. Qed.

Lemma Purchase_update_raise flt id date sid bill_no amount paid items notes c e c' :
  clean c ->
  Purchase.update flt id date sid bill_no amount paid items notes c = (Raise e, c') ->
  tables c' = tables c /\ clean c'.
Proof. intros Hc H. split_clean c Hc; crunch H; finish H; auto. Qed.

Lemma Purchase_delete_raise flt id c e c' :
  clean c ->
  Purchase.delete flt id c = (Raise e, c') ->
  tables c' = tables c /\ clean c'.
Proof. intros Hc H. split_clean c Hc; crunch H; finish H; auto. Qed.

Lemma Supplier_create_raise flt name contact address c e c' :
  clean c ->
  Supplier.create flt name contact address c = (Raise e, c') ->
  tables c' = tables c /\ clean c'.
Proof. intros Hc H. split_clean c Hc; crunch H; finish H; auto. Qed.

Lemma Supplier_update_raise flt id name contact address c e c' :
  clean c ->
  Supplier.update flt id name contact address c = (Raise e, c') ->
  tables c' = tables c /\ clean c'.
Proof. intros Hc H. split_clean c Hc; crunch H; finish H; auto. Qed.

Lemma Supplier_delete_raise flt id c e c' :
  clean c ->
  Supplier.delete flt id c = (Raise e, c') ->
  tables c' = tables c /\ clean c'.
Proof. intros Hc H. split_clean c Hc; crunch H; finish H; auto. Qed.

(** *** What a successful call did *)

Lemma Payment_create_return flt date sid amount mode purchase_id ref notes c id c' :
  clean c ->
  Payment.create flt date sid amount mode purchase_id ref notes c = (Return id, c') ->
  txn c' = None /\
  exists t1,
    insert_payment date sid purchase_id amount mode ref notes (tables c) = Some (t1, id) /\
    match purchase_id with
    | Some pid =>
        if pid =? 0 then tables c' = t1
        else (exists n, update_paid_amount amount pid t1 = Some (tables c', n)) /\
             exists p, Payment.select_purchase_of pid sid (tables c) = Some p /\
                       amount <= p_amount p - p_paid_amount p
    | None => tables c' = t1
    end.
Proof.
  intros Hc H. split_clean c Hc; crunch H; finish H.
  all: split; [reflexivity | eexists; split; [eassumption|]].
  all: try reflexivity.
  all: try (match goal with E : (_ =? 0) = _ |- _ => rewrite E end; try reflexivity).
  all: split; [eexists; eassumption | eexists; split; [eassumption | lia]].
Qed.

Lemma Payment_update_return flt id date amount mode ref notes c b c' :
  clean c ->
  Payment.update flt id date amount mode ref notes c = (Return b, c') ->
  (c' = c /\ b = false /\ date = None /\ amount = None /\ mode = None
   /\ ref = None /\ notes = None) \/
  (txn c' = None /\
   exists cur updates t1 n1,
     Payment.select_by_id id (tables c) = Some cur /\
     update_payments updates id (tables c) = Some (t1, n1) /\
     (forall y, y_amount (fold_left set_payment updates y)
                = match amount with Some a => a | None => y_amount y end) /\
     match amount with
     | Some a =>
         match y_purchase_id cur with
         | Some pid =>
             if pid =? 0 then tables c' = t1
             else (exists n2,
                      update_paid_amount (a - y_amount cur) pid t1
                      = Some (tables c', n2)) /\
                  exists p, Payment.select_purchase pid (tables c) = Some p /\
                            p_paid_amount p - y_amount cur + a <= p_amount p
         | None => tables c' = t1
         end
     | None => tables c' = t1
     end).
Proof.
  intros Hc H. split_clean c Hc; crunch H; finish H.
  all: first [ left; destruct date, ref, notes; try discriminate; tauto
             | right; split; [reflexivity|];
               do 4 eexists; split; [eassumption|]; split; [eassumption|];
               split; [intros; destruct date, ref, notes; reflexivity|] ].
  all: try reflexivity.
  all: try (match goal with E : y_purchase_id _ = _ |- _ => rewrite E end;
            try reflexivity).
  all: try (match goal with E : (_ =? 0) = _ |- _ => rewrite E end;
            try reflexivity).
  all: split; [eexists; eassumption | eexists; split; [eassumption | lia]].
Qed.

Lemma Payment_delete_return flt id c b c' :
  clean c ->
  Payment.delete flt id c = (Return b, c') ->
  txn c' = None /\
  exists cur t1 n,
    Payment.select_by_id id (tables c) = Some cur /\
    match y_purchase_id cur with
    | Some pid =>
        if pid =? 0 then t1 = tables c
        else exists n1,
            update_paid_amount (- y_amount cur) pid (tables c) = Some (t1, n1)
    | None => t1 = tables c
    end /\
    delete_payment id t1 = Some (tables c', n) /\ b = (0 <? n).
Proof.
  intros Hc H. split_clean c Hc; crunch H; finish H.
  all: split; [reflexivity|]; do 3 eexists; split; [eassumption|].
  all: try match goal with E : y_purchase_id _ = _ |- _ => rewrite E end.
  all: try match goal with E : (_ =? 0) = _ |- _ => rewrite E end.
  all: split; [first [reflexivity | eexists; eassumption]|].
  all: split; [first [eassumption | reflexivity] | reflexivity].
Qed.

Lemma Purchase_create_return flt date sid amount bill_no paid items notes c id c' :
  clean c ->
  Purchase.create flt date sid amount bill_no paid items notes c = (Return id, c') ->
  txn c' = None /\
  insert_purchase date sid bill_no amount paid items notes (tables c)
    = Some (tables c', id) /\
  0 <= paid <= amount /\ 0 < amount.
Proof.
  intros Hc H. split_clean c Hc; crunch H; finish H.
  all: split; [reflexivity|]; split; [eassumption | lia].
Qed.

(** ** Sums over a table with distinct keys *)

Section KeyedSums.
Context {A : Type} (key : A -> Z) (g : A -> bool) (v : A -> Z).

Lemma sum_untouched f (l : list A) k :
  (forall r, In r l -> key r <> k) ->
  sum_Z (map v (filter g (update_where (fun r => key r =? k) f l)))
  = sum_Z (map v (filter g l)).
Proof.
  unfold update_where.
  induction l as [|x l IH]; simpl; intros Hk; [reflexivity|].
  destruct (Z.eqb_spec (key x) k) as [E | E].
  - exfalso. apply (Hk x); auto.
  - destruct (g x); simpl; rewrite ?sum_Z_cons, IH; auto.
Qed.

Lemma sum_update_unique f (l : list A) cur :
  NoDup (map key l) -> In cur l -> (forall r, g (f r) = g r) ->
  sum_Z (map v (filter g (update_where (fun r => key r =? key cur) f l)))
  = sum_Z (map v (filter g l)) + (if g cur then v (f cur) - v cur else 0).
Proof.
  intros Hn Hin Hg. unfold update_where.
  induction l as [|x l IH]; simpl; [contradiction|].
  inversion Hn as [|? ? Hx Hn']; subst. destruct Hin as [-> | Hin].
  - rewrite Z.eqb_refl, Hg.
    pose proof (sum_untouched f l (key cur)) as Hu. unfold update_where in Hu.
    destruct (g cur); simpl; rewrite ?sum_Z_cons, Hu; try lia.
    all: intros r Hr E; apply Hx; rewrite <- E; apply in_map; exact Hr.
  - destruct (Z.eqb_spec (key x) (key cur)) as [E | E].
    + exfalso. apply Hx. rewrite E. apply in_map. exact Hin.
    + specialize (IH Hn' Hin). unfold update_where in IH.
      destruct (g x); simpl; rewrite ?sum_Z_cons, IH; lia.
Qed.

Lemma sum_delete_absent (l : list A) k :
  (forall r, In r l -> key r <> k) ->
  filter (fun r => negb (key r =? k)) l = l.
Proof.
  induction l as [|x l IH]; simpl; intros Hk; [reflexivity|].
  destruct (Z.eqb_spec (key x) k) as [E | E]; simpl.
  - exfalso. apply (Hk x); auto.
  - rewrite IH; auto.
Qed.

Lemma sum_delete_unique (l : list A) cur :
  NoDup (map key l) -> In cur l ->
  sum_Z (map v (filter g (filter (fun r => negb (key r =? key cur)) l)))
  = sum_Z (map v (filter g l)) - (if g cur then v cur else 0).
Proof.
  intros Hn Hin. induction l as [|x l IH]; simpl; [contradiction|].
  inversion Hn as [|? ? Hx Hn']; subst. destruct Hin as [-> | Hin].
  - rewrite Z.eqb_refl. simpl. rewrite sum_delete_absent.
    + destruct (g cur); simpl; rewrite ?sum_Z_cons; lia.
    + intros r Hr E. apply Hx. rewrite <- E. apply in_map. exact Hr.
  - destruct (Z.eqb_spec (key x) (key cur)) as [E | E].
    + exfalso. apply Hx. rewrite E. apply in_map. exact Hin.
    + specialize (IH Hn' Hin). simpl.
      destruct (g x); simpl; rewrite ?sum_Z_cons, IH; lia.
Qed.

Lemma sum_snoc (l : list A) r :
  sum_Z (map v (filter g (l ++ [r])))
  = sum_Z (map v (filter g l)) + (if g r then v r else 0).
Proof.
  rewrite filter_app, map_app, sum_Z_app. simpl.
  destruct (g r); simpl; rewrite ?sum_Z_cons; unfold sum_Z; simpl; lia.
Qed.

Lemma NoDup_key_inj (l : list A) a b :
  NoDup (map key l) -> In a l -> In b l -> key a = key b -> a = b.
Proof.
  induction l as [|x l IH]; simpl; intros Hn Ha Hb E; [contradiction|].
  inversion Hn as [|? ? Hx Hn']; subst.
  destruct Ha as [-> | Ha], Hb as [-> | Hb]; auto.
  - exfalso. apply Hx. rewrite E. apply in_map. exact Hb.
  - exfalso. apply Hx. rewrite <- E. apply in_map. exact Ha.
Qed.
End KeyedSums.

(** ** Effect of the statements on the tables *)

Lemma insert_payment_effect date sid purchase_id amount mode ref notes t t1 id :
  insert_payment date sid purchase_id amount mode ref notes t = Some (t1, id) ->
  suppliers t1 = add_balance sid (- amount) (suppliers t)
  /\ purchases t1 = purchases t
  /\ payments t1 = payments t
                   ++ [mk_payment id date sid purchase_id amount mode ref notes]
  /\ fk_payment t (mk_payment id date sid purchase_id amount mode ref notes) = true.
Proof.
  unfold insert_payment.
  destruct (check_payment _ && fk_payment _ _) eqn:Hc; [|discriminate].
  apply andb_true_iff in Hc. destruct Hc as [_ Hf].
  intros E. inversion E; subst; clear E. simpl. auto.
Qed.

Lemma insert_purchase_effect date sid bill_no amount paid items notes t t1 id :
  insert_purchase date sid bill_no amount paid items notes t = Some (t1, id) ->
  suppliers t1 = add_balance sid (amount - paid) (suppliers t)
  /\ purchases t1 = purchases t
                    ++ [mk_purchase id date sid bill_no amount paid items notes]
  /\ payments t1 = payments t.
Proof.
  unfold insert_purchase.
  destruct (check_purchase _ && fk_purchase _ _); [|discriminate].
  intros E. inversion E; subst; clear E. simpl. auto.
Qed.

Lemma update_paid_amount_effect delta id t t1 n :
  update_paid_amount delta id t = Some (t1, n) ->
  suppliers t1 = suppliers t
  /\ purchases t1 = update_where (fun p => p_id p =? id) (add_paid delta) (purchases t)
  /\ payments t1 = payments t.
Proof.
  unfold update_paid_amount. destruct (rewritten_ok _ _ _ _); [|discriminate].
  intros E. inversion E; subst; clear E. simpl. auto.
Qed.

Lemma update_payments_effect updates id t t1 n :
  update_payments updates id t = Some (t1, n) ->
  suppliers t1 = suppliers t
  /\ purchases t1 = purchases t
  /\ payments t1 = update_where (fun y => y_id y =? id)
                     (fun y => fold_left set_payment updates y) (payments t).
Proof.
  unfold update_payments. destruct (rewritten_ok _ _ _ _); [|discriminate].
  intros E. inversion E; subst; clear E. simpl. auto.
Qed.

Lemma delete_payment_effect id t t1 n :
  delete_payment id t = Some (t1, n) ->
  suppliers t1 = suppliers t
  /\ purchases t1 = purchases t
  /\ payments t1 = filter (fun y => negb (y_id y =? id)) (payments t)
  /\ n = count_if (fun y => y_id y =? id) (payments t).
Proof.
  unfold delete_payment. intros E. inversion E; subst; clear E. simpl. auto.
Qed.

Lemma in_add_balance k d l s' :
  In s' (add_balance k d l) ->
  exists s, In s l /\ s_id s' = s_id s
            /\ s_balance s' = s_balance s + (if s_id s =? k then d else 0).
Proof.
  unfold add_balance. rewrite in_map_iff. intros (s & <- & Hs). exists s.
  destruct (s_id s =? k); simpl; repeat split; auto; lia.
Qed.

Lemma select_by_id_found id t cur :
  Payment.select_by_id id t = Some cur -> In cur (payments t) /\ y_id cur = id.
Proof.
  unfold Payment.select_by_id. intros H. apply find_some in H.
  destruct H as [Hin H]. apply andb_true_iff in H. split; [assumption | lia].
Qed.

Lemma select_purchase_of_found pid sid t p :
  Payment.select_purchase_of pid sid t = Some p ->
  In p (purchases t) /\ p_id p = pid /\ p_supplier_id p = sid.
Proof.
  unfold Payment.select_purchase_of. intros H. apply find_some in H.
  destruct H as [Hin H]. apply andb_true_iff in H. repeat split; [assumption | lia | lia].
Qed.

(** ** The operations keep a connection ready *)

Lemma ready_committed c : wf (tables c) -> txn c = None -> ready c.
Proof. intros Hw Ht. split; [assumption | left; assumption]. Qed.

Lemma ready_unchanged c c' : ready c -> tables c' = tables c -> clean c' -> ready c'.
Proof. intros [Hw _] E Hc. split; [rewrite E|]; assumption. Qed.

Lemma Payment_create_ready flt date sid amount mode purchase_id ref notes c o c' :
  ready c ->
  Payment.create flt date sid amount mode purchase_id ref notes c = (o, c') ->
  ready c'.
Proof.
  intros Hr H. pose proof Hr as [Hw Hc]. destruct o as [id | e].
  - apply Payment_create_return in H; [|assumption].
    destruct H as (Ht & t1 & Hins & Hrest).
    pose proof (insert_payment_wf _ _ _ _ _ _ _ _ _ _ Hw Hins) as Hw1.
    destruct purchase_id as [pid|].
    + destruct (pid =? 0).
      * apply ready_committed; [rewrite Hrest|]; assumption.
      * destruct Hrest as [[n Hup] _].
        apply ready_committed; eauto using update_paid_amount_wf.
    + apply ready_committed; [rewrite Hrest|]; assumption.
  - apply Payment_create_raise in H; [|assumption].
    destruct H. eapply ready_unchanged; eauto.
Qed.

Lemma Payment_update_ready flt id date amount mode ref notes c o c' :
  ready c ->
  Payment.update flt id date amount mode ref notes c = (o, c') ->
  ready c'.
Proof.
  intros Hr H. pose proof Hr as [Hw Hc]. destruct o as [b | e].
  - apply Payment_update_return in H; [|assumption].
    destruct H as [[-> _] | (Ht & cur & updates & t1 & n1 & Hsel & Hup & _ & Hrest)];
      [assumption|].
    pose proof (update_payments_wf _ _ _ _ _ Hw Hup) as Hw1.
    apply ready_committed; [|assumption].
    destruct amount as [a|]; [|rewrite Hrest; assumption].
    destruct (y_purchase_id cur) as [pid|]; [|rewrite Hrest; assumption].
    destruct (pid =? 0); [rewrite Hrest; assumption|].
    destruct Hrest as [[n2 Hup2] _]. eauto using update_paid_amount_wf.
  - apply Payment_update_raise in H; [|assumption].
    destruct H. eapply ready_unchanged; eauto.
Qed.

Lemma Payment_delete_ready flt id c o c' :
  ready c -> Payment.delete flt id c = (o, c') -> ready c'.
Proof.
  intros Hr H. pose proof Hr as [Hw Hc]. destruct o as [b | e].
  - apply Payment_delete_return in H; [|assumption].
    destruct H as (Ht & cur & t1 & n & Hsel & Hpaid & Hdel & _).
    assert (Hw1 : wf t1).
    { destruct (y_purchase_id cur) as [pid|]; [|subst; assumption].
      destruct (pid =? 0); [subst; assumption|].
      destruct Hpaid as [n1 Hup]. eauto using update_paid_amount_wf. }
    apply ready_committed; eauto using delete_payment_wf.
  - apply Payment_delete_raise in H; [|assumption].
    destruct H. eapply ready_unchanged; eauto.
Qed.

Lemma Purchase_create_ready flt date sid amount bill_no paid items notes c o c' :
  ready c ->
  Purchase.create flt date sid amount bill_no paid items notes c = (o, c') ->
  ready c'.
Proof.
  intros Hr H. pose proof Hr as [Hw Hc]. destruct o as [id | e].
  - apply Purchase_create_return in H; [|assumption].
    destruct H as (Ht & Hins & _).
    apply ready_committed; eauto using insert_purchase_wf.
  - apply Purchase_create_raise in H; [|assumption].
    destruct H. eapply ready_unchanged; eauto.
Qed.

Lemma payment_step_ready c c' : ready c -> payment_step c c' -> ready c'.
Proof.
  intros Hr Hs. destruct Hs as [? ? ? ? ? ? ? ? ? ? ? H | ? ? ? ? ? ? ? ? ? ? H | ? ? ? ? ? H].
  - eapply Payment_create_ready; eassumption.
  - eapply Payment_update_ready; eassumption.
  - eapply Payment_delete_ready; eassumption.
Qed.

Lemma create_step_ready c c' : ready c -> create_step c c' -> ready c'.
Proof.
  intros Hr Hs. destruct Hs as [? ? ? ? ? ? ? ? ? ? ? H | ? ? ? ? ? ? ? ? ? ? ? H].
  - eapply Purchase_create_ready; eassumption.
  - eapply Payment_create_ready; eassumption.
Qed.

(** The remaining operations keep a connection ready as well, so that
    [ready] holds between any two calls of a session that starts on a
    well-formed committed state. *)
Ltac still_ready Hw :=
  split;
  [ simpl;
    first [ solve [ eauto using insert_supplier_wf, update_suppliers_wf,
                      delete_supplier_wf, update_purchases_wf ]
          | eapply delete_purchase_wf;
            [ exact Hw
            | unfold delete_purchase;
              match goal with E : existsb _ _ = _ |- _ => rewrite E end;
              reflexivity ] ]
  | unfold clean; simpl; auto ].

Lemma Supplier_create_ready flt name contact address c o c' :
  ready c -> Supplier.create flt name contact address c = (o, c') -> ready c'.
Proof.
  intros [Hw Hc] H. split_clean c Hc; simpl in Hw; crunch H; finish H;
    still_ready Hw.
Qed.

Lemma Supplier_update_ready flt id name contact address c o c' :
  ready c -> Supplier.update flt id name contact address c = (o, c') -> ready c'.
Proof.
  intros [Hw Hc] H. split_clean c Hc; simpl in Hw; crunch H; finish H;
    still_ready Hw.
Qed.

Lemma Supplier_delete_ready flt id c o c' :
  ready c -> Supplier.delete flt id c = (o, c') -> ready c'.
Proof.
  intros [Hw Hc] H. split_clean c Hc; simpl in Hw; crunch H; finish H;
    still_ready Hw.
Qed.

Lemma Purchase_update_ready flt id date sid bill_no amount paid items notes c o c' :
  ready c ->
  Purchase.update flt id date sid bill_no amount paid items notes c = (o, c') ->
  ready c'.
Proof.
  intros [Hw Hc] H. split_clean c Hc; simpl in Hw; crunch H; finish H;
    still_ready Hw.
Qed.

Lemma Purchase_delete_ready flt id c o c' :
  ready c -> Purchase.delete flt id c = (o, c') -> ready c'.
Proof.
  intros [Hw Hc] H. split_clean c Hc; simpl in Hw; crunch H; finish H;
    still_ready Hw.
Qed.

Lemma empty_ready : ready (fresh_connection empty_store).
Proof. split; [apply wfb_sound; reflexivity | left; reflexivity]. Qed.

(** ** I2: paid amounts follow the linked payments *)

Lemma matches_same pid t t' :
  purchases t' = purchases t ->
  linked_total pid t' = linked_total pid t ->
  paid_matches_payments pid t -> paid_matches_payments pid t'.
Proof.
  intros Hp Hl H p Hin Hid. rewrite Hp in Hin. rewrite Hl. auto.
Qed.

Lemma matches_shift pid q delta t t' :
  purchases t' = update_where (fun p => p_id p =? q) (add_paid delta) (purchases t) ->
  linked_total pid t' = linked_total pid t + (if q =? pid then delta else 0) ->
  paid_matches_payments pid t -> paid_matches_payments pid t'.
Proof.
  intros Hp Hl H p' Hin Hid. rewrite Hp in Hin.
  apply in_update_where in Hin. destruct Hin as (p & Hin & ->). rewrite Hl.
  destruct (Z.eqb_spec (p_id p) q) as [E | E]; simpl in *.
  - subst q. rewrite <- Hid, Z.eqb_refl. rewrite (H p Hin), Hid; auto.
  - destruct (Z.eqb_spec q pid); [congruence|]. rewrite (H p Hin Hid). lia.
Qed.

Lemma linked_total_insert pid t t1 row :
  payments t1 = payments t ++ [row] ->
  linked_total pid t1
  = linked_total pid t + (if linked_to pid row then y_amount row else 0).
Proof. intros E. unfold linked_total. rewrite E. apply sum_snoc. Qed.

Lemma linked_to_set pid updates y :
  linked_to pid (fold_left set_payment updates y) = linked_to pid y.
Proof.
  unfold linked_to. destruct (set_payment_frame updates y) as (_ & _ & ->).
  reflexivity.
Qed.

Lemma linked_total_update pid t t1 updates cur :
  wf t -> In cur (payments t) ->
  payments t1 = update_where (fun y => y_id y =? y_id cur)
                  (fun y => fold_left set_payment updates y) (payments t) ->
  linked_total pid t1
  = linked_total pid t
    + (if linked_to pid cur
       then y_amount (fold_left set_payment updates cur) - y_amount cur else 0).
Proof.
  intros Hw Hin E. unfold linked_total. rewrite E.
  apply (sum_update_unique y_id (linked_to pid) y_amount).
  - apply Hw.
  - exact Hin.
  - intros r. apply linked_to_set.
Qed.

Lemma linked_total_delete pid t t1 cur :
  wf t -> In cur (payments t) ->
  payments t1 = filter (fun y => negb (y_id y =? y_id cur)) (payments t) ->
  linked_total pid t1
  = linked_total pid t - (if linked_to pid cur then y_amount cur else 0).
Proof.
  intros Hw Hin E. unfold linked_total. rewrite E.
  apply (sum_delete_unique y_id (linked_to pid) y_amount); [apply Hw | exact Hin].
Qed.

(** No purchase carries the id [0], so nothing has to match for it. *)
Lemma matches_zero t : wf t -> forall t', purchases t' = purchases t ->
  paid_matches_payments 0 t'.
Proof.
  intros Hw t' E p Hin Hid. rewrite E in Hin.
  pose proof (wf_purchase_pos t Hw p Hin). lia.
Qed.

Lemma Payment_create_matches pid flt date sid amount mode purchase_id ref notes c id c' :
  ready c ->
  Payment.create flt date sid amount mode purchase_id ref notes c = (Return id, c') ->
  paid_matches_payments pid (tables c) -> paid_matches_payments pid (tables c').
Proof.
  intros [Hw Hc] H Hm.
  apply Payment_create_return in H; [|assumption].
  destruct H as (_ & t1 & Hins & Hrest).
  apply insert_payment_effect in Hins. destruct Hins as (_ & Hp1 & Hy1 & _).
  pose proof (linked_total_insert pid _ _ _ Hy1) as Hl1.
  unfold linked_to in Hl1; simpl in Hl1.
  destruct purchase_id as [q|].
  - destruct (Z.eqb_spec q 0) as [E0 | E0].
    + rewrite Hrest. destruct (Z.eqb_spec q pid) as [E | E].
      * subst. apply (matches_zero (tables c)); assumption.
      * apply (matches_same pid (tables c)); [assumption | lia | assumption].
    + destruct Hrest as [[n Hup] _].
      apply update_paid_amount_effect in Hup. destruct Hup as (_ & Hp2 & Hy2).
      apply (matches_shift pid q amount (tables c)); [congruence | | assumption].
      unfold linked_total in *. rewrite Hy2. exact Hl1.
  - rewrite Hrest. apply (matches_same pid (tables c)); [assumption | lia | assumption].
Qed.

Lemma Payment_update_matches pid flt id date amount mode ref notes c b c' :
  ready c ->
  Payment.update flt id date amount mode ref notes c = (Return b, c') ->
  paid_matches_payments pid (tables c) -> paid_matches_payments pid (tables c').
Proof.
  intros [Hw Hc] H Hm.
  apply Payment_update_return in H; [|assumption].
  destruct H as [[-> _] | (_ & cur & updates & t1 & n1 & Hsel & Hup & Hamt & Hrest)];
    [assumption|].
  apply select_by_id_found in Hsel. destruct Hsel as [Hin <-].
  apply update_payments_effect in Hup. destruct Hup as (_ & Hp1 & Hy1).
  pose proof (linked_total_update pid _ _ _ _ Hw Hin Hy1) as Hl1.
  rewrite Hamt in Hl1. unfold linked_to in Hl1.
  destruct amount as [a|].
  - destruct (y_purchase_id cur) as [q|].
    + destruct (Z.eqb_spec q 0) as [E0 | E0].
      * rewrite Hrest. destruct (Z.eqb_spec q pid) as [E | E].
        -- subst. apply (matches_zero (tables c)); assumption.
        -- apply (matches_same pid (tables c)); [assumption | lia | assumption].
      * destruct Hrest as [[n2 Hup2] _].
        apply update_paid_amount_effect in Hup2. destruct Hup2 as (_ & Hp2 & Hy2).
        apply (matches_shift pid q (a - y_amount cur) (tables c));
          [congruence | | assumption].
        unfold linked_total in *. rewrite Hy2. exact Hl1.
    + rewrite Hrest.
      apply (matches_same pid (tables c)); [assumption | lia | assumption].
  - rewrite Hrest. apply (matches_same pid (tables c)); [assumption | | assumption].
    destruct (y_purchase_id cur) as [q|]; [destruct (q =? pid)|]; lia.
Qed.

Lemma Payment_delete_matches pid flt id c b c' :
  ready c ->
  Payment.delete flt id c = (Return b, c') ->
  paid_matches_payments pid (tables c) -> paid_matches_payments pid (tables c').
Proof.
  intros [Hw Hc] H Hm.
  apply Payment_delete_return in H; [|assumption].
  destruct H as (_ & cur & t1 & n & Hsel & Hpaid & Hdel & _).
  apply select_by_id_found in Hsel. destruct Hsel as [Hin <-].
  apply delete_payment_effect in Hdel. destruct Hdel as (_ & Hp2 & Hy2 & _).
  unfold linked_to in *.
  destruct (y_purchase_id cur) as [q|] eqn:Hq.
  - destruct (Z.eqb_spec q 0) as [E0 | E0].
    + subst t1. pose proof (linked_total_delete pid _ _ _ Hw Hin Hy2) as Hl.
      unfold linked_to in Hl. rewrite Hq in Hl.
      destruct (Z.eqb_spec q pid) as [E | E].
      * subst. apply (matches_zero (tables c)); assumption.
      * apply (matches_same pid (tables c)); [assumption | lia | assumption].
    + destruct Hpaid as [n1 Hup]. pose proof Hup as Hup'.
      apply update_paid_amount_effect in Hup. destruct Hup as (_ & Hp1 & Hy1).
      assert (Hin1 : In cur (payments t1)) by (rewrite Hy1; exact Hin).
      pose proof (linked_total_delete pid _ _ _
                    (update_paid_amount_wf _ _ _ _ _ Hw Hup') Hin1 Hy2) as Hl.
      unfold linked_to in Hl. rewrite Hq in Hl.
      apply (matches_shift pid q (- y_amount cur) (tables c));
        [congruence | | assumption].
      rewrite Hl. unfold linked_total. rewrite Hy1.
      destruct (q =? pid); lia.
  - subst t1. pose proof (linked_total_delete pid _ _ _ Hw Hin Hy2) as Hl.
    unfold linked_to in Hl. rewrite Hq in Hl.
    apply (matches_same pid (tables c)); [assumption | lia | assumption].
Qed.

(** Exact amounts: if the purchase's paid_amount equals the sum of the
    amounts of the payment rows linked to it, it still does after any
    sequence of successful Payment.create, Payment.update and
    Payment.delete calls. *)
Lemma paid_matches_kept pid c c' :
  ready c ->
  paid_matches_payments pid (tables c) ->
  steps payment_step c c' ->
  paid_matches_payments pid (tables c').
Proof.
  intros Hr Hm Hs.
  assert (ready c' /\ paid_matches_payments pid (tables c')) as [_ H]; [|exact H].
  induction Hs as [c | c c1 c2 Hs IH Hstep]; [auto|].
  destruct (IH Hr Hm) as [Hr1 Hm1]. split.
  - eapply payment_step_ready; eassumption.
  - destruct Hstep as [? ? ? ? ? ? ? ? ? ? ? H | ? ? ? ? ? ? ? ? ? ? H | ? ? ? ? ? H].
    + eapply Payment_create_matches; eassumption.
    + eapply Payment_update_matches; eassumption.
    + eapply Payment_delete_matches; eassumption.
Qed.

Lemma steps_within R c c' : steps (within R) c c' -> steps R c c'.
Proof.
  intros Hs. induction Hs as [c | c c1 c2 Hs IH [Hstep _]].
  - apply steps_nil.
  - eapply steps_snoc; eassumption.
Qed.

Lemma exact_rangeb_sound z : exact_rangeb z = true -> exact_range z.
Proof.
  unfold exact_rangeb, exact_range. intros H. apply andb_true_iff in H.
  destruct H as [H1 H2]. apply Z.leb_le in H1. apply Z.leb_le in H2. lia.
Qed.

Lemma in_rangeb_sound t : in_rangeb t = true -> in_range t.
Proof.
  unfold in_rangeb, in_range. rewrite !andb_true_iff, !forallb_forall.
  intros [[Hs Hp] Hy]. split; [|split].
  - intros s Hin. apply exact_rangeb_sound. auto.
  - intros p Hin. specialize (Hp p Hin). apply andb_true_iff in Hp.
    destruct Hp. split; apply exact_rangeb_sound; assumption.
  - intros y Hin. apply exact_rangeb_sound. auto.
Qed.

(** C2, as amended. For every purchase id, if the purchase's paid_amount
    equals the sum of the amounts of the payment rows linked to it (as right
    after Purchase.create with paid_amount 0), it still does after any
    sequence of successful Payment.create, Payment.update and
    Payment.delete calls between states of whole-number amounts of magnitude
    up to 2^52, on which the additions of the code are exact. *)
Theorem paid_amount_follows_payments pid c c' :
  ready c ->
  paid_matches_payments pid (tables c) ->
  steps (within payment_step) c c' ->
  paid_matches_payments pid (tables c').
Proof.
  intros Hr Hm Hs. apply (paid_matches_kept pid c c' Hr Hm).
  apply steps_within. exact Hs.
Qed.

(** C2, the claim as stated fails: [Purchase.create] takes the paid_amount
    of the new purchase from its caller.  A purchase of 1000 created with
    400 paid has no payment row, and after a payment of 100 against it its
    paid_amount is 500 while its payments add up to 100. *)
Lemma paid_amount_set_by_purchase_create :
  let c0 := snd (Purchase.create no_fault "2024-01-01" 1 1000 None 400 None None
                   (fresh_connection acme_only)) in
  let c1 := snd (Payment.create no_fault "2024-01-02" 1 100 "cash" (Some 1)
                   None None c0) in
  steps payment_step c0 c1
  /\ map p_paid_amount (purchases (tables c1)) = [500]
  /\ linked_total 1 (tables c1) = 100
  /\ ~ paid_matches_payments 1 (tables c1).
Proof.
  cbv zeta. split; [|split; [reflexivity | split; [reflexivity|]]].
  - eapply steps_snoc; [apply steps_nil|].
    apply (step_create no_fault "2024-01-02" 1 100 "cash" (Some 1) None None _ 1).
    reflexivity.
  - intros H.
    specialize (H (mk_purchase 1 "2024-01-01" 1 None 1000 500 None None)
                  (or_introl eq_refl) eq_refl).
    discriminate H.
Qed.

(** ** I3: the running balance equals the from-scratch aggregate *)

Lemma sum_of_differences {A} (f g : A -> Z) (l : list A) :
  sum_Z (map (fun x => f x - g x) l) = sum_Z (map f l) - sum_Z (map g l).
Proof.
  induction l as [|x l IH]; simpl; [reflexivity|].
  rewrite !sum_Z_cons, IH. lia.
Qed.

Lemma outstanding_split sid t :
  outstanding_total sid t = amount_total sid t - paid_total sid t.
Proof. apply sum_of_differences. Qed.

Lemma balance_shift sid k delta t t' :
  suppliers t' = add_balance k delta (suppliers t) ->
  aggregate_balance sid t'
  = aggregate_balance sid t + (if k =? sid then delta else 0) ->
  balance_matches sid t -> balance_matches sid t'.
Proof.
  intros Hs Ha H s' Hin Hid. rewrite Hs in Hin.
  apply in_add_balance in Hin. destruct Hin as (s & Hin & Eid & Eb).
  rewrite Eb, Ha, (H s Hin) by congruence.
  assert (s_id s = sid) as -> by congruence.
  rewrite (Z.eqb_sym sid k). reflexivity.
Qed.

Lemma Purchase_create_balance sid flt date k amount bill_no paid items notes c id c' :
  ready c ->
  Purchase.create flt date k amount bill_no paid items notes c = (Return id, c') ->
  balance_matches sid (tables c) -> balance_matches sid (tables c').
Proof.
  intros [Hw Hc] H Hm.
  apply Purchase_create_return in H; [|assumption].
  destruct H as (_ & Hins & _).
  apply insert_purchase_effect in Hins. destruct Hins as (Hs & Hp & Hy).
  apply (balance_shift sid k (amount - paid) (tables c)); [assumption | | assumption].
  unfold aggregate_balance, outstanding_total, unlinked_total.
  rewrite Hp, Hy, sum_snoc. unfold of_supplier. simpl.
  destruct (k =? sid); lia.
Qed.

Lemma Payment_create_balance sid flt date k amount mode purchase_id ref notes c id c' :
  ready c ->
  Payment.create flt date k amount mode purchase_id ref notes c = (Return id, c') ->
  balance_matches sid (tables c) -> balance_matches sid (tables c').
Proof.
  intros [Hw Hc] H Hm.
  apply Payment_create_return in H; [|assumption].
  destruct H as (_ & t1 & Hins & Hrest).
  apply insert_payment_effect in Hins. destruct Hins as (Hs1 & Hp1 & Hy1 & Hfk).
  assert (Hu1 : unlinked_total sid t1
                = unlinked_total sid (tables c)
                  + (if (k =? sid) && negb (is_some purchase_id) then amount else 0)).
  { unfold unlinked_total. rewrite Hy1, sum_snoc. reflexivity. }
  destruct purchase_id as [q|]; simpl in Hu1.
  - rewrite andb_false_r in Hu1.
    destruct (Z.eqb_spec q 0) as [E0 | E0].
    + (* a key [0] resolves to no purchase *)
      exfalso. subst q. unfold fk_payment in Hfk. simpl in Hfk.
      apply andb_true_iff in Hfk. destruct Hfk as [_ Hfk].
      unfold purchase_exists in Hfk. apply existsb_exists in Hfk.
      destruct Hfk as (p & Hin & E). pose proof (wf_purchase_pos _ Hw p Hin). lia.
    + destruct Hrest as [[n Hup] (p & Hsel & _)].
      apply select_purchase_of_found in Hsel. destruct Hsel as (Hin & Hid & Hsup).
      apply update_paid_amount_effect in Hup. destruct Hup as (Hs2 & Hp2 & Hy2).
      apply (balance_shift sid k (- amount) (tables c)); [congruence | | assumption].
      unfold aggregate_balance. unfold unlinked_total in *.
      rewrite Hy2, Hu1. unfold outstanding_total. rewrite Hp2, Hp1, <- Hid.
      rewrite (sum_update_unique p_id (of_supplier sid)
                 (fun p => p_amount p - p_paid_amount p));
        [| apply Hw | exact Hin | reflexivity].
      unfold of_supplier. rewrite Hsup. simpl. destruct (k =? sid); lia.
  - rewrite andb_true_r in Hu1. rewrite Hrest.
    apply (balance_shift sid k (- amount) (tables c)); [assumption | | assumption].
    unfold aggregate_balance, outstanding_total. rewrite Hp1, Hu1.
    destruct (k =? sid); lia.
Qed.

(** Exact amounts: if the stored balance equals the from-scratch aggregate
    -- the sum over the supplier's purchases of (amount - paid_amount),
    minus the sum of its unlinked payments -- it still does after any
    sequence of successful Purchase.create and Payment.create calls; and
    that aggregate is the same number as (sum of amounts) - (sum of paid
    amounts) - (sum of unlinked payments). *)
Lemma balance_matches_kept sid c c' :
  ready c ->
  balance_matches sid (tables c) ->
  steps create_step c c' ->
  balance_matches sid (tables c')
  /\ aggregate_balance sid (tables c')
     = amount_total sid (tables c') - paid_total sid (tables c')
       - unlinked_total sid (tables c').
Proof.
  intros Hr Hm Hs. split.
  - assert (ready c' /\ balance_matches sid (tables c')) as [_ H]; [|exact H].
    induction Hs as [c | c c1 c2 Hs IH Hstep]; [auto|].
    destruct (IH Hr Hm) as [Hr1 Hm1]. split.
    + eapply create_step_ready; eassumption.
    + destruct Hstep as [? ? ? ? ? ? ? ? ? ? ? H | ? ? ? ? ? ? ? ? ? ? ? H].
      * eapply Purchase_create_balance; eassumption.
      * eapply Payment_create_balance; eassumption.
  - unfold aggregate_balance. rewrite outstanding_split. reflexivity.
Qed.

(** C3, as amended. For every supplier id, if the stored balance equals
    (sum of amounts) - (sum of paid amounts) - (sum of unlinked payments)
    over the supplier's purchases and payments (as for a new supplier), it
    still does after any sequence of successful Purchase.create and
    Payment.create calls between states of whole-number amounts of magnitude
    up to 2^52, on which the additions of the triggers are exact.  That
    number is the sum over the purchases of (amount - paid_amount) minus the
    unlinked payments; it is the bare sum over the purchases of
    (amount - paid_amount) when the supplier has no unlinked payment. *)
Theorem balance_equals_aggregate sid c c' :
  ready c ->
  balance_matches sid (tables c) ->
  steps (within create_step) c c' ->
  (forall s, In s (suppliers (tables c')) -> s_id s = sid ->
             s_balance s
             = amount_total sid (tables c') - paid_total sid (tables c')
               - unlinked_total sid (tables c'))
  /\ amount_total sid (tables c') - paid_total sid (tables c')
       - unlinked_total sid (tables c')
     = outstanding_total sid (tables c') - unlinked_total sid (tables c')
  /\ (unlinked_total sid (tables c') = 0 ->
      forall s, In s (suppliers (tables c')) -> s_id s = sid ->
                s_balance s = outstanding_total sid (tables c')).
Proof.
  intros Hr Hm Hs.
  destruct (balance_matches_kept sid c c' Hr Hm (steps_within _ _ _ Hs)) as [Hb Ha].
  unfold aggregate_balance in Ha. split; [|split].
  - intros s Hin Hid. rewrite (Hb s Hin Hid). exact Ha.
  - symmetry. exact Ha.
  - intros H0 s Hin Hid. rewrite (Hb s Hin Hid).
    unfold aggregate_balance. rewrite H0. lia.
Qed.

(** C3, the claim as stated fails: the payment trigger subtracts every
    payment from the balance, the unlinked ones included.  After a purchase
    of 1000, a payment of 400 against it and an advance payment of 100 the
    balance is 500, and the sum over the purchases of
    (amount - paid_amount) is 600. *)
Lemma balance_is_not_the_outstanding_sum :
  steps create_step (fresh_connection acme_only) (fresh_connection scenario_advance)
  /\ map s_balance (suppliers (tables (fresh_connection scenario_advance))) = [500]
  /\ outstanding_total 1 (tables (fresh_connection scenario_advance)) = 600.
Proof.
  split; [|split; reflexivity].
  eapply steps_snoc; [eapply steps_snoc; [eapply steps_snoc; [apply steps_nil|]|]|].
  - apply (step_purchase no_fault "2024-01-01" 1 1000 None 0 None None
             (fresh_connection acme_only) 1 (fresh_connection scenario_A)).
    reflexivity.
  - apply (step_payment no_fault "2024-01-02" 1 400 "cash" (Some 1) None None
             (fresh_connection scenario_A) 1 (fresh_connection scenario_B)).
    reflexivity.
  - apply (step_payment no_fault "2024-01-03" 1 100 "upi" None None None
             (fresh_connection scenario_B) 2).
    reflexivity.
Qed.

(** ** Which exception a failed call raises *)

(** Close a case by naming the exception: a [ValueError], or the storage
    fault recorded in the context. *)
Ltac by_kind :=
  first [ left; eexists; reflexivity
        | right; left; split; [reflexivity | eexists; eassumption] ].

Lemma Payment_create_kind flt date sid amount mode purchase_id ref notes c e c' :
  Payment.create flt date sid amount mode purchase_id ref notes c = (Raise e, c') ->
  (exists msg, e = ValueError msg)
  \/ (e = OperationalError /\ exists site, flt site = true)
  \/ match purchase_id with
     | Some pid =>
         if pid =? 0 then True
         else exists p, Payment.select_purchase_of pid sid (tables c) = Some p
                        /\ amount <= p_amount p - p_paid_amount p
     | None => True
     end.
Proof.
  intros H. destruct c as [t [t0|]]; crunch H; finish H.
  all: first [ by_kind | right; right ].
  all: try exact I.
  all: try (match goal with E : (_ =? 0) = _ |- _ => rewrite E end; try exact I).
  all: eexists; split; [eassumption | lia].
Qed.

Lemma Payment_update_kind flt id date amount mode ref notes c e c' :
  Payment.update flt id date amount mode ref notes c = (Raise e, c') ->
  (exists msg, e = ValueError msg)
  \/ (e = OperationalError /\ exists site, flt site = true)
  \/ exists cur,
      Payment.select_by_id id (tables c) = Some cur
      /\ match amount with
         | Some a =>
             match y_purchase_id cur with
             | Some pid =>
                 if pid =? 0 then True
                 else match Payment.select_purchase pid (tables c) with
                      | Some p => p_paid_amount p - y_amount cur + a <= p_amount p
                      | None => e = TypeError
                      end
             | None => True
             end
         | None => True
         end.
Proof.
  intros H. destruct c as [t [t0|]]; crunch H; finish H.
  all: first [ by_kind | right; right; eexists; split; [eassumption|] ].
  all: try exact I.
  all: try (match goal with E : y_purchase_id _ = _ |- _ => rewrite E end;
            try exact I).
  all: try (match goal with E : (_ =? 0) = _ |- _ => rewrite E end; try exact I).
  all: match goal with E : Payment.select_purchase _ _ = _ |- _ => rewrite E end.
  all: first [reflexivity | lia].
Qed.


Lemma count_if_pos {A} (f : A -> bool) l x :
  In x l -> f x = true -> (0 <? count_if f l) = true.
Proof.
  intros Hin Hf. unfold count_if. apply Z.ltb_lt.
  assert (In x (filter f l)) as Hx by (apply filter_In; auto).
  destruct (filter f l); [contradiction | simpl; lia].
Qed.

Lemma Supplier_delete_kind flt id c o c' :
  (0 <? count_if (fun p => p_supplier_id p =? id) (purchases (tables c)))
  || (0 <? count_if (fun y => y_supplier_id y =? id) (payments (tables c))) = true ->
  Supplier.delete flt id c = (o, c') ->
  o = Raise (ValueError "Cannot delete supplier with existing transactions")
  \/ (o = Raise OperationalError /\ exists site, flt site = true).
Proof.
  intros Hcount H. destruct c as [t [t0|]]; simpl in Hcount.
  all: crunch H; finish H; try congruence.
  all: first [ left; reflexivity
             | right; split; [reflexivity | eexists; eassumption] ].
Qed.

Lemma Purchase_delete_kind flt id c o c' :
  (0 <? count_if (fun y => match y_purchase_id y with
                           | Some pid => pid =? id
                           | None => false
                           end) (payments (tables c))) = true ->
  Purchase.delete flt id c = (o, c') ->
  o = Raise (ValueError "Cannot delete purchase with associated payments")
  \/ (o = Raise OperationalError /\ exists site, flt site = true).
Proof.
  intros Hcount H. destruct c as [t [t0|]]; simpl in Hcount.
  all: crunch H; finish H; try congruence.
  all: first [ left; reflexivity
             | right; split; [reflexivity | eexists; eassumption] ].
Qed.

(** ** Lookups in a well-formed state *)

Lemma find_key {A} (key : A -> Z) (l : list A) r :
  NoDup (map key l) -> In r l -> find (fun x => key x =? key r) l = Some r.
Proof.
  intros Hn Hin.
  rewrite <- (find_by_key key (fun _ => true) l r Hn Hin eq_refl).
  clear. induction l as [|x l IH]; simpl; [reflexivity|].
  rewrite andb_true_r, IH. reflexivity.
Qed.

Lemma select_payment t y :
  wf t -> In y (payments t) -> Payment.select_by_id (y_id y) t = Some y.
Proof.
  intros Hw Hin. unfold Payment.select_by_id.
  apply (find_by_key y_id (fun x => supplier_exists t (y_supplier_id x)));
    [apply Hw | exact Hin | apply Hw, Hin].
Qed.

Lemma select_purchase_unique t p :
  wf t -> In p (purchases t) -> Payment.select_purchase (p_id p) t = Some p.
Proof.
  intros Hw Hin. unfold Payment.select_purchase.
  apply find_key; [apply Hw | exact Hin].
Qed.

Lemma select_purchase_of_unique t p sid p0 :
  wf t -> In p (purchases t) ->
  Payment.select_purchase_of (p_id p) sid t = Some p0 -> p0 = p.
Proof.
  intros Hw Hin H. apply select_purchase_of_found in H.
  destruct H as (Hin0 & Hid & _).
  apply (NoDup_key_inj p_id (purchases t)); auto. apply Hw.
Qed.

Lemma purchase_id_nonzero t p : wf t -> In p (purchases t) -> (p_id p =? 0) = false.
Proof.
  intros Hw Hin. pose proof (wf_purchase_pos t Hw p Hin). apply Z.eqb_neq. lia.
Qed.

(** Exact amounts: for every purchase and every Payment.create call linked
    to it, and every Payment.update call on a payment linked to it, whose
    amount would make the purchase's paid_amount exceed its amount, the call
    raises ValueError (or the storage engine itself fails) and all tables
    are as before the call.  The test of the code compares the amount with
    amount - paid_amount and the UPDATE stores paid_amount + amount; the two
    agree when the arithmetic is exact, and part on binary64 values (see
    the runs on binary64 values below). *)
Lemma overpayment_refused flt c p :
  ready c ->
  In p (purchases (tables c)) ->
  (forall date sid amount mode ref notes,
      p_paid_amount p + amount > p_amount p ->
      refused flt c
        (Payment.create flt date sid amount mode (Some (p_id p)) ref notes c))
  /\ (forall cur date amount mode ref notes,
         In cur (payments (tables c)) ->
         y_purchase_id cur = Some (p_id p) ->
         p_paid_amount p - y_amount cur + amount > p_amount p ->
         refused flt c
           (Payment.update flt (y_id cur) date (Some amount) mode ref notes c)).
Proof.
  intros [Hw Hc] Hin.
  pose proof (purchase_id_nonzero _ _ Hw Hin) as Hnz.
  split.
  - intros date sid amount mode ref notes Hover.
    destruct (Payment.create _ _ _ _ _ _ _ _ c) as [o c'] eqn:H.
    destruct o as [id | e].
    + exfalso. apply Payment_create_return in H; [|assumption].
      destruct H as (_ & t1 & _ & Hrest). rewrite Hnz in Hrest.
      destruct Hrest as (_ & p0 & Hsel & Hle).
      apply select_purchase_of_unique in Hsel; auto. subst p0. lia.
    + split; [eapply Payment_create_raise; eassumption|]. simpl.
      apply Payment_create_kind in H.
      destruct H as [(msg & ->) | [[-> Hf] | H]]; [eauto | auto |].
      exfalso. rewrite Hnz in H. destruct H as (p0 & Hsel & Hle).
      apply select_purchase_of_unique in Hsel; auto. subst p0. lia.
  - intros cur date amount mode ref notes Hcur Hlink Hover.
    pose proof (select_payment _ _ Hw Hcur) as Hsel.
    pose proof (select_purchase_unique _ _ Hw Hin) as Hpur.
    destruct (Payment.update _ _ _ _ _ _ _ c) as [o c'] eqn:H.
    destruct o as [b | e].
    + exfalso. apply Payment_update_return in H; [|assumption].
      destruct H as [(_ & _ & _ & Ha & _) | (_ & cur' & u & t1 & n1 & Hsel' & _ & _ & Hrest)];
        [discriminate|].
      rewrite Hsel in Hsel'. inversion Hsel'; subst cur'.
      rewrite Hlink, Hnz in Hrest. destruct Hrest as (_ & p0 & Hp0 & Hle).
      rewrite Hpur in Hp0. inversion Hp0; subst p0. lia.
    + split; [eapply Payment_update_raise; eassumption|]. simpl.
      apply Payment_update_kind in H.
      destruct H as [(msg & ->) | [[-> Hf] | (cur' & Hsel' & H)]]; [eauto | auto |].
      exfalso. rewrite Hsel in Hsel'. inversion Hsel'; subst cur'.
      rewrite Hlink, Hnz, Hpur in H. lia.
Qed.

(** C4 (P4). If Payment.create fails at any step -- a validation error, a
    rejected statement, or a storage fault at the payment insert, at the
    update of the purchase's paid_amount or at the commit -- the tables are
    exactly as before the call (no payment row of the call exists, purchase
    and supplier rows are unchanged) and nothing is left pending on the
    connection. *)
Theorem payment_create_atomic flt date sid amount mode purchase_id ref notes c e c' :
  clean c ->
  Payment.create flt date sid amount mode purchase_id ref notes c = (Raise e, c') ->
  tables c' = tables c /\ clean c'.
Proof. apply Payment_create_raise. Qed.

(** C7 (P3 / I5, I6). Supplier.delete on a supplier with at least one
    purchase or payment, and Purchase.delete on a purchase with at least one
    linked payment, raise the ValueError that reports the conflict (or the
    storage engine itself fails) and remove no row. *)
Theorem protected_delete_refused flt c :
  clean c ->
  (forall id,
      (exists p, In p (purchases (tables c)) /\ p_supplier_id p = id)
      \/ (exists y, In y (payments (tables c)) /\ y_supplier_id y = id) ->
      refused_with "Cannot delete supplier with existing transactions" flt c
        (Supplier.delete flt id c))
  /\ (forall id,
         (exists y, In y (payments (tables c)) /\ y_purchase_id y = Some id) ->
         refused_with "Cannot delete purchase with associated payments" flt c
           (Purchase.delete flt id c)).
Proof.
  intros Hc. split.
  - intros id Hrows.
    assert (Hcount :
      (0 <? count_if (fun p => p_supplier_id p =? id) (purchases (tables c)))
      || (0 <? count_if (fun y => y_supplier_id y =? id) (payments (tables c)))
      = true).
    { apply orb_true_iff. destruct Hrows as [(p & Hin & E) | (y & Hin & E)].
      - left. apply (count_if_pos _ _ p); [assumption | lia].
      - right. apply (count_if_pos _ _ y); [assumption | lia]. }
    destruct (Supplier.delete flt id c) as [o c'] eqn:H.
    pose proof (Supplier_delete_kind _ _ _ _ _ Hcount H) as Hk.
    split; [|exact Hk]. simpl.
    destruct Hk as [-> | [-> _]];
      eapply Supplier_delete_raise; eassumption.
  - intros id (y & Hin & E).
    assert (Hcount :
      (0 <? count_if (fun y => match y_purchase_id y with
                               | Some pid => pid =? id
                               | None => false
                               end) (payments (tables c))) = true).
    { apply (count_if_pos _ _ y); [assumption|]. rewrite E. apply Z.eqb_refl. }
    destruct (Purchase.delete flt id c) as [o c'] eqn:H.
    pose proof (Purchase_delete_kind _ _ _ _ _ Hcount H) as Hk.
    split; [|exact Hk]. simpl.
    destruct Hk as [-> | [-> _]];
      eapply Purchase_delete_raise; eassumption.
Qed.

(** ** Deleting a payment *)





(** ** Purchase.update and I1 *)

(** C5, the failing run: a purchase of 1000 with 400 paid satisfies
    0 <= paid_amount <= amount; Purchase.update with amount = 50 and
    paid_amount left unspecified succeeds and leaves paid_amount 400 above
    the amount 50. *)
Lemma purchase_update_amount_below_paid :
  within_amount bill
  /\ Purchase.update no_fault 1 None None None (Some 50) None None None
       (fresh_connection scenario_B)
     = (Return true, fresh_connection scenario_cut)
  /\ purchases scenario_cut = [bill_cut]
  /\ ~ within_amount bill_cut.
Proof.
  split; [unfold within_amount; simpl; lia|].
  split; [reflexivity|]. split; [reflexivity|].
  unfold within_amount. simpl. lia.
Qed.

(** ** Supplier.get_by_id *)

(** C8, the failing run: with one purchase and two payments the two LEFT
    JOINs pair the purchase with each payment, so the purchase is counted
    and summed twice. *)
Lemma supplier_totals_fan_out :
  Supplier.select_details 1 scenario_advance
  = Some (Supplier.mk_details (mk_supplier 1 "Acme" None None 500) 2 2000 800 500)
  /\ count_if (of_supplier 1) (purchases scenario_advance) = 1
  /\ amount_total 1 scenario_advance = 1000
  /\ paid_total 1 scenario_advance = 400
  /\ fst (Supplier.get_by_id no_fault 1 (fresh_connection scenario_advance))
     = Return (Supplier.select_details 1 scenario_advance).
Proof. repeat split. Qed.

(** ** Supplier.create *)

Lemma lstrip_blank s : blank s = true -> lstrip s = EmptyString.
Proof.
  induction s as [|a s IH]; simpl; [reflexivity|].
  intros H. apply andb_true_iff in H. destruct H as [-> H]. auto.
Qed.

Lemma strip_blank s : blank s = true -> strip s = EmptyString.
Proof. intros H. unfold strip. rewrite lstrip_blank by assumption. reflexivity. Qed.

(** ** [str.strip] removes exactly the surrounding whitespace *)

Lemma lstrip_split s :
  exists l, blank l = true /\ s = (l ++ lstrip s)%string
            /\ starts_clean (lstrip s) = true.
Proof.
  induction s as [|a s (l & Hl & Hs & Hc)]; simpl.
  - exists EmptyString. auto.
  - destruct (isspace a) eqn:Ha.
    + exists (String a l). simpl. rewrite Ha, Hl, <- Hs. auto.
    + exists EmptyString. simpl. rewrite Ha. auto.
Qed.

Lemma rstrip_split s :
  exists r, blank r = true /\ s = (rstrip s ++ r)%string
            /\ ends_clean (rstrip s) = true.
Proof.
  induction s as [|a s (r & Hr & Hs & Hc)]; simpl.
  - exists EmptyString. auto.
  - destruct (rstrip s) as [|b q] eqn:E.
    + simpl in Hs. subst s. destruct (isspace a) eqn:Ha.
      * exists (String a r). simpl. rewrite Ha, Hr. auto.
      * exists r. simpl. rewrite Ha. auto.
    + exists r. split; [exact Hr|]. split; [|exact Hc].
      simpl. f_equal. exact Hs.
Qed.

Lemma rstrip_starts_clean s : starts_clean s = true -> starts_clean (rstrip s) = true.
Proof.
  destruct s as [|a s]; simpl; [auto|]. intros Ha.
  destruct (rstrip s); simpl; [|exact Ha].
  apply negb_true_iff in Ha. rewrite Ha. simpl. rewrite Ha. reflexivity.
Qed.

Lemma append_assoc (a b c : string) : ((a ++ b) ++ c = a ++ (b ++ c))%string.
Proof. induction a as [|x a IH]; simpl; [reflexivity | rewrite IH; reflexivity]. Qed.

Lemma strip_trims s :
  exists l r, blank l = true /\ blank r = true
              /\ s = (l ++ strip s ++ r)%string
              /\ starts_clean (strip s) = true /\ ends_clean (strip s) = true.
Proof.
  destruct (lstrip_split s) as (l & Hl & Hs & Hc).
  destruct (rstrip_split (lstrip s)) as (r & Hr & Hs' & Hc').
  exists l, r. unfold strip. repeat split; auto.
  - rewrite <- Hs'. exact Hs.
  - apply rstrip_starts_clean, Hc.
Qed.

(** C9, as amended. Supplier.create makes no emptiness check. Absent a
    storage fault, for every name -- whitespace-only names included, whose
    trimmed form is the empty string -- the call succeeds and appends one
    supplier row whose name is the input with surrounding whitespace trimmed
    (the input is that name between two runs of whitespace, and the name
    neither starts nor ends with whitespace) and whose balance is 0, unless a
    supplier with that trimmed name already exists, in which case it raises
    ValueError and changes no table. *)
Theorem supplier_create_stores_trimmed name contact address c :
  (blank name = true -> strip name = EmptyString)
  /\ (exists l r, blank l = true /\ blank r = true
                  /\ name = (l ++ strip name ++ r)%string
                  /\ starts_clean (strip name) = true
                  /\ ends_clean (strip name) = true)
  /\ if existsb (fun s => String.eqb (s_name s) (strip name)) (suppliers (tables c))
     then (exists msg, fst (Supplier.create no_fault name contact address c)
                       = Raise (ValueError msg))
          /\ tables (snd (Supplier.create no_fault name contact address c))
             = tables c
     else exists id c',
         Supplier.create no_fault name contact address c = (Return id, c')
         /\ suppliers (tables c')
            = suppliers (tables c) ++ [mk_supplier id (strip name) contact address 0]
         /\ purchases (tables c') = purchases (tables c)
         /\ payments (tables c') = payments (tables c)
         /\ txn c' = None.
Proof.
  split; [apply strip_blank|]. split; [apply strip_trims|].
  destruct (existsb _ _) eqn:Hex.
  - unfold Supplier.create, try_except, bind, execute, commit, no_fault.
    unfold insert_supplier.
    assert (tables (begin c) = tables c) as Hb
      by (unfold begin; destruct (txn c); reflexivity).
    rewrite Hb, Hex. simpl. split; [eauto | exact Hb].
  - unfold Supplier.create, try_except, bind, execute, commit, ret, no_fault.
    unfold insert_supplier.
    assert (tables (begin c) = tables c) as Hb
      by (unfold begin; destruct (txn c); reflexivity).
    rewrite Hb, Hex. simpl. do 2 eexists. split; [reflexivity|]. simpl. auto.
Qed.

(** C9, the claim as stated fails: a name of three spaces is accepted on an
    empty database and stored as the empty name. *)
Lemma supplier_create_accepts_blank :
  blank "   " = true
  /\ Supplier.create no_fault "   " None None (fresh_connection empty_store)
     = (Return 1,
        fresh_connection (mk_store [mk_supplier 1 "" None None 0] [] [] 1 0 0)).
Proof. split; reflexivity. Qed.

(** ** Updates with nothing to update *)

Lemma select_purchase_none id t :
  (forall p, In p (purchases t) -> p_id p <> id) ->
  Purchase.select_by_id id t = None.
Proof.
  intros H. unfold Purchase.select_by_id.
  destruct (find _ _) as [p|] eqn:E; [|reflexivity].
  apply find_some in E. destruct E as [Hin E].
  apply andb_true_iff in E. destruct E as [E _].
  exfalso. apply (H p Hin). lia.
Qed.

Lemma select_purchase_some id t :
  wf t -> (exists p, In p (purchases t) /\ p_id p = id) ->
  Purchase.select_by_id id t <> None.
Proof.
  intros Hw (p & Hin & <-). unfold Purchase.select_by_id.
  rewrite (find_by_key p_id (fun x => supplier_exists t (p_supplier_id x)));
    [discriminate | apply Hw | exact Hin | apply Hw, Hin].
Qed.

Lemma select_payment_none id t :
  (forall y, In y (payments t) -> y_id y <> id) ->
  Payment.select_by_id id t = None.
Proof.
  intros H. unfold Payment.select_by_id.
  destruct (find _ _) as [y|] eqn:E; [|reflexivity].
  apply find_some in E. destruct E as [Hin E].
  apply andb_true_iff in E. destruct E as [E _].
  exfalso. apply (H y Hin). lia.
Qed.

Lemma select_payment_some id t :
  wf t -> (exists y, In y (payments t) /\ y_id y = id) ->
  Payment.select_by_id id t <> None.
Proof.
  intros Hw (y & Hin & <-). rewrite select_payment by assumption. discriminate.
Qed.

(** C10, as amended. An update with every optional field omitted never
    changes the connection. Supplier.update returns False for every id.
    Purchase.update and Payment.update return False when the id names a
    stored row (and the lookup does not fail), and raise ValueError when no
    row has that id. *)
Theorem empty_update_changes_nothing flt id c :
  Supplier.update flt id None None None c = (Return false, c)
  /\ (exists o,
         Purchase.update flt id None None None None None None None c = (o, c)
         /\ (o = Return false \/ o = Raise (ValueError "Purchase does not exist"))
         /\ ((forall p, In p (purchases (tables c)) -> p_id p <> id) ->
             o = Raise (ValueError "Purchase does not exist"))
         /\ (flt 46%nat = false -> wf (tables c) ->
             (exists p, In p (purchases (tables c)) /\ p_id p = id) ->
             o = Return false))
  /\ (exists o,
         Payment.update flt id None None None None None c = (o, c)
         /\ (o = Return false \/ o = Raise (ValueError "Payment does not exist"))
         /\ ((forall y, In y (payments (tables c)) -> y_id y <> id) ->
             o = Raise (ValueError "Payment does not exist"))
         /\ (flt 44%nat = false -> wf (tables c) ->
             (exists y, In y (payments (tables c)) /\ y_id y = id) ->
             o = Return false)).
Proof.
  split; [reflexivity|]. split.
  - unfold Purchase.update, Purchase.get_by_id, try_except, bind, fetch, raise, ret.
    destruct (flt 46%nat) eqn:Hf; simpl.
    + eexists. split; [reflexivity|]. split; [auto|]. split; [auto | discriminate].
    + destruct (Purchase.select_by_id id (tables c)) eqn:Hsel; simpl.
      * eexists. split; [reflexivity|]. split; [auto|]. split; [|auto].
        intros Hno. rewrite select_purchase_none in Hsel by assumption.
        discriminate.
      * eexists. split; [reflexivity|]. split; [auto|]. split; [auto|].
        intros _ Hw Hex. exfalso. exact (select_purchase_some _ _ Hw Hex Hsel).
  - unfold Payment.update, Payment.get_by_id, try_except, bind, fetch, raise, ret.
    destruct (flt 44%nat) eqn:Hf; simpl.
    + eexists. split; [reflexivity|]. split; [auto|]. split; [auto | discriminate].
    + destruct (Payment.select_by_id id (tables c)) eqn:Hsel; simpl.
      * eexists. split; [reflexivity|]. split; [auto|]. split; [|auto].
        intros Hno. rewrite select_payment_none in Hsel by assumption.
        discriminate.
      * eexists. split; [reflexivity|]. split; [auto|]. split; [auto|].
        intros _ Hw Hex. exfalso. exact (select_payment_some _ _ Hw Hex Hsel).
Qed.

(** C10, the claim as stated fails: Purchase.update with every field omitted
    and an id that does not exist raises ValueError instead of returning
    False. *)
Lemma empty_update_of_missing_purchase_raises :
  Purchase.update no_fault 7 None None None None None None None
    (fresh_connection scenario_B)
  = (Raise (ValueError "Purchase does not exist"), fresh_connection scenario_B).
Proof. reflexivity. Qed.

(** ** Runs on binary64 values *)

(** C1, the failing run. A purchase of 0.11 is created with 0.04 paid, and a
    payment of 0.07 is made against it.  The test of [Payment.create] lets it
    pass, since 0.11 - 0.04 is not below 0.07 in binary64; the UPDATE then
    stores 0.04 + 0.07, which is 0.11000000000000001: the call returns, and
    the paid_amount of the purchase is above its amount. *)
Theorem overpayment_accepted_in_binary64 :
  exists c1 c2,
    Binary64.Purchase.create no_fault "2024-01-01" 1 0.11 None 0.04 None None
      (Binary64.fresh_connection Binary64.acme_only) = (Return 1, c1)
    /\ Binary64.Payment.create no_fault "2024-01-02" 1 0.07 "cash" (Some 1)
         None None c1 = (Return 1, c2)
    /\ map (fun p => (Binary64.p_amount p, Binary64.p_paid_amount p))
           (Binary64.purchases (Binary64.tables c2))
       = [(0.11%float, 0.11000000000000001%float)]
    /\ (0.11 <? 0.11000000000000001)%float = true.
Proof.
  eexists. eexists.
  split; [vm_compute; reflexivity|].
  split; [vm_compute; reflexivity|].
  split; reflexivity.
Qed.

(** The other direction: on a purchase of 0.3 with 0.1 paid the payment of
    the remaining 0.2 is refused, since 0.3 - 0.1 is 0.19999999999999998. *)
Lemma full_payment_refused_in_binary64 :
  exists c1,
    Binary64.Purchase.create no_fault "2024-01-01" 1 0.3 None 0.1 None None
      (Binary64.fresh_connection Binary64.acme_only) = (Return 1, c1)
    /\ Binary64.Payment.create no_fault "2024-01-02" 1 0.2 "cash" (Some 1)
         None None c1
       = (Raise (ValueError "Payment amount exceeds outstanding balance"), c1).
Proof. eexists. split; vm_compute; reflexivity. Qed.

(** On binary64 values the paid_amount drifts away from the payments: after
    payments of 0.7 and 0.1 on a purchase of 1 and the deletion of the
    first, the paid_amount is 0.09999999999999998 and the remaining payment
    is 0.1; deleting that one would store a negative paid_amount and is
    rejected by the CHECK. *)
Lemma paid_amount_drifts_in_binary64 :
  exists c1 c2 c3 c4,
    Binary64.Purchase.create no_fault "2024-01-01" 1 1 None 0 None None
      (Binary64.fresh_connection Binary64.acme_only) = (Return 1, c1)
    /\ Binary64.Payment.create no_fault "2024-01-02" 1 0.7 "cash" (Some 1)
         None None c1 = (Return 1, c2)
    /\ Binary64.Payment.create no_fault "2024-01-03" 1 0.1 "cash" (Some 1)
         None None c2 = (Return 2, c3)
    /\ Binary64.Payment.delete no_fault 1 c3 = (Return true, c4)
    /\ map Binary64.p_paid_amount (Binary64.purchases (Binary64.tables c4))
       = [0.099999999999999978%float]
    /\ map Binary64.y_amount (Binary64.payments (Binary64.tables c4))
       = [0.1%float]
    /\ Binary64.Payment.delete no_fault 2 c4 = (Raise IntegrityError, c4).
Proof.
  do 4 eexists.
  split; [vm_compute; reflexivity|].
  split; [vm_compute; reflexivity|].
  split; [vm_compute; reflexivity|].
  split; [vm_compute; reflexivity|].
  split; [reflexivity|]. split; reflexivity.
Qed.

(** On binary64 values the balance drifts away from the aggregate: after a
    purchase of 0.1, an advance payment of 0.3 and a purchase of 0.2 the
    trigger has computed (0.1 - 0.3) + 0.2, and the sums of the aggregate
    give (0.1 + 0.2) - 0.3. *)
Lemma balance_drifts_in_binary64 :
  exists c1 c2 c3,
    Binary64.Purchase.create no_fault "2024-01-01" 1 0.1 None 0 None None
      (Binary64.fresh_connection Binary64.acme_only) = (Return 1, c1)
    /\ Binary64.Payment.create no_fault "2024-01-02" 1 0.3 "cash" None
         None None c1 = (Return 1, c2)
    /\ Binary64.Purchase.create no_fault "2024-01-03" 1 0.2 None 0 None None c2
       = (Return 2, c3)
    /\ map Binary64.s_balance (Binary64.suppliers (Binary64.tables c3))
       = [2.7755575615628914e-17%float]
    /\ (0.1 + 0.2 - 0 - 0.3 = 5.5511151231257827e-17)%float.
Proof.
  do 3 eexists.
  split; [vm_compute; reflexivity|].
  split; [vm_compute; reflexivity|].
  split; [vm_compute; reflexivity|].
  split; reflexivity.
Qed.

(** ** The scenarios of the specification, run from the empty database *)

(** Scenario A: supplier "Acme", then a purchase of 1000 with nothing paid;
    the balance becomes 1000. *)
Lemma scenario_A_reached :
  (Supplier.create no_fault " Acme " None None ;;
   Purchase.create no_fault "2024-01-01" 1 1000 None 0 None None)
    (fresh_connection empty_store)
  = (Return 1, fresh_connection scenario_A).
Proof. reflexivity. Qed.

(** Scenario B: a payment of 400 on that purchase; paid_amount 400, balance
    600. *)
Lemma scenario_B_reached :
  Payment.create no_fault "2024-01-02" 1 400 "cash" (Some 1) None None
    (fresh_connection scenario_A)
  = (Return 1, fresh_connection scenario_B).
Proof. reflexivity. Qed.

(** Scenario D: deleting that payment; paid_amount reverts to 0, the balance
    stays at 600. *)
Lemma scenario_D_run :
  Payment.delete no_fault 1 (fresh_connection scenario_B)
  = (Return true,
     fresh_connection
       (mk_store [mk_supplier 1 "Acme" None None 600]
                 [mk_purchase 1 "2024-01-01" 1 None 1000 0 None None] [] 1 1 1)).
Proof. reflexivity. Qed.

(** An advance payment of 100 after scenario B. *)
Lemma scenario_advance_reached :
  Payment.create no_fault "2024-01-03" 1 100 "upi" None None None
    (fresh_connection scenario_B)
  = (Return 2, fresh_connection scenario_advance).
Proof. reflexivity. Qed.

(** ** The theorems at the scenarios of the specification *)

(** Scenario C: on the purchase of 1000 with 400 paid, a payment of 700 is
    refused. *)
Lemma overpayment_refused_at_scenario_C :
  refused no_fault (fresh_connection scenario_B)
    (Payment.create no_fault "2024-01-03" 1 700 "cash" (Some 1) None None
       (fresh_connection scenario_B)).
Proof.
  apply (proj1 (overpayment_refused no_fault (fresh_connection scenario_B) bill
                  (conj (wfb_sound scenario_B eq_refl) (or_introl eq_refl))
                  (or_introl eq_refl))).
  simpl. lia.
Qed.

(** Scenario A, then a payment of 400 is created, edited to 300 and
    deleted. *)
Lemma paid_amount_follows_payments_witness :
  paid_matches_payments 1
    (tables
       (snd (Payment.delete no_fault 1
          (snd (Payment.update no_fault 1 None (Some 300) None None None
             (snd (Payment.create no_fault "2024-01-02" 1 400 "cash" (Some 1)
                     None None (fresh_connection scenario_A)))))))).
Proof.
  apply (paid_amount_follows_payments 1 (fresh_connection scenario_A)).
  - split; [apply wfb_sound; reflexivity | left; reflexivity].
  - intros p [<- | []] _. reflexivity.
  - eapply steps_snoc; [eapply steps_snoc; [eapply steps_snoc; [apply steps_nil|]|]|].
    + split;
        [ apply (step_create no_fault "2024-01-02" 1 400 "cash" (Some 1) None None
                 (fresh_connection scenario_A) 1);
          reflexivity
        | split; apply in_rangeb_sound; reflexivity ].
    + split;
        [ apply (step_update no_fault 1 None (Some 300) None None None _ true);
          reflexivity
        | split; apply in_rangeb_sound; reflexivity ].
    + split;
        [ apply (step_delete no_fault 1 _ true);
          reflexivity
        | split; apply in_rangeb_sound; reflexivity ].
Defined.

(** From supplier "Acme" alone: a purchase of 1000, a payment of 400 against
    it and an advance payment of 100; the balance is 1000 - 400 - 100. *)
Lemma balance_equals_aggregate_witness :
  Forall (fun s => s_id s = 1 ->
                   s_balance s
                   = amount_total 1 scenario_advance - paid_total 1 scenario_advance
                     - unlinked_total 1 scenario_advance)
         (suppliers scenario_advance).
Proof.
  apply Forall_forall.
  apply (balance_equals_aggregate 1 (fresh_connection acme_only)
           (fresh_connection scenario_advance)).
  - split; [apply wfb_sound; reflexivity | left; reflexivity].
  - intros s [<- | []] _. reflexivity.
  - eapply steps_snoc; [eapply steps_snoc; [eapply steps_snoc; [apply steps_nil|]|]|].
    + split;
        [ apply (step_purchase no_fault "2024-01-01" 1 1000 None 0 None None
                 (fresh_connection acme_only) 1 (fresh_connection scenario_A));
          reflexivity
        | split; apply in_rangeb_sound; reflexivity ].
    + split;
        [ apply (step_payment no_fault "2024-01-02" 1 400 "cash" (Some 1) None None
                 (fresh_connection scenario_A) 1 (fresh_connection scenario_B));
          reflexivity
        | split; apply in_rangeb_sound; reflexivity ].
    + split;
        [ apply (step_payment no_fault "2024-01-03" 1 100 "upi" None None None
                 (fresh_connection scenario_B) 2);
          reflexivity
        | split; apply in_rangeb_sound; reflexivity ].
Defined.

(** The payment row is inserted, then the update of the purchase fails. *)
Lemma payment_create_atomic_witness :
  tables (snd (Payment.create (fault_at 171) "2024-01-02" 1 400 "cash" (Some 1)
                 None None (fresh_connection scenario_A)))
  = tables (fresh_connection scenario_A)
  /\ clean (snd (Payment.create (fault_at 171) "2024-01-02" 1 400 "cash" (Some 1)
                   None None (fresh_connection scenario_A))).
Proof.
  apply (payment_create_atomic (fault_at 171) "2024-01-02" 1 400 "cash" (Some 1)
           None None (fresh_connection scenario_A) OperationalError).
  - left. reflexivity.
  - reflexivity.
Defined.


(** "Acme" has a purchase and a payment. *)
Lemma protected_delete_refused_witness :
  refused_with "Cannot delete supplier with existing transactions" no_fault
    (fresh_connection scenario_B)
    (Supplier.delete no_fault 1 (fresh_connection scenario_B)).
Proof.
  apply (proj1 (protected_delete_refused no_fault (fresh_connection scenario_B)
                  (or_introl eq_refl)) 1).
  left. exists bill. split; [left; reflexivity | reflexivity].
Defined.

(** * Further properties of the repositories *)

(** ** ORDER BY, sums and counts *)

Section Ordering.
Context {A : Type} (le : A -> A -> bool).

Lemma insert_by_perm x l : Permutation (insert_by le x l) (x :: l).
Proof.
  induction l as [|y l IH]; simpl; [reflexivity|].
  destruct (le x y); [reflexivity|].
  rewrite IH. apply perm_swap.
Qed.

Lemma order_by_perm l : Permutation (order_by le l) l.
Proof.
  induction l as [|x l IH]; simpl; [reflexivity|].
  rewrite insert_by_perm. constructor. exact IH.
Qed.

Lemma order_by_In l x : In x (order_by le l) <-> In x l.
Proof.
  split; apply Permutation_in; [|symmetry]; apply order_by_perm.
Qed.

Lemma order_by_length l : List.length (order_by le l) = List.length l.
Proof. apply Permutation_length, order_by_perm. Qed.

Hypothesis le_total : forall a b, le a b = true \/ le b a = true.

Lemma insert_by_ordered x l :
  ordered le l = true -> ordered le (insert_by le x l) = true.
Proof.
  induction l as [|y l IH]; simpl; [reflexivity|].
  intros Hl. destruct (le x y) eqn:Hxy.
  - simpl. rewrite Hxy. exact Hl.
  - assert (le y x = true) as Hyx by (destruct (le_total x y); congruence).
    destruct l as [|z l]; simpl in *.
    + rewrite Hyx. reflexivity.
    + apply andb_true_iff in Hl. destruct Hl as [Hyz Hl].
      specialize (IH Hl). destruct (le x z); simpl in *.
      * rewrite Hyx. exact IH.
      * rewrite Hyz. exact IH.
Qed.

Lemma order_by_ordered l : ordered le (order_by le l) = true.
Proof.
  induction l as [|x l IH]; simpl; [reflexivity|].
  apply insert_by_ordered, IH.
Qed.
End Ordering.

Lemma sum_or_zero_sum l : sum_or_zero l = sum_Z l.
Proof.
  unfold sum_or_zero. induction l as [|x l IH]; [reflexivity|].
  rewrite sum_Z_cons. simpl. destruct (some_sum l) as [s|]; lia.
Qed.

Lemma count_if_nil {A} (f : A -> bool) : count_if f [] = 0.
Proof. reflexivity. Qed.

Lemma count_if_cons {A} (f : A -> bool) x l :
  count_if f (x :: l) = (if f x then 1 else 0) + count_if f l.
Proof.
  unfold count_if. cbn [filter]. destruct (f x); [cbn [List.length]|]; lia.
Qed.

Lemma count_if_nonneg {A} (f : A -> bool) l : 0 <= count_if f l.
Proof. unfold count_if. lia. Qed.

Lemma count_if_le {A} (f : A -> bool) l : count_if f l <= Z.of_nat (List.length l).
Proof.
  unfold count_if. pose proof (filter_length_le f l). lia.
Qed.

(** Three tests of which exactly one holds of every row split the count. *)
Lemma count_if_three {A} (f g h : A -> bool) l :
  (forall x, In x l ->
             (if f x then 1 else 0) + (if g x then 1 else 0) + (if h x then 1 else 0)
             = 1) ->
  count_if f l + count_if g l + count_if h l = Z.of_nat (List.length l).
Proof.
  induction l as [|x l IH]; intros H; [reflexivity|].
  rewrite !count_if_cons. cbn [List.length]. rewrite Nat2Z.inj_succ.
  specialize (IH (fun y Hy => H y (or_intror Hy))).
  specialize (H x (or_introl eq_refl)). lia.
Qed.

Lemma count_if_two {A} (f : A -> bool) l :
  count_if f l + count_if (fun x => negb (f x)) l = Z.of_nat (List.length l).
Proof.
  induction l as [|x l IH]; [reflexivity|].
  rewrite !count_if_cons. cbn [List.length]. rewrite Nat2Z.inj_succ.
  destruct (f x); cbn [negb]; lia.
Qed.

Lemma sum_Z_split {A} (f : A -> bool) (v : A -> Z) l :
  sum_Z (map (fun x => if f x then v x else 0) l)
  + sum_Z (map (fun x => if f x then 0 else v x) l)
  = sum_Z (map v l).
Proof.
  induction l as [|x l IH]; [reflexivity|]. cbn [map].
  rewrite !sum_Z_cons. destruct (f x); lia.
Qed.

Lemma sum_Z_nonneg l : (forall x, In x l -> 0 <= x) -> 0 <= sum_Z l.
Proof.
  induction l as [|x l IH]; intros H; [unfold sum_Z; simpl; lia|].
  rewrite sum_Z_cons. specialize (IH (fun y Hy => H y (or_intror Hy))).
  specialize (H x (or_introl eq_refl)). lia.
Qed.

(** ** Summary statistics *)

Lemma net_of_signed_parts {A} (b : A -> Z) l :
  sum_Z (map b l)
  = sum_Z (map (fun x => if 0 <? b x then b x else 0) l)
    - sum_Z (map (fun x => if b x <? 0 then - b x else 0) l).
Proof.
  induction l as [|x l IH]; [reflexivity|]. cbn [map].
  rewrite !sum_Z_cons, IH.
  destruct (Z.ltb_spec 0 (b x)), (Z.ltb_spec (b x) 0); lia.
Qed.

(** [Supplier.get_summary_stats]: a failing read gives [None]; otherwise,
    when the balances are whole numbers whose absolute values add up to at
    most 2^52 (so that every sum SQLite forms is exact), the three balance
    buckets count every supplier exactly once, the net payable is the
    payable total minus the advance total, and neither total is negative. *)
Theorem supplier_stats_consistent flt c :
  exists o,
    Supplier.get_summary_stats flt c = (Return o, c)
    /\ (flt 266%nat = true -> o = None)
    /\ (flt 266%nat = false ->
        sum_in_range (map s_balance (suppliers (tables c))) ->
        exists st,
          o = Some st
          /\ Supplier.total_suppliers st = Z.of_nat (List.length (suppliers (tables c)))
          /\ Supplier.suppliers_with_payable st + Supplier.suppliers_with_advance st
             + Supplier.suppliers_zero_balance st = Supplier.total_suppliers st
          /\ Supplier.net_payable st
             = Supplier.total_payable st - Supplier.total_advance st
          /\ 0 <= Supplier.total_payable st
          /\ 0 <= Supplier.total_advance st).
Proof.
  unfold Supplier.get_summary_stats, try_except, fetch, ret.
  destruct (flt 266%nat); simpl.
  - exists None. repeat split; [discriminate].
  - eexists. split; [reflexivity|]. split; [discriminate|]. intros _ _.
    eexists. split; [reflexivity|]. simpl. rewrite !sum_or_zero_sum.
    split; [reflexivity|]. split; [|split; [|split]].
    + apply count_if_three. intros s _.
      destruct (Z.ltb_spec 0 (s_balance s)), (Z.ltb_spec (s_balance s) 0),
        (Z.eqb_spec (s_balance s) 0); lia.
    + apply net_of_signed_parts.
    + apply sum_Z_nonneg. intros x Hx. apply in_map_iff in Hx.
      destruct Hx as (s & <- & _). destruct (Z.ltb_spec 0 (s_balance s)); lia.
    + apply sum_Z_nonneg. intros x Hx. apply in_map_iff in Hx.
      destruct Hx as (s & <- & _). destruct (Z.ltb_spec (s_balance s) 0); lia.
Qed.

(** [Purchase.get_summary_stats] on whole-number amounts whose absolute
    values add up to at most 2^52, and paid amounts likewise (so that every
    sum SQLite forms is exact): whatever the date bounds, the outstanding
    total is the amount total minus the paid total and at most every stored
    purchase is counted; when every purchase has a positive amount (as
    create and update demand) the paid, partial and unpaid buckets count
    every selected purchase exactly once. *)
Theorem purchase_stats_consistent flt date_le start_date end_date c :
  wf (tables c) ->
  amounts_positive (tables c) ->
  sum_in_range (map p_amount (purchases (tables c))) ->
  sum_in_range (map p_paid_amount (purchases (tables c))) ->
  flt 319%nat = false ->
  exists st,
    Purchase.get_summary_stats flt date_le start_date end_date c
    = (Return (Some st), c)
    /\ Purchase.total_outstanding st
       = Purchase.total_amount st - Purchase.total_paid st
    /\ Purchase.paid_purchases st + Purchase.partial_purchases st
       + Purchase.unpaid_purchases st = Purchase.total_purchases st
    /\ 0 <= Purchase.total_purchases st
       <= Z.of_nat (List.length (purchases (tables c))).
Proof.
  intros Hw Hpos _ _ Hf.
  unfold Purchase.get_summary_stats, try_except, fetch, ret. rewrite Hf. simpl.
  eexists. split; [reflexivity|]. simpl. rewrite !sum_or_zero_sum.
  split; [apply sum_of_differences|]. split.
  - apply count_if_three. intros p Hp. apply filter_In in Hp. destruct Hp as [Hp _].
    pose proof (Hpos p Hp). pose proof (wf_purchase_check _ Hw p Hp) as Hck.
    unfold check_purchase in Hck. apply andb_true_iff in Hck.
    destruct Hck as [_ Hck]. apply Z.leb_le in Hck.
    destruct (Z.leb_spec (p_amount p) (p_paid_amount p)),
      (Z.ltb_spec 0 (p_paid_amount p)), (Z.ltb_spec (p_paid_amount p) (p_amount p)),
      (Z.eqb_spec (p_paid_amount p) 0); simpl; lia.
  - pose proof (filter_length_le
                  (fun p => Purchase.date_filter date_le start_date end_date (p_date p))
                  (purchases (tables c))). lia.
Qed.

(** [Payment.get_summary_stats]: a failing read gives [None]; otherwise,
    when the payment amounts are whole numbers whose absolute values add up
    to at most 2^52 (so that every sum SQLite forms is exact), whatever the
    date bounds, purchase payments and advance payments together are all
    the selected payments, in number and in amount. *)
Theorem payment_stats_consistent flt date_le start_date end_date c :
  exists o,
    Payment.get_summary_stats flt date_le start_date end_date c = (Return o, c)
    /\ (flt 326%nat = true -> o = None)
    /\ (flt 326%nat = false ->
        sum_in_range (map y_amount (payments (tables c))) ->
        exists st,
          o = Some st
          /\ Payment.purchase_payments st + Payment.advance_payments st
             = Payment.total_payments st
          /\ Payment.purchase_payment_amount st + Payment.advance_payment_amount st
             = Payment.total_amount st
          /\ 0 <= Payment.total_payments st
             <= Z.of_nat (List.length (payments (tables c)))).
Proof.
  unfold Payment.get_summary_stats, try_except, fetch, ret.
  destruct (flt 326%nat); simpl.
  - exists None. repeat split; [discriminate].
  - eexists. split; [reflexivity|]. split; [discriminate|]. intros _ _.
    eexists. split; [reflexivity|]. simpl. rewrite !sum_or_zero_sum.
    split; [apply count_if_two|]. split; [apply sum_Z_split|].
    pose proof (filter_length_le
                  (fun y => Purchase.date_filter date_le start_date end_date (y_date y))
                  (payments (tables c))). lia.
Qed.

(** ** Suppliers by balance *)

(** [Supplier.get_suppliers_with_balance]: 'payable', 'advance' and 'zero'
    list exactly the suppliers with a positive, a negative and a zero
    balance, so every supplier is in exactly one of the three lists; any
    other type lists every supplier; each list is in name order. *)
Theorem suppliers_by_balance flt balance_type c :
  flt 256%nat = false ->
  exists rows,
    Supplier.get_suppliers_with_balance flt balance_type c = (Return rows, c)
    /\ ordered Supplier.by_name rows = true
    /\ (forall s,
           In s rows <->
           In s (suppliers (tables c))
           /\ (balance_type = "payable" -> 0 < s_balance s)
           /\ (balance_type = "advance" -> s_balance s < 0)
           /\ (balance_type = "zero" -> s_balance s = 0)).
Proof.
  intros Hf.
  unfold Supplier.get_suppliers_with_balance, try_except, fetch, ret.
  rewrite Hf. simpl. eexists. split; [reflexivity|]. split.
  - apply order_by_ordered. intros a b. apply String.leb_total.
  - intros s. unfold Supplier.select_with_balance.
    rewrite order_by_In, filter_In.
    destruct (String.eqb_spec balance_type "payable") as [-> | H1].
    { simpl. rewrite Z.ltb_lt. intuition discriminate. }
    destruct (String.eqb_spec balance_type "advance") as [-> | H2].
    { simpl. rewrite Z.ltb_lt. intuition discriminate. }
    destruct (String.eqb_spec balance_type "zero") as [-> | H3].
    { simpl. rewrite Z.eqb_eq. intuition discriminate. }
    intuition congruence.
Qed.

(** ** What every state of a session satisfies *)

Lemma Purchase_add_payment_raise flt id amount c e c' :
  clean c ->
  Purchase.add_payment flt id amount c = (Raise e, c') ->
  tables c' = tables c /\ clean c'.
Proof.
  intros Hc H. unfold Purchase.add_payment in H.
  split_clean c Hc; crunch H; finish H; auto.
Qed.

Lemma Purchase_add_payment_return flt id amount c b c' :
  clean c ->
  Purchase.add_payment flt id amount c = (Return b, c') ->
  b = true /\ txn c' = None /\
  exists cur n,
    Purchase.select_by_id id (tables c) = Some cur
    /\ p_paid_amount cur + amount <= p_amount cur
    /\ update_purchases [P_paid_amount (p_paid_amount cur + amount)] id (tables c)
       = Some (tables c', n).
Proof.
  intros Hc H. unfold Purchase.add_payment in H.
  split_clean c Hc; crunch H; finish H.
  all: split; [reflexivity|]; split; [reflexivity|]; do 2 eexists.
  all: split; [eassumption|]; split; [lia | eassumption].
Qed.

Lemma Purchase_add_payment_ready flt id amount c o c' :
  ready c -> Purchase.add_payment flt id amount c = (o, c') -> ready c'.
Proof.
  intros Hr H. pose proof Hr as [Hw Hc]. destruct o as [b | e].
  - apply Purchase_add_payment_return in H; [|assumption].
    destruct H as (_ & Ht & cur & n & _ & _ & Hup).
    apply ready_committed; eauto using update_purchases_wf.
  - apply Purchase_add_payment_raise in H; [|assumption].
    destruct H. eapply ready_unchanged; eauto.
Qed.

(** A UNIQUE column stays a key when the rewritten rows pass the test. *)
Lemma names_stay_unique (sel : supplier_row -> bool) (f : supplier_row -> supplier_row) l :
  NoDup (map s_name l) ->
  forallb (fun s => negb (sel s) || unique_name (update_where sel f l) (f s)) l = true ->
  NoDup (map s_name (update_where sel f l)).
Proof.
  unfold unique_name, update_where.
  set (g := fun r => if sel r then f r else r).
  set (cnt := fun n (l' : list supplier_row) =>
                List.length (filter (fun s' => String.eqb (s_name s') n) l')).
  intros Hn Hck.
  assert (Hck' : forall s, In s l -> sel s = true ->
                           (cnt (s_name (f s)) (map g l) <= 1)%nat).
  { intros s Hs Hsel. rewrite forallb_forall in Hck. specialize (Hck s Hs).
    rewrite Hsel in Hck. simpl in Hck. apply Nat.leb_le in Hck. exact Hck. }
  clear Hck.
  assert (Hone : forall n l', In n (map s_name l') -> (1 <= cnt n l')%nat).
  { intros n l' Hin. apply in_map_iff in Hin. destruct Hin as (x & <- & Hx).
    assert (In x (filter (fun s' => String.eqb (s_name s') (s_name x)) l')) as Hf
      by (apply filter_In; split; [assumption | apply String.eqb_refl]).
    unfold cnt. destruct (filter _ l'); [contradiction | simpl; lia]. }
  induction l as [|a l IH]; simpl; [constructor|].
  inversion Hn as [|? ? Ha Hn']; subst.
  assert (Hcons : forall n, cnt n (g a :: map g l)
                            = ((if String.eqb (s_name (g a)) n then 1 else 0)
                               + cnt n (map g l))%nat).
  { intros n. unfold cnt. simpl. destruct (String.eqb (s_name (g a)) n); reflexivity. }
  constructor.
  - intros Hin. pose proof (Hone _ _ Hin) as H1.
    destruct (sel a) eqn:Hsa.
    + assert (g a = f a) as Ega by (unfold g; rewrite Hsa; reflexivity).
      pose proof (Hck' a (or_introl eq_refl) Hsa) as H2. simpl in H2.
      rewrite Hcons, Ega, String.eqb_refl in H2. rewrite Ega in H1. lia.
    + assert (g a = a) as Ega by (unfold g; rewrite Hsa; reflexivity).
      rewrite Ega in Hin, H1.
      apply in_map_iff in Hin. destruct Hin as (b' & Eb & Hb').
      apply in_map_iff in Hb'. destruct Hb' as (b & <- & Hb).
      destruct (sel b) eqn:Hsb.
      * assert (g b = f b) as Egb by (unfold g; rewrite Hsb; reflexivity).
        rewrite Egb in Eb.
        pose proof (Hck' b (or_intror Hb) Hsb) as H2. simpl in H2.
        rewrite Hcons, Ega, Eb, String.eqb_refl in H2. lia.
      * assert (g b = b) as Egb by (unfold g; rewrite Hsb; reflexivity).
        rewrite Egb in Eb. apply Ha. rewrite <- Eb. apply in_map. exact Hb.
  - apply IH; [assumption|]. intros s Hs Hsel.
    pose proof (Hck' s (or_intror Hs) Hsel) as H2. simpl in H2.
    rewrite Hcons in H2. lia.
Qed.

Lemma add_balance_keys k d l :
  map s_id (add_balance k d l) = map s_id l
  /\ map s_name (add_balance k d l) = map s_name l.
Proof.
  unfold add_balance. rewrite !map_map.
  split; apply map_ext; intros s; destruct (s_id s =? k); reflexivity.
Qed.

(** Tables whose suppliers are the same up to balances and whose purchases
    are among the old ones (with the same amounts) are shaped as well. *)
Lemma shaped_frame t t' :
  map s_id (suppliers t') = map s_id (suppliers t) ->
  map s_name (suppliers t') = map s_name (suppliers t) ->
  (forall p', In p' (purchases t') ->
              exists p, In p (purchases t) /\ p_amount p' = p_amount p) ->
  shaped t -> shaped t'.
Proof.
  intros Hi Hn Hp [[H1 H2] H3]. split; [split|]; [congruence | congruence |].
  intros p' Hp'. destruct (Hp p' Hp') as (p & Hin & ->). auto.
Qed.

Lemma insert_supplier_shaped name contact address t t' n :
  shaped t -> insert_supplier name contact address t = Some (t', n) -> shaped t'.
Proof.
  intros [[H1 H2] H3]. unfold insert_supplier.
  destruct (existsb _ _) eqn:Hex; [discriminate|].
  intros E. inversion E; subst; clear E.
  split; [split|exact H3]; simpl.
  - apply NoDup_map_snoc; [assumption | apply next_rowid_fresh].
  - apply NoDup_map_snoc; [assumption|]. simpl. intros Hin.
    apply in_map_iff in Hin. destruct Hin as (s & Es & Hs).
    assert (existsb (fun s0 => String.eqb (s_name s0) name) (suppliers t) = true);
      [|congruence].
    apply existsb_exists. exists s. split; [assumption|]. rewrite Es.
    apply String.eqb_refl.
Qed.

Lemma insert_purchase_shaped date sid bill_no amount paid items notes t t' n :
  (amount <=? 0) = false ->
  shaped t ->
  insert_purchase date sid bill_no amount paid items notes t = Some (t', n) ->
  shaped t'.
Proof.
  intros Hpos [[H1 H2] H3] H. apply insert_purchase_effect in H.
  destruct H as (Hs & Hp & _).
  destruct (add_balance_keys sid (amount - paid) (suppliers t)) as [Ei En].
  split; [split|]; [rewrite Hs, Ei | rewrite Hs, En |]; try assumption.
  intros p Hin. rewrite Hp in Hin. apply in_app_iff in Hin.
  destruct Hin as [Hin | [<- | []]]; [auto | simpl; lia].
Qed.

Lemma insert_payment_shaped date sid purchase_id amount mode ref notes t t' n :
  shaped t ->
  insert_payment date sid purchase_id amount mode ref notes t = Some (t', n) ->
  shaped t'.
Proof.
  intros Hs H. apply insert_payment_effect in H. destruct H as (Es & Ep & _).
  destruct (add_balance_keys sid (- amount) (suppliers t)) as [Ei En].
  apply (shaped_frame t); [congruence | congruence | | assumption].
  intros p Hp. rewrite Ep in Hp. eauto.
Qed.

Lemma update_paid_amount_shaped delta id t t' n :
  shaped t -> update_paid_amount delta id t = Some (t', n) -> shaped t'.
Proof.
  intros Hs H. apply update_paid_amount_effect in H. destruct H as (Es & Ep & _).
  apply (shaped_frame t); [congruence | congruence | | assumption].
  intros p' Hp. rewrite Ep in Hp. apply in_update_where in Hp.
  destruct Hp as (p & Hin & ->). exists p.
  destruct (p_id p =? id); auto.
Qed.

Lemma update_payments_shaped updates id t t' n :
  shaped t -> update_payments updates id t = Some (t', n) -> shaped t'.
Proof.
  intros Hs H. apply update_payments_effect in H. destruct H as (Es & Ep & _).
  apply (shaped_frame t); [congruence | congruence | | assumption].
  intros p Hp. rewrite Ep in Hp. eauto.
Qed.

Lemma update_purchases_shaped updates id t t' n :
  (forall p, 0 < p_amount p -> 0 < p_amount (fold_left set_purchase updates p)) ->
  shaped t -> update_purchases updates id t = Some (t', n) -> shaped t'.
Proof.
  intros Hu [Hk Hpos]. unfold update_purchases.
  destruct (rewritten_ok _ _ _ _); [|discriminate].
  intros E. inversion E; subst; clear E. split; [exact Hk|].
  intros p' Hp. simpl in Hp. apply in_update_where in Hp.
  destruct Hp as (p & Hin & ->). destruct (p_id p =? id); auto.
Qed.

Lemma update_suppliers_shaped updates id t t' n :
  shaped t -> update_suppliers updates id t = Some (t', n) -> shaped t'.
Proof.
  intros [[H1 H2] H3]. unfold update_suppliers.
  destruct (forallb _ _) eqn:Hck; [|discriminate].
  intros E. inversion E; subst; clear E.
  split; [split|exact H3]; simpl.
  - rewrite update_where_key; [assumption|]. intros; apply set_supplier_id.
  - apply names_stay_unique; assumption.
Qed.

Lemma delete_supplier_shaped id t t' n :
  shaped t -> delete_supplier id t = Some (t', n) -> shaped t'.
Proof.
  intros [[H1 H2] H3]. unfold delete_supplier.
  destruct (existsb _ (suppliers t) && _); [discriminate|].
  intros E. inversion E; subst; clear E.
  split; [split|exact H3]; simpl; apply NoDup_map_filter; assumption.
Qed.

Lemma delete_purchase_shaped id t t' n :
  shaped t -> delete_purchase id t = Some (t', n) -> shaped t'.
Proof.
  intros Hs. unfold delete_purchase. intros E. inversion E; subst; clear E.
  apply (shaped_frame t); [reflexivity | reflexivity | | assumption].
  simpl. intros p Hp. apply filter_In in Hp. exists p. tauto.
Qed.

Lemma delete_payment_shaped id t t' n :
  shaped t -> delete_payment id t = Some (t', n) -> shaped t'.
Proof.
  intros Hs. unfold delete_payment. intros E. inversion E; subst; clear E.
  apply (shaped_frame t); [reflexivity | reflexivity | | assumption].
  simpl. eauto.
Qed.

(** Close a case of an operation: the final tables are the initial ones or
    come from them by the statements recorded in the context. *)
Ltac shape_step :=
  match goal with
  | E : insert_supplier _ _ _ ?t0 = Some (?s, _) |- shaped ?s =>
      apply (insert_supplier_shaped _ _ _ _ _ _) with (2 := E)
  | E : insert_purchase _ _ _ _ _ _ _ ?t0 = Some (?s, _) |- shaped ?s =>
      apply (insert_purchase_shaped _ _ _ _ _ _ _ _ _ _) with (3 := E);
      [eassumption|]
  | E : insert_payment _ _ _ _ _ _ _ ?t0 = Some (?s, _) |- shaped ?s =>
      apply (insert_payment_shaped _ _ _ _ _ _ _ _ _ _) with (2 := E)
  | E : update_paid_amount _ _ ?t0 = Some (?s, _) |- shaped ?s =>
      apply (update_paid_amount_shaped _ _ _ _ _) with (2 := E)
  | E : update_payments _ _ ?t0 = Some (?s, _) |- shaped ?s =>
      apply (update_payments_shaped _ _ _ _ _) with (2 := E)
  | E : update_suppliers _ _ ?t0 = Some (?s, _) |- shaped ?s =>
      apply (update_suppliers_shaped _ _ _ _ _) with (2 := E)
  | E : delete_supplier _ ?t0 = Some (?s, _) |- shaped ?s =>
      apply (delete_supplier_shaped _ _ _ _) with (2 := E)
  | |- shaped (mk_store (suppliers ?t0) (filter _ (purchases ?t0)) _ _ _ _) =>
      apply (shaped_frame t0);
      [ reflexivity | reflexivity
      | simpl; intros ? Hin; apply filter_In in Hin; eexists; split;
        [apply Hin | reflexivity]
      | ]
  | |- shaped (mk_store (suppliers ?t0) (purchases ?t0) _ _ _ _) =>
      apply (shaped_frame t0); [reflexivity | reflexivity | simpl; eauto | ]
  end.

Ltac keep_shape Hs := simpl; repeat shape_step; exact Hs.

Lemma Supplier_create_shaped flt name contact address c o c' :
  clean c -> shaped (tables c) ->
  Supplier.create flt name contact address c = (o, c') -> shaped (tables c').
Proof.
  intros Hc Hs H. split_clean c Hc; simpl in Hs; crunch H; finish H; keep_shape Hs.
Qed.

Lemma Supplier_update_shaped flt id name contact address c o c' :
  clean c -> shaped (tables c) ->
  Supplier.update flt id name contact address c = (o, c') -> shaped (tables c').
Proof.
  intros Hc Hs H. split_clean c Hc; simpl in Hs; crunch H; finish H; keep_shape Hs.
Qed.

Lemma Supplier_delete_shaped flt id c o c' :
  clean c -> shaped (tables c) ->
  Supplier.delete flt id c = (o, c') -> shaped (tables c').
Proof.
  intros Hc Hs H. split_clean c Hc; simpl in Hs; crunch H; finish H; keep_shape Hs.
Qed.

Lemma Purchase_create_shaped flt date sid amount bill_no paid items notes c o c' :
  clean c -> shaped (tables c) ->
  Purchase.create flt date sid amount bill_no paid items notes c = (o, c') ->
  shaped (tables c').
Proof.
  intros Hc Hs H. split_clean c Hc; simpl in Hs; crunch H; finish H; keep_shape Hs.
Qed.

Lemma Purchase_update_shaped flt id date sid bill_no amount paid items notes c o c' :
  clean c -> shaped (tables c) ->
  Purchase.update flt id date sid bill_no amount paid items notes c = (o, c') ->
  shaped (tables c').
Proof.
  intros Hc Hs H. split_clean c Hc; simpl in Hs; crunch H; finish H;
    try solve [keep_shape Hs].
  all: simpl; eapply update_purchases_shaped; [| exact Hs | eassumption].
  all: intros q Hq; destruct date, bill_no, items, notes; simpl; lia.
Qed.

Lemma Purchase_delete_shaped flt id c o c' :
  clean c -> shaped (tables c) ->
  Purchase.delete flt id c = (o, c') -> shaped (tables c').
Proof.
  intros Hc Hs H. split_clean c Hc; simpl in Hs; crunch H; finish H; keep_shape Hs.
Qed.

Lemma Purchase_add_payment_shaped flt id amount c o c' :
  clean c -> shaped (tables c) ->
  Purchase.add_payment flt id amount c = (o, c') -> shaped (tables c').
Proof.
  intros Hc Hs H. unfold Purchase.add_payment in H.
  split_clean c Hc; simpl in Hs; crunch H; finish H; try solve [keep_shape Hs].
  all: simpl; eapply update_purchases_shaped; [| exact Hs | eassumption].
  all: intros q Hq; simpl; exact Hq.
Qed.

Lemma Payment_create_shaped flt date sid amount mode purchase_id ref notes c o c' :
  clean c -> shaped (tables c) ->
  Payment.create flt date sid amount mode purchase_id ref notes c = (o, c') ->
  shaped (tables c').
Proof.
  intros Hc Hs H. split_clean c Hc; simpl in Hs; crunch H; finish H; keep_shape Hs.
Qed.

Lemma Payment_update_shaped flt id date amount mode ref notes c o c' :
  clean c -> shaped (tables c) ->
  Payment.update flt id date amount mode ref notes c = (o, c') ->
  shaped (tables c').
Proof.
  intros Hc Hs H. split_clean c Hc; simpl in Hs; crunch H; finish H; keep_shape Hs.
Qed.

Lemma Payment_delete_shaped flt id c o c' :
  clean c -> shaped (tables c) ->
  Payment.delete flt id c = (o, c') -> shaped (tables c').
Proof.
  intros Hc Hs H. split_clean c Hc; simpl in Hs; crunch H; finish H; keep_shape Hs.
Qed.

Lemma api_step_consistent c c' : consistent c -> api_step c c' -> consistent c'.
Proof.
  intros [Hr Hs] Hstep. pose proof Hr as [_ Hc].
  destruct Hstep as [ ? ? ? ? ? ? ? H | ? ? ? ? ? ? ? ? H | ? ? ? ? ? H
                    | ? ? ? ? ? ? ? ? ? ? ? H | ? ? ? ? ? ? ? ? ? ? ? ? H
                    | ? ? ? ? ? H | ? ? ? ? ? ? H
                    | ? ? ? ? ? ? ? ? ? ? ? H | ? ? ? ? ? ? ? ? ? ? H
                    | ? ? ? ? ? H ].
  - split; [eapply Supplier_create_ready | eapply Supplier_create_shaped]; eassumption.
  - split; [eapply Supplier_update_ready | eapply Supplier_update_shaped]; eassumption.
  - split; [eapply Supplier_delete_ready | eapply Supplier_delete_shaped]; eassumption.
  - split; [eapply Purchase_create_ready | eapply Purchase_create_shaped]; eassumption.
  - split; [eapply Purchase_update_ready | eapply Purchase_update_shaped]; eassumption.
  - split; [eapply Purchase_delete_ready | eapply Purchase_delete_shaped]; eassumption.
  - split; [eapply Purchase_add_payment_ready | eapply Purchase_add_payment_shaped];
      eassumption.
  - split; [eapply Payment_create_ready | eapply Payment_create_shaped]; eassumption.
  - split; [eapply Payment_update_ready | eapply Payment_update_shaped]; eassumption.
  - split; [eapply Payment_delete_ready | eapply Payment_delete_shaped]; eassumption.
Qed.

(** Every state that a session reaches from the empty database, through any
    calls of the writing operations of the three repositories, with any
    arguments, storage faults and outcomes, satisfies the guarantees of the
    schema (distinct keys, CHECKs, resolving foreign keys), has no pending
    change, keeps supplier ids and supplier names distinct and has only
    purchases with a positive amount. *)
Theorem session_consistent c :
  steps api_step (fresh_connection empty_store) c -> consistent c.
Proof.
  intros Hs.
  remember (fresh_connection empty_store) as c0 eqn:E.
  induction Hs as [c | c c1 c2 Hs IH Hstep].
  - subst c. split; [exact empty_ready|].
    split; [split; constructor | intros p []].
  - eapply api_step_consistent; [apply IH; exact E | exact Hstep].
Qed.

(** ** I1 under the payment operations *)

Lemma update_paid_amount_checked delta id t t' n :
  update_paid_amount delta id t = Some (t', n) ->
  forall p, In p (purchases t) -> p_id p = id -> 0 <= p_paid_amount p + delta.
Proof.
  unfold update_paid_amount.
  destruct (rewritten_ok _ _ _ _) eqn:Hok; [|discriminate].
  intros _ p Hin Hid.
  assert (Hsel : (p_id p =? id) = true) by (apply Z.eqb_eq; exact Hid).
  pose proof (rewritten_ok_spec _ _ _ _ p Hok Hin Hsel) as Hck.
  unfold check_purchase in Hck. simpl in Hck.
  apply andb_true_iff in Hck. destruct Hck as [_ Hck]. lia.
Qed.

Lemma within_same t t' :
  purchases t' = purchases t -> all_within_amount t -> all_within_amount t'.
Proof. intros E H p Hp. rewrite E in Hp. auto. Qed.

Lemma within_shift q delta t t' :
  purchases t' = update_where (fun p => p_id p =? q) (add_paid delta) (purchases t) ->
  (forall p, In p (purchases t) -> p_id p = q ->
             0 <= p_paid_amount p + delta <= p_amount p) ->
  all_within_amount t -> all_within_amount t'.
Proof.
  intros E Hb H p' Hp'. rewrite E in Hp'. apply in_update_where in Hp'.
  destruct Hp' as (p & Hin & ->).
  destruct (Z.eqb_spec (p_id p) q) as [Hq | Hq]; [|auto].
  unfold within_amount. simpl. auto.
Qed.

Lemma Payment_create_within flt date sid amount mode purchase_id ref notes c id c' :
  ready c ->
  Payment.create flt date sid amount mode purchase_id ref notes c = (Return id, c') ->
  all_within_amount (tables c) -> all_within_amount (tables c').
Proof.
  intros [Hw Hc] H Hm.
  apply Payment_create_return in H; [|assumption].
  destruct H as (_ & t1 & Hins & Hrest).
  apply insert_payment_effect in Hins. destruct Hins as (_ & Hp1 & _ & _).
  destruct purchase_id as [q|]; [|rewrite Hrest; eapply within_same; eauto].
  destruct (Z.eqb_spec q 0) as [E0 | E0]; [rewrite Hrest; eapply within_same; eauto|].
  destruct Hrest as [[n Hup] (p0 & Hsel & Hle)].
  pose proof (update_paid_amount_checked _ _ _ _ _ Hup) as Hlow.
  apply update_paid_amount_effect in Hup. destruct Hup as (_ & Hp2 & _).
  apply (within_shift q amount (tables c)); [congruence | | assumption].
  intros p Hin Hid. split; [apply Hlow; [rewrite Hp1|]; assumption|].
  subst q. apply select_purchase_of_unique in Hsel; auto. subst p0. lia.
Qed.

Lemma Payment_update_within flt id date amount mode ref notes c b c' :
  ready c ->
  Payment.update flt id date amount mode ref notes c = (Return b, c') ->
  all_within_amount (tables c) -> all_within_amount (tables c').
Proof.
  intros [Hw Hc] H Hm.
  apply Payment_update_return in H; [|assumption].
  destruct H as [[-> _] | (_ & cur & updates & t1 & n1 & _ & Hup & _ & Hrest)];
    [assumption|].
  apply update_payments_effect in Hup. destruct Hup as (_ & Hp1 & _).
  destruct amount as [a|]; [|rewrite Hrest; eapply within_same; eauto].
  destruct (y_purchase_id cur) as [q|]; [|rewrite Hrest; eapply within_same; eauto].
  destruct (Z.eqb_spec q 0) as [E0 | E0]; [rewrite Hrest; eapply within_same; eauto|].
  destruct Hrest as [[n2 Hup2] (p0 & Hsel & Hle)].
  pose proof (update_paid_amount_checked _ _ _ _ _ Hup2) as Hlow.
  apply update_paid_amount_effect in Hup2. destruct Hup2 as (_ & Hp2 & _).
  apply (within_shift q (a - y_amount cur) (tables c)); [congruence | | assumption].
  intros p Hin Hid. split; [apply Hlow; [rewrite Hp1|]; assumption|].
  subst q. rewrite (select_purchase_unique _ _ Hw Hin) in Hsel.
  inversion Hsel; subst p0. lia.
Qed.

Lemma Payment_delete_within flt id c b c' :
  ready c ->
  Payment.delete flt id c = (Return b, c') ->
  all_within_amount (tables c) -> all_within_amount (tables c').
Proof.
  intros [Hw Hc] H Hm.
  apply Payment_delete_return in H; [|assumption].
  destruct H as (_ & cur & t1 & n & Hsel & Hpaid & Hdel & _).
  apply select_by_id_found in Hsel. destruct Hsel as [Hcur _].
  pose proof (wf_payment_check _ Hw cur Hcur) as Hck.
  unfold check_payment in Hck. apply andb_true_iff in Hck.
  destruct Hck as [Hck _]. apply Z.ltb_lt in Hck.
  apply delete_payment_effect in Hdel. destruct Hdel as (_ & Hp2 & _ & _).
  destruct (y_purchase_id cur) as [q|];
    [|subst t1; eapply within_same; eauto].
  destruct (Z.eqb_spec q 0) as [E0 | E0]; [subst t1; eapply within_same; eauto|].
  destruct Hpaid as [n1 Hup].
  pose proof (update_paid_amount_checked _ _ _ _ _ Hup) as Hlow.
  apply update_paid_amount_effect in Hup. destruct Hup as (_ & Hp1 & _).
  apply (within_shift q (- y_amount cur) (tables c)); [congruence | | assumption].
  intros p Hin Hid. split; [apply Hlow; assumption|].
  pose proof (Hm p Hin) as [_ Hup]. lia.
Qed.

(** Exact amounts: if every purchase satisfies 0 <= paid_amount <= amount,
    so does every purchase after any sequence of successful Payment.create,
    Payment.update and Payment.delete calls. *)
Lemma within_amount_kept c c' :
  ready c ->
  all_within_amount (tables c) ->
  steps payment_step c c' ->
  all_within_amount (tables c').
Proof.
  intros Hr Hm Hs.
  assert (ready c' /\ all_within_amount (tables c')) as [_ H]; [|exact H].
  induction Hs as [c | c c1 c2 Hs IH Hstep]; [auto|].
  destruct (IH Hr Hm) as [Hr1 Hm1]. split.
  - eapply payment_step_ready; eassumption.
  - destruct Hstep as [? ? ? ? ? ? ? ? ? ? ? H | ? ? ? ? ? ? ? ? ? ? H | ? ? ? ? ? H].
    + eapply Payment_create_within; eassumption.
    + eapply Payment_update_within; eassumption.
    + eapply Payment_delete_within; eassumption.
Qed.

(** I1 is kept by the payment operations on whole-number amounts: if every
    purchase satisfies 0 <= paid_amount <= amount, so does every purchase
    after any sequence of successful Payment.create, Payment.update and
    Payment.delete calls, provided that before and after each call every
    stored amount and balance is a whole number of magnitude at most 2^52
    (where the arithmetic of Python and of SQLite is exact). *)
Theorem payments_keep_within_amount c c' :
  ready c ->
  all_within_amount (tables c) ->
  steps (within payment_step) c c' ->
  all_within_amount (tables c').
Proof.
  intros Hr Hm Hs. apply (within_amount_kept c c' Hr Hm).
  apply steps_within. exact Hs.
Qed.

(** ** Purchase.add_payment *)


(** ** The operations that leave the suppliers alone *)

Lemma update_purchases_effect updates id t t1 n :
  update_purchases updates id t = Some (t1, n) ->
  suppliers t1 = suppliers t /\ payments t1 = payments t.
Proof.
  unfold update_purchases. destruct (rewritten_ok _ _ _ _); [|discriminate].
  intros E. inversion E; subst; clear E. simpl. auto.
Qed.

Ltac frame_step :=
  match goal with
  | E : update_purchases _ _ ?t0 = Some (?s, _) |- suppliers ?s = _ =>
      rewrite (proj1 (update_purchases_effect _ _ _ _ _ E))
  | E : update_payments _ _ ?t0 = Some (?s, _) |- suppliers ?s = _ =>
      rewrite (proj1 (update_payments_effect _ _ _ _ _ E))
  | E : update_paid_amount _ _ ?t0 = Some (?s, _) |- suppliers ?s = _ =>
      rewrite (proj1 (update_paid_amount_effect _ _ _ _ _ E))
  end.

Ltac suppliers_kept := simpl; repeat frame_step; reflexivity.

Lemma Purchase_update_suppliers flt id date sid bill_no amount paid items notes c o c' :
  clean c ->
  Purchase.update flt id date sid bill_no amount paid items notes c = (o, c') ->
  suppliers (tables c') = suppliers (tables c).
Proof. intros Hc H. split_clean c Hc; crunch H; finish H; suppliers_kept. Qed.

Lemma Purchase_delete_suppliers flt id c o c' :
  clean c -> Purchase.delete flt id c = (o, c') ->
  suppliers (tables c') = suppliers (tables c).
Proof. intros Hc H. split_clean c Hc; crunch H; finish H; suppliers_kept. Qed.

Lemma Payment_update_suppliers flt id date amount mode ref notes c o c' :
  clean c ->
  Payment.update flt id date amount mode ref notes c = (o, c') ->
  suppliers (tables c') = suppliers (tables c).
Proof. intros Hc H. split_clean c Hc; crunch H; finish H; suppliers_kept. Qed.

Lemma Payment_delete_suppliers flt id c o c' :
  clean c -> Payment.delete flt id c = (o, c') ->
  suppliers (tables c') = suppliers (tables c).
Proof. intros Hc H. split_clean c Hc; crunch H; finish H; suppliers_kept. Qed.

(** No edit and no delete of a purchase or of a payment ever changes a row
    of the suppliers table, whatever the arguments, the storage faults and
    the outcome: the balance moved by the insert-time triggers is never
    compensated, not even when an amount or the supplier of a purchase is
    changed. *)
Theorem edits_never_touch_suppliers flt c :
  clean c ->
  (forall id date sid bill_no amount paid items notes,
      suppliers (tables (snd (Purchase.update flt id date sid bill_no amount paid
                                 items notes c)))
      = suppliers (tables c))
  /\ (forall id,
         suppliers (tables (snd (Purchase.delete flt id c))) = suppliers (tables c))
  /\ (forall id date amount mode ref notes,
         suppliers (tables (snd (Payment.update flt id date amount mode ref notes c)))
         = suppliers (tables c))
  /\ (forall id,
         suppliers (tables (snd (Payment.delete flt id c))) = suppliers (tables c)).
Proof.
  intros Hc. repeat split; intros.
  - destruct (Purchase.update _ _ _ _ _ _ _ _ _ c) as [o c'] eqn:H.
    eapply Purchase_update_suppliers; eassumption.
  - destruct (Purchase.delete _ _ c) as [o c'] eqn:H.
    eapply Purchase_delete_suppliers; eassumption.
  - destruct (Payment.update _ _ _ _ _ _ _ c) as [o c'] eqn:H.
    eapply Payment_update_suppliers; eassumption.
  - destruct (Payment.delete _ _ c) as [o c'] eqn:H.
    eapply Payment_delete_suppliers; eassumption.
Qed.

(** ** Accepted creations *)

Lemma select_balance_add_balance k sid delta t t' :
  suppliers t' = add_balance sid delta (suppliers t) ->
  select_balance k t'
  = option_map (fun b => if k =? sid then b + delta else b) (select_balance k t).
Proof.
  unfold select_balance. intros ->. unfold add_balance.
  induction (suppliers t) as [|s l IH]; [reflexivity|].
  cbn [map find]. destruct (Z.eqb_spec (s_id s) sid) as [E | E]; cbn [s_id].
  - destruct (Z.eqb_spec (s_id s) k) as [E' | E']; [|exact IH].
    cbn. replace (k =? sid) with true by (symmetry; apply Z.eqb_eq; congruence).
    reflexivity.
  - destruct (Z.eqb_spec (s_id s) k) as [E' | E']; [|exact IH].
    cbn. replace (k =? sid) with false by (symmetry; apply Z.eqb_neq; congruence).
    reflexivity.
Qed.

Lemma supplier_found t sid :
  supplier_exists t sid = true -> Purchase.select_supplier_id sid t = Some sid.
Proof.
  unfold supplier_exists, Purchase.select_supplier_id.
  induction (suppliers t) as [|s l IH]; [discriminate|].
  cbn [existsb find]. destruct (Z.eqb_spec (s_id s) sid) as [E | E].
  - intros _. cbn. congruence.
  - exact IH.
Qed.

Lemma find_snoc_fresh {A} (key : A -> Z) (extra : A -> bool) (l : list A) r :
  ~ In (key r) (map key l) -> extra r = true ->
  find (fun x => (key x =? key r) && extra x) (l ++ [r]) = Some r.
Proof.
  intros Hfresh Hx. induction l as [|a l IH].
  - cbn. rewrite Z.eqb_refl, Hx. reflexivity.
  - cbn [app find]. destruct (Z.eqb_spec (key a) (key r)) as [E | E].
    + exfalso. apply Hfresh. left. exact E.
    + cbn. apply IH. intros Hin. apply Hfresh. right. exact Hin.
Qed.

(** [Purchase.create] with a positive whole-number amount of at most 2^52,
    a whole-number paid amount between 0 and the amount and an existing
    supplier whose balance is a whole number of magnitude at most 2^52 is
    accepted when the storage does not fail: it returns an id larger than
    every stored purchase id, the purchase is then found under that id with
    the fields given (the date apart, which SQLite may store converted),
    and the supplier's balance has grown by amount - paid_amount. *)
Theorem purchase_create_accepted flt date sid amount bill_no paid items notes c b :
  ready c ->
  flt 131%nat = false -> flt 135%nat = false -> flt 140%nat = false ->
  flt 46%nat = false -> flt 189%nat = false ->
  exact_range amount -> exact_range b ->
  0 < amount -> 0 <= paid <= amount ->
  supplier_exists (tables c) sid = true ->
  fst (get_supplier_balance flt sid c) = Return b ->
  exists id c',
    Purchase.create flt date sid amount bill_no paid items notes c = (Return id, c')
    /\ (forall p, In p (purchases (tables c)) -> p_id p < id)
    /\ (exists p,
           Purchase.get_by_id flt id c' = (Return (Some p), c')
           /\ p_id p = id /\ p_supplier_id p = sid /\ p_bill_no p = bill_no
           /\ p_amount p = amount /\ p_paid_amount p = paid
           /\ p_items p = items /\ p_notes p = notes)
    /\ get_supplier_balance flt sid c' = (Return (b + (amount - paid)), c').
Proof.
  intros [Hw Hc] H131 H135 H140 H46 H189 _ _ Ha Hp Hs Hb.
  assert (E1 : (amount <=? 0) = false) by (apply Z.leb_gt; lia).
  assert (E2 : (paid <? 0) = false) by (apply Z.ltb_ge; lia).
  assert (E3 : (amount <? paid) = false) by (apply Z.ltb_ge; lia).
  pose proof (supplier_found _ _ Hs) as E4.
  assert (E5 : exists t1 id,
             insert_purchase date sid bill_no amount paid items notes (tables c)
             = Some (t1, id)).
  { unfold insert_purchase, check_purchase, fk_purchase. cbn [p_amount p_paid_amount p_supplier_id].
    rewrite Hs.
    replace (0 <=? amount) with true by (symmetry; apply Z.leb_le; lia).
    replace (0 <=? paid) with true by (symmetry; apply Z.leb_le; lia).
    cbn. eauto. }
  destruct E5 as (t1 & id0 & E5).
  destruct (Purchase.create flt date sid amount bill_no paid items notes c)
    as [[id | e] c'] eqn:H.
  - exists id, c'. split; [reflexivity|].
    pose proof H as H'. apply Purchase_create_return in H'; [|assumption].
    destruct H' as (Htx & Hins & _ & _).
    pose proof (insert_purchase_effect _ _ _ _ _ _ _ _ _ _ Hins) as (Hsup & Hpur & _).
    assert (Hid : id = next_rowid (seq_purchases (tables c))
                                  (map p_id (purchases (tables c)))).
    { unfold insert_purchase in Hins.
      destruct (_ && _) in Hins; [|discriminate]. inversion Hins. reflexivity. }
    assert (Hlt : forall p, In p (purchases (tables c)) -> p_id p < id).
    { intros p Hin. rewrite Hid. unfold next_rowid.
      pose proof (fold_max_ge (map p_id (purchases (tables c))) (p_id p)
                    (in_map _ _ _ Hin)). lia. }
    split; [exact Hlt|]. split.
    + exists (mk_purchase id date sid bill_no amount paid items notes).
      split; [|cbn; repeat split; reflexivity].
      assert (Hf : find (fun p => (p_id p =? id)
                                  && supplier_exists (tables c') (p_supplier_id p))
                        (purchases (tables c)
                         ++ [mk_purchase id date sid bill_no amount paid items notes])
                   = Some (mk_purchase id date sid bill_no amount paid items notes)).
      { apply (find_snoc_fresh p_id
                 (fun p => supplier_exists (tables c') (p_supplier_id p))
                 (purchases (tables c))
                 (mk_purchase id date sid bill_no amount paid items notes)).
        - cbn [p_id]. intros Hin. apply in_map_iff in Hin.
          destruct Hin as (p & Hpid & Hin). apply Hlt in Hin. lia.
        - cbn [p_supplier_id]. unfold supplier_exists. rewrite Hsup.
          rewrite exists_add_balance. exact Hs. }
      unfold Purchase.get_by_id, try_except, fetch. rewrite H46.
      unfold Purchase.select_by_id. rewrite Hpur, Hf. reflexivity.
    + unfold get_supplier_balance, bind, fetch, ret in *. rewrite H189 in *.
      cbn in Hb. cbn.
      rewrite (select_balance_add_balance sid sid (amount - paid)
                 (tables c) (tables c') Hsup).
      rewrite Z.eqb_refl.
      unfold select_balance in *.
      destruct (find _ (suppliers (tables c))) as [s|] eqn:Hf.
      * cbn in *. inversion Hb. reflexivity.
      * exfalso. unfold supplier_exists in Hs.
        apply existsb_exists in Hs. destruct Hs as (s & Hin & Hs).
        apply (find_none _ _ Hf) in Hin. congruence.
  - exfalso. split_clean c Hc; simpl in *; crunch H; try congruence.
    all: match goal with
         | E : negb (is_some _) = true |- _ => rewrite E4 in E; discriminate E
         end.
Qed.

Lemma update_paid_amount_accepted delta id t :
  (forall p, In p (purchases t) -> check_purchase p = true) ->
  0 <= delta ->
  exists t2 n, update_paid_amount delta id t = Some (t2, n).
Proof.
  intros Hck Hd. unfold update_paid_amount.
  replace (rewritten_ok _ _ _ _) with true; [eauto|].
  symmetry. unfold rewritten_ok. apply forallb_forall. intros p Hin.
  destruct (p_id p =? id); [|reflexivity].
  apply Hck in Hin. unfold check_purchase in *. cbn.
  apply andb_true_iff in Hin. destruct Hin as [H1 H2].
  rewrite H1. apply Z.leb_le in H2. apply Z.leb_le. lia.
Qed.

(** [Payment.create] on whole-number amounts (the amount given and every
    stored amount and balance of magnitude at most 2^52) with a positive
    amount, one of the five payment modes and an existing supplier, either
    as an advance (no purchase) or against a purchase of that supplier
    whose outstanding amount covers it, is accepted when the storage does
    not fail: one payment row with the given fields is appended, the
    paid_amount of the purchase (if any) grows by the amount, and the
    supplier's balance drops by the amount. *)
Theorem payment_create_accepted flt date sid amount mode link ref notes c :
  ready c ->
  flt 142%nat = false -> flt 148%nat = false -> flt 162%nat = false ->
  flt 171%nat = false -> flt 177%nat = false ->
  exact_range amount -> in_range (tables c) ->
  0 < amount -> mode_in mode = true ->
  supplier_exists (tables c) sid = true ->
  (forall p, link = Some p ->
             In p (purchases (tables c)) /\ p_supplier_id p = sid
             /\ amount <= p_amount p - p_paid_amount p) ->
  exists id c',
    Payment.create flt date sid amount mode (option_map p_id link) ref notes c
    = (Return id, c')
    /\ payments (tables c')
       = payments (tables c)
         ++ [mk_payment id date sid (option_map p_id link) amount mode ref notes]
    /\ purchases (tables c')
       = match link with
         | Some p => update_where (fun p' => p_id p' =? p_id p) (add_paid amount)
                       (purchases (tables c))
         | None => purchases (tables c)
         end
    /\ suppliers (tables c') = add_balance sid (- amount) (suppliers (tables c)).
Proof.
  intros [Hw Hc] H142 H148 H162 H171 H177 _ _ Ha Hm Hs Hl.
  assert (E1 : (amount <=? 0) = false) by (apply Z.leb_gt; lia).
  pose proof (supplier_found _ _ Hs) as E4.
  assert (E5 : exists t1 id,
             insert_payment date sid (option_map p_id link) amount mode ref notes
                            (tables c) = Some (t1, id)).
  { unfold insert_payment, check_payment, fk_payment.
    cbn [y_amount y_payment_mode y_supplier_id y_purchase_id].
    rewrite Hs, Hm.
    replace (0 <? amount) with true by (symmetry; apply Z.ltb_lt; lia).
    destruct link as [p|]; cbn [option_map andb]; [|eauto].
    destruct (Hl p eq_refl) as (Hin & _).
    replace (purchase_exists (tables c) (p_id p)) with true; [eauto|].
    symmetry. apply existsb_exists. exists p. split; [exact Hin | apply Z.eqb_refl]. }
  destruct E5 as (t1 & id0 & E5).
  pose proof (insert_payment_effect _ _ _ _ _ _ _ _ _ _ E5) as (Hsup1 & Hpur1 & Hpay1 & _).
  destruct (Payment.create flt date sid amount mode (option_map p_id link) ref notes c)
    as [[id | e] c'] eqn:H.
  - exists id, c'. split; [reflexivity|].
    apply Payment_create_return in H; [|assumption].
    destruct H as (_ & t1' & Hins & Hrest).
    rewrite E5 in Hins. inversion Hins; subst t1' id0; clear Hins.
    destruct link as [p|]; cbn [option_map] in *.
    + destruct (Hl p eq_refl) as (Hin & _).
      rewrite (purchase_id_nonzero _ _ Hw Hin) in Hrest.
      destruct Hrest as [[n Hup] _].
      apply update_paid_amount_effect in Hup. destruct Hup as (Hsup2 & Hpur2 & Hpay2).
      repeat split; congruence.
    + subst t1. repeat split; assumption.
  - exfalso.
    assert (E6 : forall p, link = Some p ->
                 (p_id p =? 0) = false
                 /\ Payment.select_purchase_of (p_id p) sid (tables c) = Some p
                 /\ (p_amount p - p_paid_amount p <? amount) = false
                 /\ exists t2 n, update_paid_amount amount (p_id p) t1 = Some (t2, n)).
    { intros p Hp. destruct (Hl p Hp) as (Hin & Hsid & Hle).
      split; [eapply purchase_id_nonzero; eassumption|]. split.
      - unfold Payment.select_purchase_of.
        apply (find_by_key p_id (fun x => p_supplier_id x =? sid)).
        + apply Hw. + exact Hin. + apply Z.eqb_eq. exact Hsid.
      - split; [apply Z.ltb_ge; lia|].
        apply update_paid_amount_accepted; [|lia].
        rewrite Hpur1. apply Hw. }
    destruct link as [p|]; cbn [option_map] in *.
    + destruct (E6 p eq_refl) as (E7 & E8 & E9 & t2 & n & E10).
      split_clean c Hc; simpl in *; crunch H; try congruence.
      all: match goal with
           | E : negb (is_some _) = true |- _ => rewrite E4 in E; discriminate E
           | E : negb (mode_in _) = true |- _ => rewrite Hm in E; discriminate E
           end.
    + split_clean c Hc; simpl in *; crunch H; try congruence.
      all: match goal with
           | E : negb (is_some _) = true |- _ => rewrite E4 in E; discriminate E
           | E : negb (mode_in _) = true |- _ => rewrite Hm in E; discriminate E
           end.
Qed.

(** ** Accepted deletions *)

Lemma count_if_none {A} (f : A -> bool) l :
  (forall x, In x l -> f x = false) -> count_if f l = 0.
Proof.
  intros H. unfold count_if. induction l as [|a l IH]; [reflexivity|].
  cbn [filter]. rewrite (H a (or_introl eq_refl)).
  apply IH. intros x Hx. apply H. right. exact Hx.
Qed.

Lemma count_if_exists {A} (f : A -> bool) l : (0 <? count_if f l) = existsb f l.
Proof.
  unfold count_if. induction l as [|a l IH]; [reflexivity|].
  cbn [filter existsb]. destruct (f a); [|exact IH].
  cbn [List.length orb]. apply Z.ltb_lt. lia.
Qed.

Lemma unlink_none id l :
  (forall y, In y l -> y_purchase_id y <> Some id) -> map (unlink id) l = l.
Proof.
  intros H. induction l as [|y l IH]; [reflexivity|].
  cbn [map]. rewrite IH by (intros z Hz; apply H; right; exact Hz).
  f_equal. unfold unlink.
  pose proof (H y (or_introl eq_refl)) as Hy.
  destruct (y_purchase_id y) as [q|]; [|reflexivity].
  destruct (Z.eqb_spec q id); [congruence | reflexivity].
Qed.

(** [Purchase.delete] of an id that no payment is linked to is accepted
    when the storage does not fail.  It returns whether a purchase had the
    id, removes exactly that purchase, and leaves payments and suppliers as
    they are: the balance which the purchase added to its supplier stays. *)
Theorem purchase_delete_accepted flt id c :
  clean c ->
  flt 223%nat = false -> flt 229%nat = false -> flt 230%nat = false ->
  (forall y, In y (payments (tables c)) -> y_purchase_id y <> Some id) ->
  exists c',
    Purchase.delete flt id c = (Return (purchase_exists (tables c) id), c')
    /\ purchases (tables c')
       = filter (fun p => negb (p_id p =? id)) (purchases (tables c))
    /\ payments (tables c') = payments (tables c)
    /\ suppliers (tables c') = suppliers (tables c)
    /\ txn c' = None.
Proof.
  intros Hc H223 H229 H230 Hy.
  assert (E0 : count_if (fun y => match y_purchase_id y with
                                  | Some pid => pid =? id
                                  | None => false
                                  end) (payments (tables c)) = 0).
  { apply count_if_none. intros y Hin. apply Hy in Hin.
    destruct (y_purchase_id y) as [q|]; [|reflexivity].
    apply Z.eqb_neq. congruence. }
  pose proof (unlink_none id _ Hy) as E1.
  destruct (Purchase.delete flt id c) as [o c'] eqn:H. exists c'.
  split_clean c Hc; simpl in *; crunch H; try congruence.
  all: try (rewrite E0 in *; discriminate).
  all: inversion H; subst; clear H; cbn.
  all: rewrite ?E1, count_if_exists; unfold purchase_exists.
  all: repeat split; reflexivity.
Qed.

(** [Supplier.delete] of a supplier without purchases and payments is
    accepted when the storage does not fail: it returns whether a supplier
    had the id and removes exactly that supplier. *)
Theorem supplier_delete_accepted flt id c :
  clean c ->
  flt 143%nat = false -> flt 148%nat = false ->
  flt 156%nat = false -> flt 157%nat = false ->
  (forall p, In p (purchases (tables c)) -> p_supplier_id p <> id) ->
  (forall y, In y (payments (tables c)) -> y_supplier_id y <> id) ->
  exists c',
    Supplier.delete flt id c = (Return (supplier_exists (tables c) id), c')
    /\ suppliers (tables c')
       = filter (fun s => negb (s_id s =? id)) (suppliers (tables c))
    /\ purchases (tables c') = purchases (tables c)
    /\ payments (tables c') = payments (tables c)
    /\ txn c' = None.
Proof.
  intros Hc H143 H148 H156 H157 Hp Hy.
  assert (E0 : count_if (fun p => p_supplier_id p =? id) (purchases (tables c)) = 0).
  { apply count_if_none. intros p Hin. apply Z.eqb_neq. auto. }
  assert (E1 : count_if (fun y => y_supplier_id y =? id) (payments (tables c)) = 0).
  { apply count_if_none. intros y Hin. apply Z.eqb_neq. auto. }
  assert (E2 : existsb (fun p => p_supplier_id p =? id) (purchases (tables c)) = false).
  { rewrite <- count_if_exists, E0. reflexivity. }
  assert (E3 : existsb (fun y => y_supplier_id y =? id) (payments (tables c)) = false).
  { rewrite <- count_if_exists, E1. reflexivity. }
  destruct (Supplier.delete flt id c) as [o c'] eqn:H. exists c'.
  split_clean c Hc; simpl in *; crunch H; try congruence.
  all: try (rewrite E0, E1 in *; discriminate).
  all: match goal with
       | E : delete_supplier _ _ = _ |- _ =>
           unfold delete_supplier in E; rewrite E2, E3 in E; cbn [orb] in E;
           rewrite andb_false_r in E;
           inversion E; subst; clear E
       end.
  all: inversion H; subst; clear H; cbn.
  all: rewrite count_if_exists; unfold supplier_exists.
  all: repeat split; reflexivity.
Qed.

(** ** Supplier.update and Supplier.get_by_name *)

Lemma set_supplier_balance updates s :
  s_balance (fold_left set_supplier updates s) = s_balance s.
Proof.
  revert s. induction updates as [|a updates IH]; intros s; [reflexivity|].
  cbn [fold_left]. rewrite IH. destruct a; reflexivity.
Qed.

Lemma update_suppliers_effect updates id t t1 n :
  update_suppliers updates id t = Some (t1, n) ->
  suppliers t1
  = update_where (fun s => s_id s =? id) (fun s => fold_left set_supplier updates s)
      (suppliers t)
  /\ purchases t1 = purchases t /\ payments t1 = payments t.
Proof.
  unfold update_suppliers. destruct (forallb _ _); [|discriminate].
  intros E. inversion E; subst; clear E. simpl. auto.
Qed.

Lemma Supplier_update_accounts flt id name contact address c o c' :
  clean c ->
  Supplier.update flt id name contact address c = (o, c') ->
  map s_id (suppliers (tables c')) = map s_id (suppliers (tables c))
  /\ map s_balance (suppliers (tables c')) = map s_balance (suppliers (tables c))
  /\ purchases (tables c') = purchases (tables c)
  /\ payments (tables c') = payments (tables c).
Proof.
  intros Hc H. split_clean c Hc; crunch H; finish H; auto.
  all: match goal with
       | E : update_suppliers _ _ _ = Some _ |- _ =>
           apply update_suppliers_effect in E; destruct E as (-> & -> & ->)
       end.
  all: repeat split;
       apply update_where_key; intros r;
       first [apply set_supplier_id | apply set_supplier_balance].
Qed.

(** [Supplier.update] changes descriptive fields only: whatever its
    arguments, the storage faults and the outcome, the supplier ids and the
    balances are the same afterwards, row by row, and no purchase or
    payment is touched. *)
Theorem supplier_update_keeps_accounts flt id name contact address c :
  clean c ->
  map s_id (suppliers (tables (snd (Supplier.update flt id name contact address c))))
  = map s_id (suppliers (tables c))
  /\ map s_balance
       (suppliers (tables (snd (Supplier.update flt id name contact address c))))
     = map s_balance (suppliers (tables c))
  /\ purchases (tables (snd (Supplier.update flt id name contact address c)))
     = purchases (tables c)
  /\ payments (tables (snd (Supplier.update flt id name contact address c)))
     = payments (tables c).
Proof.
  intros Hc.
  destruct (Supplier.update flt id name contact address c) as [o c'] eqn:H.
  eapply Supplier_update_accounts; eassumption.
Qed.

Lemma two_matches {A} (f : A -> bool) (l : list A) a b :
  In a l -> In b l -> a <> b -> f a = true -> f b = true ->
  (2 <= List.length (filter f l))%nat.
Proof.
  intros Ha Hb Hab Hfa Hfb. induction l as [|x l IH]; [contradiction|].
  cbn [filter]. destruct Ha as [-> | Ha], Hb as [-> | Hb].
  - congruence.
  - rewrite Hfa. cbn [List.length].
    assert (In b (filter f l)) by (apply filter_In; auto).
    destruct (filter f l); [contradiction | cbn [List.length]; lia].
  - rewrite Hfb. cbn [List.length].
    assert (In a (filter f l)) by (apply filter_In; auto).
    destruct (filter f l); [contradiction | cbn [List.length]; lia].
  - specialize (IH Ha Hb). destruct (f x); cbn [List.length]; lia.
Qed.

Lemma set_supplier_name v updates s :
  (forall a, In a updates -> match a with S_name _ => False | _ => True end) ->
  s_name (fold_left set_supplier (S_name v :: updates) s) = v.
Proof.
  cbn [fold_left].
  generalize (set_supplier s (S_name v)) (eq_refl : s_name (set_supplier s (S_name v)) = v).
  induction updates as [|a updates IH]; intros s0 Hs0 Hu; [exact Hs0|].
  cbn [fold_left]. apply IH.
  - pose proof (Hu a (or_introl eq_refl)) as Ha. destruct a; [contradiction | |]; exact Hs0.
  - intros a' Ha'. apply Hu. right. exact Ha'.
Qed.

Lemma rename_rejected v updates id t s s' :
  (forall a, In a updates -> match a with S_name _ => False | _ => True end) ->
  In s (suppliers t) -> s_id s = id ->
  In s' (suppliers t) -> s_id s' <> id -> s_name s' = v ->
  update_suppliers (S_name v :: updates) id t = None.
Proof.
  intros Hu Hs Hid Hs' Hid' Hv. unfold update_suppliers.
  destruct (forallb _ _) eqn:Hall; [exfalso | reflexivity].
  rewrite forallb_forall in Hall. specialize (Hall s Hs).
  replace (s_id s =? id) with true in Hall by (symmetry; apply Z.eqb_eq; exact Hid).
  cbn [negb orb] in Hall. unfold unique_name in Hall.
  rewrite (set_supplier_name v updates s Hu) in Hall.
  apply Nat.leb_le in Hall.
  set (f := fun s0 => fold_left set_supplier (S_name v :: updates) s0) in *.
  set (rows := update_where (fun s0 => s_id s0 =? id) f (suppliers t)) in *.
  assert (H1 : In (f s) rows).
  { unfold rows, update_where. apply in_map_iff. exists s. split; [|exact Hs].
    replace (s_id s =? id) with true by (symmetry; apply Z.eqb_eq; exact Hid).
    reflexivity. }
  assert (H2 : In s' rows).
  { unfold rows, update_where. apply in_map_iff. exists s'. split; [|exact Hs'].
    replace (s_id s' =? id) with false by (symmetry; apply Z.eqb_neq; exact Hid').
    reflexivity. }
  assert (Hne : f s <> s').
  { intros E. apply Hid'. rewrite <- E. unfold f. rewrite set_supplier_id. exact Hid. }
  pose proof (two_matches (fun s0 => String.eqb (s_name s0) v) rows (f s) s'
                H1 H2 Hne) as Hlen.
  assert (2 <= List.length (filter (fun s0 => String.eqb (s_name s0) v) rows))%nat.
  { apply Hlen.
    - unfold f. rewrite (set_supplier_name v updates s Hu). apply String.eqb_refl.
    - rewrite Hv. apply String.eqb_refl. }
  lia.
Qed.

Lemma Supplier_update_kind flt id name contact address c o c' :
  (forall updates,
      (forall a, In a updates -> match a with S_name _ => False | _ => True end) ->
      update_suppliers (S_name (strip name) :: updates) id (tables c) = None) ->
  Supplier.update flt id (Some name) contact address c = (o, c') ->
  o = Raise (ValueError "Supplier with name already exists")
  \/ (o = Raise OperationalError /\ exists site, flt site = true).
Proof.
  intros Hrej H.
  assert (E1 : update_suppliers [S_name (strip name)] id (tables c) = None).
  { apply Hrej. intros a []. }
  assert (E2 : forall v, update_suppliers [S_name (strip name); S_contact v] id (tables c)
                         = None).
  { intros v. apply Hrej. intros a [<- | []]. exact I. }
  assert (E3 : forall v, update_suppliers [S_name (strip name); S_address v] id (tables c)
                         = None).
  { intros v. apply Hrej. intros a [<- | []]. exact I. }
  assert (E4 : forall v w,
             update_suppliers [S_name (strip name); S_contact v; S_address w] id
                              (tables c) = None).
  { intros v w. apply Hrej. intros a [<- | [<- | []]]; exact I. }
  destruct contact, address, c as [t [t0|]]; simpl in *; crunch H.
  all: try match goal with
           | E : update_suppliers _ _ _ = Some _ |- _ =>
               rewrite ?E1, ?E2, ?E3, ?E4 in E; discriminate E
           end.
  all: finish H.
  all: first [ left; reflexivity
             | right; split; [reflexivity | eexists; eassumption] ].
Qed.

(** Renaming a supplier to the (trimmed) name another supplier already
    carries is refused: [Supplier.update] raises the ValueError for the
    duplicate name (an OperationalError under a storage fault) and no row
    changes, also when contact and address are given with it. *)
Theorem supplier_rename_conflict flt id name contact address c s s' :
  clean c ->
  In s (suppliers (tables c)) -> s_id s = id ->
  In s' (suppliers (tables c)) -> s_id s' <> id -> s_name s' = strip name ->
  refused_with "Supplier with name already exists" flt c
    (Supplier.update flt id (Some name) contact address c).
Proof.
  intros Hc Hs Hid Hs' Hid' Hn.
  destruct (Supplier.update flt id (Some name) contact address c) as [o c'] eqn:H.
  assert (Hk : o = Raise (ValueError "Supplier with name already exists")
               \/ (o = Raise OperationalError /\ exists site, flt site = true)).
  { eapply Supplier_update_kind; [|exact H].
    intros updates Hu. apply (rename_rejected _ _ _ _ s s'); assumption. }
  split; [|exact Hk]. cbn [snd].
  destruct Hk as [-> | [-> _]];
    exact (proj1 (Supplier_update_raise _ _ _ _ _ _ _ _ Hc H)).
Qed.

Lemma find_snoc_new {A} (f : A -> bool) l r :
  existsb f l = false -> f r = true -> find f (l ++ [r]) = Some r.
Proof.
  intros Hl Hr. induction l as [|a l IH]; cbn in *.
  - rewrite Hr. reflexivity.
  - apply orb_false_iff in Hl. destruct Hl as [-> Hl]. auto.
Qed.

(** A supplier that [Supplier.create] has just stored is found by
    [Supplier.get_by_name] under its trimmed name, with the id returned,
    the contact and address given, and a balance of 0. *)
Theorem supplier_create_then_get_by_name flt name contact address c id c' :
  Supplier.create flt name contact address c = (Return id, c') ->
  flt 53%nat = false ->
  Supplier.get_by_name flt (strip name) c'
  = (Return (Some (mk_supplier id (strip name) contact address 0)), c').
Proof.
  intros H H53.
  assert (Hins : insert_supplier (strip name) contact address (tables c)
                 = Some (tables c', id)).
  { destruct c as [t [t0|]]; crunch H; finish H; assumption. }
  unfold insert_supplier in Hins.
  destruct (existsb _ _) eqn:Hex; [discriminate|].
  inversion Hins as [[Ht Hid]]. rewrite Hid.
  unfold Supplier.get_by_name, try_except, fetch. rewrite H53.
  unfold Supplier.select_by_name. rewrite <- Ht. cbn [suppliers]. rewrite Hid.
  rewrite (find_snoc_new (fun s => String.eqb (s_name s) (strip name))
             (suppliers (tables c)) (mk_supplier id (strip name) contact address 0)
             Hex (String.eqb_refl _)).
  reflexivity.
Qed.

(** ** Supplier.get_all *)

Lemma filter_all {A} (f : A -> bool) l :
  (forall x, In x l -> f x = true) -> filter f l = l.
Proof.
  intros H. induction l as [|a l IH]; [reflexivity|].
  cbn [filter]. rewrite (H a (or_introl eq_refl)). f_equal.
  apply IH. intros x Hx. apply H. right. exact Hx.
Qed.

Lemma filter_nothing {A} (f : A -> bool) l :
  (forall x, In x l -> f x = false) -> filter f l = [].
Proof.
  intros H. induction l as [|a l IH]; [reflexivity|].
  cbn [filter]. rewrite (H a (or_introl eq_refl)).
  apply IH. intros x Hx. apply H. right. exact Hx.
Qed.

Lemma filter_twice {A} (f : A -> bool) l : filter f (filter f l) = filter f l.
Proof. apply filter_all. intros x Hx. apply filter_In in Hx. apply Hx. Qed.

Lemma distinct_keys_In l k : In k (distinct_keys l) -> In k l.
Proof.
  induction l as [|a l IH]; [auto|].
  cbn [distinct_keys]. intros [-> | H]; [left; reflexivity|].
  apply filter_In in H. right. apply IH. apply H.
Qed.

Lemma distinct_keys_block k block rest :
  block <> [] -> (forall x, In x block -> x = k) ->
  distinct_keys (block ++ rest)
  = k :: filter (fun k' => negb (k' =? k)) (distinct_keys rest).
Proof.
  induction block as [|a block IH]; [congruence|]. intros _ Hk.
  pose proof (Hk a (or_introl eq_refl)) as ->.
  cbn [app distinct_keys]. f_equal.
  destruct block as [|b block]; [reflexivity|].
  rewrite IH; [|discriminate | intros x Hx; apply Hk; right; exact Hx].
  cbn [filter]. rewrite Z.eqb_refl. cbn [negb]. apply filter_twice.
Qed.

Section Grouping.
Context {B : Type}.
Variable on : supplier_row -> B -> bool.
Variable r : list B.

Lemma joined_with_fst s x : In x (joined_with on r s) -> fst x = s.
Proof.
  unfold joined_with. destruct (filter (on s) r) as [|b bs].
  - intros [<- | []]. reflexivity.
  - intros H. apply in_map_iff in H. destruct H as (b' & <- & _). reflexivity.
Qed.

Lemma joined_with_nonempty s : joined_with on r s <> [].
Proof. unfold joined_with. destruct (filter (on s) r); discriminate. Qed.

Lemma left_join_unfold l : left_join l on r = flat_map (joined_with on r) l.
Proof. reflexivity. Qed.

Lemma joined_keys l :
  NoDup (map s_id l) ->
  distinct_keys (map (fun x => s_id (fst x)) (flat_map (joined_with on r) l)) = map s_id l.
Proof.
  induction l as [|s l IH]; [reflexivity|]. intros Hnd.
  inversion Hnd as [|? ? Hfresh Hnd']; subst.
  cbn [flat_map map]. rewrite map_app.
  rewrite (distinct_keys_block (s_id s)).
  - rewrite (IH Hnd'). f_equal. apply filter_all.
    intros k Hk. apply negb_true_iff. apply Z.eqb_neq. congruence.
  - pose proof (joined_with_nonempty s). destruct (joined_with on r s); [congruence | discriminate].
  - intros k Hk. apply in_map_iff in Hk. destruct Hk as (x & <- & Hx).
    apply joined_with_fst in Hx. congruence.
Qed.

Lemma joined_group l s :
  NoDup (map s_id l) -> In s l ->
  filter (fun x => s_id (fst x) =? s_id s) (flat_map (joined_with on r) l) = joined_with on r s.
Proof.
  induction l as [|a l IH]; [contradiction|]. intros Hnd Hin.
  inversion Hnd as [|? ? Hfresh Hnd']; subst.
  cbn [flat_map]. rewrite filter_app. destruct Hin as [-> | Hin].
  - rewrite filter_all, filter_nothing; [apply app_nil_r | |].
    + intros x Hx. apply in_flat_map in Hx. destruct Hx as (s' & Hs' & Hx).
      apply joined_with_fst in Hx. subst s'. apply Z.eqb_neq.
      intros E. apply Hfresh. rewrite <- E. apply in_map. exact Hs'.
    + intros x Hx. apply joined_with_fst in Hx. subst. apply Z.eqb_refl.
  - rewrite filter_nothing, IH; auto.
    intros x Hx. apply joined_with_fst in Hx. subst a. apply Z.eqb_neq.
    intros E. apply Hfresh. rewrite E. apply in_map. exact Hin.
Qed.
End Grouping.

Lemma sql_sum_some (v : Z) col : coalesce (sql_sum (map Some col)) 0 = sum_Z col.
Proof.
  unfold coalesce.
  assert (H : match sql_sum (map Some col) with
              | Some s => s = sum_Z col
              | None => col = []
              end).
  { induction col as [|a col IH]; [reflexivity|].
    cbn [map sql_sum]. rewrite sum_Z_cons.
    revert IH. destruct (sql_sum (map Some col)); intros IH; [lia|].
    subst col. unfold sum_Z. cbn. lia. }
  destruct (sql_sum (map Some col)); [exact H | subst col; reflexivity].
Qed.

Lemma group_listing t s :
  match joined_with (fun s p => s_id s =? p_supplier_id p) (purchases t) s with
  | [] => []
  | (s0, _) :: _ =>
      [Supplier.mk_listing s0
         (sql_count (map (fun x => option_map p_id (snd x))
                       (joined_with (fun s p => s_id s =? p_supplier_id p)
                          (purchases t) s)))
         (coalesce (sql_sum (map (fun x => option_map p_amount (snd x))
                       (joined_with (fun s p => s_id s =? p_supplier_id p)
                          (purchases t) s))) 0)
         (coalesce (sql_sum (map (fun x => option_map p_paid_amount (snd x))
                       (joined_with (fun s p => s_id s =? p_supplier_id p)
                          (purchases t) s))) 0)]
  end = [listing_of t s].
Proof.
  unfold listing_of, amount_total, paid_total, count_if, joined_with.
  assert (E : filter (fun p => s_id s =? p_supplier_id p) (purchases t)
              = filter (of_supplier (s_id s)) (purchases t)).
  { apply filter_ext. intros p. unfold of_supplier. apply Z.eqb_sym. }
  rewrite E. destruct (filter (of_supplier (s_id s)) (purchases t)) as [|b bs].
  - reflexivity.
  - set (l := b :: bs). cbn [map fst]. fold l.
    rewrite !map_map. cbn [snd option_map].
    rewrite <- (map_map p_amount Some), <- (map_map p_paid_amount Some).
    rewrite !(sql_sum_some 0).
    replace (sql_count (map (fun x => Some (p_id x)) l))
      with (Z.of_nat (List.length l)); [reflexivity|].
    unfold sql_count. f_equal. clear. induction l as [|a l IH]; [reflexivity|].
    cbn. f_equal. exact IH.
Qed.

Lemma select_all_listing t :
  NoDup (map s_id (suppliers t)) ->
  Supplier.select_all t
  = order_by (fun a b => Supplier.by_name (Supplier.l_row a) (Supplier.l_row b))
      (map (listing_of t) (suppliers t)).
Proof.
  intros Hnd. unfold Supplier.select_all. f_equal.
  rewrite left_join_unfold, (joined_keys _ _ _ Hnd), map_map.
  assert (G : forall l,
             (forall s, In s l -> In s (suppliers t)) ->
             flat_map
               (fun g =>
                  match g with
                  | [] => []
                  | (s, _) :: _ =>
                      [Supplier.mk_listing s
                         (sql_count (map (fun x => option_map p_id (snd x)) g))
                         (coalesce (sql_sum (map (fun x => option_map p_amount (snd x)) g)) 0)
                         (coalesce (sql_sum (map (fun x => option_map p_paid_amount (snd x)) g)) 0)]
                  end)
               (map (fun s =>
                       filter (fun x => s_id (fst x) =? s_id s)
                         (flat_map (joined_with (fun s p => s_id s =? p_supplier_id p)
                                      (purchases t)) (suppliers t))) l)
             = map (listing_of t) l).
  { induction l as [|s l IH]; [reflexivity|]. intros Hin.
    cbn [map flat_map].
    rewrite (joined_group _ _ _ _ Hnd (Hin s (or_introl eq_refl))).
    rewrite group_listing. cbn [app]. f_equal.
    apply IH. intros s' Hs'. apply Hin. right. exact Hs'. }
  apply G. auto.
Qed.

(** With distinct supplier ids and no storage fault, [Supplier.get_all]
    returns every supplier exactly once, in the order of the names, each
    with the number of its purchases and the sums of their amount and
    paid_amount: the single join of [get_all] does not multiply rows. *)
Theorem get_all_totals flt c :
  flt 13%nat = false ->
  NoDup (map s_id (suppliers (tables c))) ->
  exists rows,
    Supplier.get_all flt c = (Return rows, c)
    /\ Permutation (map Supplier.l_row rows) (suppliers (tables c))
    /\ ordered (fun a b => String.leb (s_name (Supplier.l_row a))
                                      (s_name (Supplier.l_row b))) rows = true
    /\ forall r, In r rows ->
         Supplier.l_total_purchases r
         = count_if (of_supplier (s_id (Supplier.l_row r))) (purchases (tables c))
         /\ Supplier.l_total_purchase_amount r
            = amount_total (s_id (Supplier.l_row r)) (tables c)
         /\ Supplier.l_total_paid_amount r
            = paid_total (s_id (Supplier.l_row r)) (tables c).
Proof.
  intros H13 Hnd. exists (Supplier.select_all (tables c)).
  split; [unfold Supplier.get_all, try_except, fetch; rewrite H13; reflexivity|].
  rewrite (select_all_listing _ Hnd). split; [|split].
  - rewrite (Permutation_map _ (order_by_perm _ _)), map_map. cbn.
    rewrite map_id. reflexivity.
  - apply order_by_ordered. intros a b. unfold Supplier.by_name.
    destruct (String.leb_total (s_name (Supplier.l_row a)) (s_name (Supplier.l_row b)));
      auto.
  - intros r Hr. apply order_by_In in Hr. apply in_map_iff in Hr.
    destruct Hr as (s & <- & _). cbn. auto.
Qed.

(** ** Joins with the suppliers table *)

Lemma unique_match k l :
  NoDup (map s_id l) -> existsb (fun s => s_id s =? k) l = true ->
  exists s, In s l /\ s_id s = k /\ filter (fun s => k =? s_id s) l = [s].
Proof.
  induction l as [|a l IH]; [discriminate|]. intros Hnd Hex.
  inversion Hnd as [|? ? Hfresh Hnd']; subst. cbn [existsb filter] in *.
  rewrite (Z.eqb_sym k). destruct (Z.eqb_spec (s_id a) k) as [E | E].
  - exists a. split; [left; reflexivity|]. split; [exact E|]. f_equal.
    apply filter_nothing. intros s Hs. apply Z.eqb_neq. intros E'.
    apply Hfresh. rewrite E, E'. apply in_map. exact Hs.
  - destruct (IH Hnd' Hex) as (s & Hs & Hk & Hf).
    exists s. split; [right; exact Hs|]. split; assumption.
Qed.

Lemma inner_join_fst {A} (key : A -> Z) (l : list A) sup :
  NoDup (map s_id sup) ->
  (forall a, In a l -> existsb (fun s => s_id s =? key a) sup = true) ->
  map fst (inner_join l (fun a s => key a =? s_id s) sup) = l.
Proof.
  intros Hnd. unfold inner_join. induction l as [|a l IH]; [reflexivity|].
  intros Hex. cbn [flat_map]. rewrite map_app, IH.
  - destruct (unique_match (key a) sup Hnd (Hex a (or_introl eq_refl)))
      as (s & _ & _ & ->).
    reflexivity.
  - intros b Hb. apply Hex. right. exact Hb.
Qed.

Lemma inner_join_snd {A} (key : A -> Z) (l : list A) sup x :
  In x (inner_join l (fun a s => key a =? s_id s) sup) ->
  In (fst x) l /\ In (snd x) sup /\ s_id (snd x) = key (fst x).
Proof.
  unfold inner_join. intros H. apply in_flat_map in H.
  destruct H as (a & Ha & H). apply in_map_iff in H.
  destruct H as (s & <- & Hs). apply filter_In in Hs. destruct Hs as [Hs Hk].
  apply Z.eqb_eq in Hk. cbn. auto.
Qed.

Lemma map_fst_filter {A B} (f : A -> bool) (l : list (A * B)) :
  map fst (filter (fun x => f (fst x)) l) = filter f (map fst l).
Proof.
  induction l as [|x l IH]; [reflexivity|].
  cbn [filter map]. destruct (f (fst x)); cbn [map]; rewrite IH; reflexivity.
Qed.

(** ** The outstanding purchases *)

(** In a state the schema allows, with distinct supplier ids and no storage
    fault, [Database.get_outstanding_purchases] lists exactly the purchases
    with paid_amount < amount, each once, restricted to the given supplier
    when the id is given and is not 0 (an id of 0 counts as not given);
    every row carries amount - paid_amount, which is positive, and the name
    of the purchase's supplier; the rows are in the order of the dates. *)
Theorem outstanding_purchases_listed flt date_le supplier_id c :
  flt 222%nat = false ->
  wf (tables c) ->
  NoDup (map s_id (suppliers (tables c))) ->
  exists rows,
    get_outstanding_purchases flt date_le supplier_id c = (Return rows, c)
    /\ Permutation (map o_purchase rows)
         (filter (fun p => (p_paid_amount p <? p_amount p)
                           && match supplier_id with
                              | Some sid => if sid =? 0 then true
                                            else p_supplier_id p =? sid
                              | None => true
                              end)
                 (purchases (tables c)))
    /\ (forall r, In r rows ->
          o_outstanding r = p_amount (o_purchase r) - p_paid_amount (o_purchase r)
          /\ 0 < o_outstanding r
          /\ exists s, In s (suppliers (tables c))
                       /\ s_id s = p_supplier_id (o_purchase r)
                       /\ o_supplier_name r = s_name s)
    /\ ((forall a b, date_le a b = true \/ date_le b a = true) ->
        ordered (fun a b => date_le (p_date (o_purchase a)) (p_date (o_purchase b)))
                rows = true).
Proof.
  intros H222 Hw Hnd. exists (select_outstanding date_le supplier_id (tables c)).
  split; [unfold get_outstanding_purchases, fetch; rewrite H222; reflexivity|].
  unfold select_outstanding.
  set (joined := inner_join (purchases (tables c))
                   (fun p s => p_supplier_id p =? s_id s) (suppliers (tables c))).
  set (wanted := fun p => (p_paid_amount p <? p_amount p)
                          && match supplier_id with
                             | Some sid => if sid =? 0 then true
                                           else p_supplier_id p =? sid
                             | None => true
                             end).
  set (le := fun a b : purchase_row * supplier_row =>
               date_le (p_date (fst a)) (p_date (fst b))).
  change (filter _ joined) with (filter (fun x => wanted (fst x)) joined).
  split; [|split].
  - rewrite map_map. cbn [o_purchase].
    rewrite (Permutation_map fst (order_by_perm le _)).
    rewrite map_fst_filter. unfold joined.
    rewrite (inner_join_fst p_supplier_id); [reflexivity | exact Hnd |].
    intros p Hp. apply (wf_purchase_fk _ Hw p Hp).
  - intros r Hr. apply in_map_iff in Hr. destruct Hr as (x & <- & Hx).
    apply order_by_In in Hx. apply filter_In in Hx. destruct Hx as [Hx Hwant].
    apply inner_join_snd in Hx. destruct Hx as (_ & Hs & Hk).
    cbn. split; [reflexivity|]. split.
    + unfold wanted in Hwant. apply andb_true_iff in Hwant.
      destruct Hwant as [Hlt _]. apply Z.ltb_lt in Hlt. lia.
    + exists (snd x). auto.
  - intros Htot.
    assert (Hord : ordered le (order_by le (filter (fun x => wanted (fst x)) joined))
                   = true).
    { apply order_by_ordered. intros a b. apply Htot. }
    revert Hord. generalize (order_by le (filter (fun x => wanted (fst x)) joined)).
    induction l as [|a l IH]; [reflexivity|].
    cbn [map ordered]. destruct l as [|b l]; [reflexivity|].
    cbn [map]. intros H. apply andb_true_iff in H. destruct H as [Hab H].
    apply andb_true_iff. split; [exact Hab | exact (IH H)].
Qed.

(** ** Supplier.search *)

Lemma compare_percent_skip p pre t :
  pattern_compare p t = true ->
  pattern_compare (String "%" p) (pre ++ t)%string = true.
Proof.
  intros H. induction pre as [|a pre IH].
  - cbn [append]. cbn [pattern_compare]. change (Ascii.eqb "%" "%") with true.
    cbv iota. destruct t; rewrite H; reflexivity.
  - cbn [append]. cbn [pattern_compare] in *.
    change (Ascii.eqb "%" "%") with true in *.
    cbv iota in *. rewrite IH. apply orb_true_r.
Qed.

Lemma compare_percent_any t : pattern_compare "%" t = true.
Proof.
  induction t as [|a t IH]; [reflexivity|].
  cbn [pattern_compare] in *. change (Ascii.eqb "%" "%") with true in *.
  cbv iota in *. exact IH.
Qed.

Lemma compare_literal q q' p t :
  same_nocase q q' = true -> pattern_compare p t = true ->
  pattern_compare (q ++ p)%string (q' ++ t)%string = true.
Proof.
  revert q'. induction q as [|a q IH]; intros q' Hq Hp.
  - destruct q'; [exact Hp | discriminate].
  - destruct q' as [|c q']; [discriminate|].
    cbn [same_nocase] in Hq. apply andb_true_iff in Hq. destruct Hq as [Hac Hq].
    specialize (IH q' Hq Hp).
    cbn [append]. cbn [pattern_compare]. destruct (Ascii.eqb a "%") eqn:Ea.
    + apply orb_true_iff. right.
      apply (compare_percent_skip (q ++ p) "" (q' ++ t)) in IH.
      cbn [append pattern_compare] in IH.
      change (Ascii.eqb "%" "%") with true in IH.
      exact IH.
    + rewrite Hac, orb_true_r. exact IH.
Qed.

Lemma compare_contains query q' pre post :
  same_nocase query q' = true ->
  pattern_compare ("%" ++ query ++ "%") (pre ++ q' ++ post) = true.
Proof.
  intros Hq. change ("%" ++ query ++ "%")%string with (String "%" (query ++ "%")).
  apply compare_percent_skip.
  apply compare_literal; [exact Hq | apply compare_percent_any].
Qed.

Lemma c_str_app pre s : no_nul pre = true -> c_str (pre ++ s) = (pre ++ c_str s)%string.
Proof.
  induction pre as [|a pre IH]; intros H; [reflexivity|].
  cbn [no_nul] in H. apply andb_true_iff in H. destruct H as [Ha H].
  cbn [append c_str]. apply negb_true_iff in Ha. rewrite Ha, IH by exact H.
  reflexivity.
Qed.

Lemma lower_nul a : lower a = "000"%char -> a = "000"%char.
Proof.
  destruct a as [[] [] [] [] [] [] [] []]; vm_compute; intros H;
    first [reflexivity | discriminate H].
Qed.

Lemma same_nocase_no_nul q q' :
  same_nocase q q' = true -> no_nul q' = true -> no_nul q = true.
Proof.
  revert q'. induction q as [|a q IH]; intros q' Hq Hn; [reflexivity|].
  destruct q' as [|c q']; [discriminate|].
  cbn [same_nocase] in Hq. apply andb_true_iff in Hq. destruct Hq as [Hac Hq].
  cbn [no_nul] in *. apply andb_true_iff in Hn. destruct Hn as [Hc Hn].
  rewrite (IH q' Hq Hn), andb_true_r.
  apply negb_true_iff. apply negb_true_iff in Hc.
  destruct (Ascii.eqb_spec a "000"); [|reflexivity]. subst a.
  unfold eq_nocase in Hac. apply Ascii.eqb_eq in Hac.
  symmetry in Hac. change (lower "000") with "000"%char in Hac.
  apply lower_nul in Hac. subst c. discriminate Hc.
Qed.

Lemma utf8_length_app s s' : utf8_length (s ++ s') = utf8_length s + utf8_length s'.
Proof.
  induction s as [|a s IH]; [reflexivity|].
  cbn [append utf8_length]. rewrite IH. lia.
Qed.

Lemma search_pattern_length query :
  utf8_length ("%" ++ query ++ "%") = utf8_length query + 2.
Proof.
  rewrite !utf8_length_app. change (utf8_length "%") with 1. lia.
Qed.

Lemma filter_rows_total {A} (f : A -> option bool) (g : A -> bool) l :
  (forall x, f x = Some (g x)) -> filter_rows f l = Some (filter g l).
Proof.
  intros H. induction l as [|x l IH]; [reflexivity|].
  cbn [filter_rows filter]. rewrite H, IH. reflexivity.
Qed.

Lemma filter_rows_failing {A} (f : A -> option bool) l :
  (forall x, f x = None) -> filter_rows f l = match l with [] => Some [] | _ => None end.
Proof.
  intros H. destruct l as [|x l]; [reflexivity|]. cbn [filter_rows]. rewrite H.
  reflexivity.
Qed.

Lemma compare_contains_c_str query q' pre post :
  same_nocase query q' = true ->
  no_nul pre = true -> no_nul q' = true ->
  pattern_compare (c_str ("%" ++ query ++ "%")) (c_str (pre ++ q' ++ post)) = true.
Proof.
  intros Hq Hpre Hq'.
  rewrite (c_str_app "%" (query ++ "%") eq_refl).
  rewrite (c_str_app query "%" (same_nocase_no_nul _ _ Hq Hq')).
  rewrite (c_str_app pre _ Hpre), (c_str_app q' _ Hq').
  apply compare_contains. exact Hq.
Qed.

Lemma by_name_total a b : Supplier.by_name a b = true \/ Supplier.by_name b a = true.
Proof.
  unfold Supplier.by_name. destruct (String.leb_total (s_name a) (s_name b)); auto.
Qed.

Lemma select_search_within query t :
  utf8_length query + 2 <= max_like_pattern_length ->
  Supplier.select_search query t
  = Some (order_by Supplier.by_name
            (filter (fun s =>
                       pattern_compare (c_str ("%" ++ query ++ "%")) (c_str (s_name s))
                       || match s_contact s with
                          | Some contact =>
                              pattern_compare (c_str ("%" ++ query ++ "%")) (c_str contact)
                          | None => false
                          end)
                    (suppliers t))).
Proof.
  intros Hlen. unfold Supplier.select_search. cbv zeta.
  erewrite filter_rows_total; [reflexivity|].
  intros s. unfold like. rewrite search_pattern_length.
  destruct (Z.ltb_spec max_like_pattern_length (utf8_length query + 2)); [lia|].
  destruct (pattern_compare _ (c_str (s_name s))); [reflexivity|].
  destruct (s_contact s); reflexivity.
Qed.

Lemma select_search_too_long query t :
  max_like_pattern_length < utf8_length query + 2 ->
  Supplier.select_search query t
  = match suppliers t with [] => Some [] | _ => None end.
Proof.
  intros Hlen. unfold Supplier.select_search. cbv zeta.
  rewrite filter_rows_failing; [destruct (suppliers t); reflexivity|].
  intros s. unfold like. rewrite search_pattern_length.
  destruct (Z.ltb_spec max_like_pattern_length (utf8_length query + 2)); [|lia].
  reflexivity.
Qed.

(** [Supplier.search] without a storage fault returns stored suppliers
    only, in the order of their names. SQLite refuses a LIKE pattern of
    more than 50,000 bytes: when %query% is longer the result is empty.
    Otherwise every supplier is returned whose name or contact contains
    the query, the letters A-Z and a-z being free to differ in case,
    provided the match and what precedes it in the field hold no NUL
    character (SQLite reads both texts up to their first NUL); with the
    empty query every supplier is returned. *)
Theorem search_finds_substrings flt query c :
  flt 64%nat = false ->
  exists rows,
    Supplier.search flt query c = (Return rows, c)
    /\ (forall s, In s rows -> In s (suppliers (tables c)))
    /\ ordered Supplier.by_name rows = true
    /\ (max_like_pattern_length < utf8_length query + 2 -> rows = [])
    /\ (forall s pre q' post,
          utf8_length query + 2 <= max_like_pattern_length ->
          In s (suppliers (tables c)) ->
          same_nocase query q' = true ->
          no_nul pre = true -> no_nul q' = true ->
          s_name s = (pre ++ q' ++ post)%string
          \/ s_contact s = Some (pre ++ q' ++ post)%string ->
          In s rows)
    /\ (query = EmptyString -> Permutation rows (suppliers (tables c))).
Proof.
  intros H64.
  destruct (Z.ltb_spec max_like_pattern_length (utf8_length query + 2)) as [Hlen | Hlen].
  - exists []. split.
    + unfold Supplier.search, try_except, bind, fetch, raise, ret. rewrite H64.
      rewrite (select_search_too_long _ _ Hlen).
      destruct (suppliers (tables c)); reflexivity.
    + split; [intros s []|]. split; [reflexivity|]. split; [reflexivity|].
      split; [intros; lia|]. intros ->. exfalso. revert Hlen. vm_compute.
      discriminate.
  - eexists. split.
    + unfold Supplier.search, try_except, bind, fetch, raise, ret. rewrite H64.
      rewrite (select_search_within _ _ Hlen). reflexivity.
    + split; [|split; [|split; [|split]]].
      * intros s Hs. apply order_by_In in Hs. apply filter_In in Hs. apply Hs.
      * apply order_by_ordered. apply by_name_total.
      * intros. lia.
      * intros s pre q' post _ Hs Hq Hpre Hq' Hfield. apply order_by_In.
        apply filter_In. split; [exact Hs|].
        pose proof (compare_contains_c_str query q' pre post Hq Hpre Hq') as Hl.
        cbv beta. destruct Hfield as [-> | ->].
        -- rewrite Hl. reflexivity.
        -- rewrite Hl. apply orb_true_r.
      * intros ->. rewrite order_by_perm. rewrite filter_all; [reflexivity|].
        intros s _. apply orb_true_iff. left.
        change (c_str ("%" ++ "" ++ "%")) with "%%".
        apply (compare_contains "" "" "" (c_str (s_name s)) eq_refl).
Qed.

(** ** Payment.get_by_payment_mode and Purchase.get_by_supplier *)

(** In a state the schema allows, with distinct supplier ids and no storage
    fault, [Payment.get_by_payment_mode] lists exactly the payments stored
    with that mode, each once, with the name of its supplier; for a text
    that is not one of the five payment modes the list is empty. *)
Theorem payments_of_mode_listed flt date_le payment_mode c :
  flt 116%nat = false ->
  wf (tables c) ->
  NoDup (map s_id (suppliers (tables c))) ->
  exists rows,
    Payment.get_by_payment_mode flt date_le payment_mode c = (Return rows, c)
    /\ Permutation (map fst rows)
         (filter (fun y => String.eqb (y_payment_mode y) payment_mode)
                 (payments (tables c)))
    /\ (forall r, In r rows ->
          exists s, In s (suppliers (tables c))
                    /\ s_id s = y_supplier_id (fst r) /\ snd r = s_name s)
    /\ (mode_in payment_mode = false -> rows = []).
Proof.
  intros H116 Hw Hnd.
  exists (Payment.select_by_payment_mode date_le payment_mode (tables c)).
  split; [unfold Payment.get_by_payment_mode, try_except, fetch; rewrite H116;
          reflexivity|].
  unfold Payment.select_by_payment_mode.
  set (joined := inner_join (payments (tables c))
                   (fun y s => y_supplier_id y =? s_id s) (suppliers (tables c))).
  set (le := fun a b : payment_row * supplier_row =>
               date_le (y_date (fst b)) (y_date (fst a))).
  set (want := fun y : payment_row => String.eqb (y_payment_mode y) payment_mode).
  change (filter _ joined) with (filter (fun x => want (fst x)) joined).
  assert (Hperm : Permutation
            (map fst (map (fun r => (fst r, s_name (snd r)))
                        (order_by le (filter (fun x => want (fst x)) joined))))
            (filter want (payments (tables c)))).
  { rewrite map_map. cbn [fst].
    rewrite (Permutation_map fst (order_by_perm le _)).
    rewrite map_fst_filter. unfold joined.
    rewrite (inner_join_fst y_supplier_id); [reflexivity | exact Hnd |].
    intros y Hy. apply (wf_payment_fk _ Hw y Hy). }
  split; [exact Hperm|]. split.
  - intros r Hr. apply in_map_iff in Hr. destruct Hr as (x & <- & Hx).
    apply order_by_In in Hx. apply filter_In in Hx. destruct Hx as [Hx _].
    apply inner_join_snd in Hx. destruct Hx as (_ & Hs & Hk).
    exists (snd x). cbn. auto.
  - intros Hbad.
    rewrite (filter_nothing want (payments (tables c))) in Hperm.
    + apply Permutation_sym, Permutation_nil in Hperm.
      apply map_eq_nil in Hperm. exact Hperm.
    + intros y Hy. pose proof (wf_payment_check _ Hw y Hy) as Hck.
      unfold check_payment in Hck. apply andb_true_iff in Hck.
      destruct Hck as [_ Hmode].
      unfold want.
      destruct (String.eqb_spec (y_payment_mode y) payment_mode) as [E | E];
        [congruence | reflexivity].
Qed.

(** In a state the schema allows, with distinct supplier ids and no storage
    fault, [Purchase.get_by_supplier] without a limit lists exactly the
    purchases of the supplier, each once, with the outstanding amount
    amount - paid_amount; a limit n > 0 keeps the first n of these rows,
    and a limit of 0 or below keeps them all. *)
Theorem purchases_of_supplier_listed flt date_le supplier_id c :
  flt 87%nat = false ->
  wf (tables c) ->
  NoDup (map s_id (suppliers (tables c))) ->
  exists rows,
    Purchase.get_by_supplier flt date_le supplier_id None c = (Return rows, c)
    /\ Permutation (map Purchase.v_purchase rows)
         (filter (of_supplier supplier_id) (purchases (tables c)))
    /\ (forall r, In r rows ->
          Purchase.v_outstanding r
          = p_amount (Purchase.v_purchase r) - p_paid_amount (Purchase.v_purchase r))
    /\ (forall n,
          Purchase.get_by_supplier flt date_le supplier_id (Some n) c
          = (Return (if 0 <? n then firstn (Z.to_nat n) rows else rows), c)).
Proof.
  intros H87 Hw Hnd.
  exists (Purchase.select_by_supplier date_le supplier_id None (tables c)).
  split; [unfold Purchase.get_by_supplier, try_except, fetch; rewrite H87;
          reflexivity|].
  unfold Purchase.select_by_supplier.
  set (joined := inner_join (purchases (tables c))
                   (fun p s => p_supplier_id p =? s_id s) (suppliers (tables c))).
  set (le := fun a b : purchase_row * supplier_row =>
               date_le (p_date (fst b)) (p_date (fst a))).
  change (filter _ joined) with (filter (fun x => of_supplier supplier_id (fst x)) joined).
  split; [|split].
  - rewrite map_map. cbn [Purchase.v_purchase].
    rewrite (Permutation_map fst (order_by_perm le _)).
    rewrite map_fst_filter. unfold joined.
    rewrite (inner_join_fst p_supplier_id); [reflexivity | exact Hnd |].
    intros p Hp. apply (wf_purchase_fk _ Hw p Hp).
  - intros r Hr. apply in_map_iff in Hr. destruct Hr as (x & <- & _). reflexivity.
  - intros n. unfold Purchase.get_by_supplier, try_except, fetch. rewrite H87.
    unfold Purchase.select_by_supplier. fold joined.
    change (filter _ joined)
      with (filter (fun x => of_supplier supplier_id (fst x)) joined).
    fold le. f_equal. f_equal. unfold sql_limit.
    destruct (Z.eqb_spec n 0) as [-> | Hn]; [reflexivity|].
    destruct (Z.ltb_spec n 0) as [Hneg | Hpos].
    + replace (0 <? n) with false by (symmetry; apply Z.ltb_ge; lia). reflexivity.
    + replace (0 <? n) with true by (symmetry; apply Z.ltb_lt; lia).
      symmetry. apply firstn_map.
Qed.

(** ** AUTOINCREMENT: ids are not handed out twice *)

Lemma grows_refl t : grows t t.
Proof. split; [unfold seq_le; lia | auto]. Qed.

Lemma grows_trans t1 t2 t3 : grows t1 t2 -> grows t2 t3 -> grows t1 t3.
Proof.
  intros [(A1 & A2 & A3) HA] [(B1 & B2 & B3) HB].
  split; [unfold seq_le; lia | auto].
Qed.

(** A statement that keeps the sequences and adds no id grows the state. *)
Lemma grows_frame t t' :
  seq_suppliers t' = seq_suppliers t ->
  seq_purchases t' = seq_purchases t ->
  seq_payments t' = seq_payments t ->
  (forall k, In k (map s_id (suppliers t')) -> In k (map s_id (suppliers t))) ->
  (forall k, In k (map p_id (purchases t')) -> In k (map p_id (purchases t))) ->
  (forall k, In k (map y_id (payments t')) -> In k (map y_id (payments t))) ->
  grows t t'.
Proof.
  intros E1 E2 E3 Hs Hp Hy. split; [unfold seq_le; lia|].
  intros (H1 & H2 & H3). split; [|split].
  - intros s Hin. rewrite E1.
    pose proof (Hs _ (in_map s_id _ _ Hin)) as Hk. apply in_map_iff in Hk.
    destruct Hk as (s0 & <- & Hs0). auto.
  - intros p Hin. rewrite E2.
    pose proof (Hp _ (in_map p_id _ _ Hin)) as Hk. apply in_map_iff in Hk.
    destruct Hk as (p0 & <- & Hp0). auto.
  - intros y Hin. rewrite E3.
    pose proof (Hy _ (in_map y_id _ _ Hin)) as Hk. apply in_map_iff in Hk.
    destruct Hk as (y0 & <- & Hy0). auto.
Qed.

Lemma next_rowid_above seq ids : seq < next_rowid seq ids.
Proof. unfold next_rowid. lia. Qed.

Lemma insert_supplier_grows name contact address t t' n :
  insert_supplier name contact address t = Some (t', n) -> grows t t'.
Proof.
  unfold insert_supplier. destruct (existsb _ _); [discriminate|].
  intros E. inversion E; subst; clear E.
  pose proof (next_rowid_above (seq_suppliers t) (map s_id (suppliers t))) as Hlt.
  split; [unfold seq_le; simpl; lia|].
  intros (H1 & H2 & H3). split; [|split]; simpl; auto.
  intros s Hin. apply in_app_iff in Hin.
  destruct Hin as [Hin | [<- | []]]; [apply H1 in Hin; lia | simpl; lia].
Qed.

Lemma add_balance_ids sid delta l : map s_id (add_balance sid delta l) = map s_id l.
Proof. apply (add_balance_keys sid delta l). Qed.

Lemma insert_purchase_grows date sid bill_no amount paid items notes t t' n :
  insert_purchase date sid bill_no amount paid items notes t = Some (t', n) ->
  grows t t'.
Proof.
  unfold insert_purchase. destruct (_ && _); [|discriminate].
  intros E. inversion E; subst; clear E.
  pose proof (next_rowid_above (seq_purchases t) (map p_id (purchases t))) as Hlt.
  split; [unfold seq_le; simpl; lia|].
  intros (H1 & H2 & H3). split; [|split]; simpl; auto.
  - intros s Hin. apply (in_map s_id) in Hin. rewrite add_balance_ids in Hin.
    apply in_map_iff in Hin. destruct Hin as (s0 & <- & Hs0). auto.
  - intros p Hin. apply in_app_iff in Hin.
    destruct Hin as [Hin | [<- | []]]; [apply H2 in Hin; lia | simpl; lia].
Qed.

Lemma insert_payment_grows date sid purchase_id amount mode ref notes t t' n :
  insert_payment date sid purchase_id amount mode ref notes t = Some (t', n) ->
  grows t t'.
Proof.
  unfold insert_payment. destruct (_ && _); [|discriminate].
  intros E. inversion E; subst; clear E.
  pose proof (next_rowid_above (seq_payments t) (map y_id (payments t))) as Hlt.
  split; [unfold seq_le; simpl; lia|].
  intros (H1 & H2 & H3). split; [|split]; simpl; auto.
  - intros s Hin. apply (in_map s_id) in Hin. rewrite add_balance_ids in Hin.
    apply in_map_iff in Hin. destruct Hin as (s0 & <- & Hs0). auto.
  - intros y Hin. apply in_app_iff in Hin.
    destruct Hin as [Hin | [<- | []]]; [apply H3 in Hin; lia | simpl; lia].
Qed.

Lemma update_paid_amount_grows delta id t t' n :
  update_paid_amount delta id t = Some (t', n) -> grows t t'.
Proof.
  unfold update_paid_amount. destruct (rewritten_ok _ _ _ _); [|discriminate].
  intros E. inversion E; subst; clear E.
  apply grows_frame; simpl; auto.
  rewrite update_where_key; auto.
Qed.

Lemma update_suppliers_grows updates id t t' n :
  update_suppliers updates id t = Some (t', n) -> grows t t'.
Proof.
  unfold update_suppliers. destruct (forallb _ _); [|discriminate].
  intros E. inversion E; subst; clear E.
  apply grows_frame; simpl; auto.
  rewrite update_where_key; auto. intros; apply set_supplier_id.
Qed.

Lemma update_purchases_grows updates id t t' n :
  update_purchases updates id t = Some (t', n) -> grows t t'.
Proof.
  unfold update_purchases. destruct (rewritten_ok _ _ _ _); [|discriminate].
  intros E. inversion E; subst; clear E.
  apply grows_frame; simpl; auto.
  rewrite update_where_key; auto. intros; apply set_purchase_id.
Qed.

Lemma update_payments_grows updates id t t' n :
  update_payments updates id t = Some (t', n) -> grows t t'.
Proof.
  unfold update_payments. destruct (rewritten_ok _ _ _ _); [|discriminate].
  intros E. inversion E; subst; clear E.
  apply grows_frame; simpl; auto.
  rewrite update_where_key; auto. intros r. apply (set_payment_frame updates r).
Qed.

Lemma in_map_filter {A} (key : A -> Z) f (l : list A) k :
  In k (map key (filter f l)) -> In k (map key l).
Proof.
  intros H. apply in_map_iff in H. destruct H as (x & <- & Hx).
  apply filter_In in Hx. apply in_map. apply Hx.
Qed.

Lemma unlink_ids id l : map y_id (map (unlink id) l) = map y_id l.
Proof.
  rewrite map_map. apply map_ext. intros y. apply (unlink_frame id y).
Qed.

Lemma delete_supplier_grows id t t' n :
  delete_supplier id t = Some (t', n) -> grows t t'.
Proof.
  unfold delete_supplier. destruct (existsb _ (suppliers t) && _); [discriminate|].
  intros E. inversion E; subst; clear E.
  apply grows_frame; simpl; auto. intros k. apply in_map_filter.
Qed.

Lemma delete_purchase_grows id t t' n :
  delete_purchase id t = Some (t', n) -> grows t t'.
Proof.
  unfold delete_purchase. intros E. inversion E; subst; clear E.
  apply grows_frame; simpl; auto.
  - intros k. apply in_map_filter.
  - destruct (existsb _ _); [rewrite unlink_ids|]; auto.
Qed.

Lemma delete_payment_grows id t t' n :
  delete_payment id t = Some (t', n) -> grows t t'.
Proof.
  unfold delete_payment. intros E. inversion E; subst; clear E.
  apply grows_frame; simpl; auto. intros k. apply in_map_filter.
Qed.

Ltac grow_step :=
  match goal with
  | E : insert_supplier _ _ _ ?t0 = Some (?s, _) |- grows _ ?s =>
      apply (grows_trans _ t0); [|exact (insert_supplier_grows _ _ _ _ _ _ E)]
  | E : insert_purchase _ _ _ _ _ _ _ ?t0 = Some (?s, _) |- grows _ ?s =>
      apply (grows_trans _ t0);
      [|exact (insert_purchase_grows _ _ _ _ _ _ _ _ _ _ E)]
  | E : insert_payment _ _ _ _ _ _ _ ?t0 = Some (?s, _) |- grows _ ?s =>
      apply (grows_trans _ t0);
      [|exact (insert_payment_grows _ _ _ _ _ _ _ _ _ _ E)]
  | E : update_paid_amount _ _ ?t0 = Some (?s, _) |- grows _ ?s =>
      apply (grows_trans _ t0); [|exact (update_paid_amount_grows _ _ _ _ _ E)]
  | E : update_suppliers _ _ ?t0 = Some (?s, _) |- grows _ ?s =>
      apply (grows_trans _ t0); [|exact (update_suppliers_grows _ _ _ _ _ E)]
  | E : update_purchases _ _ ?t0 = Some (?s, _) |- grows _ ?s =>
      apply (grows_trans _ t0); [|exact (update_purchases_grows _ _ _ _ _ E)]
  | E : update_payments _ _ ?t0 = Some (?s, _) |- grows _ ?s =>
      apply (grows_trans _ t0); [|exact (update_payments_grows _ _ _ _ _ E)]
  | E : delete_supplier _ ?t0 = Some (?s, _) |- grows _ ?s =>
      apply (grows_trans _ t0); [|exact (delete_supplier_grows _ _ _ _ E)]
  | |- grows _ (mk_store (suppliers ?t0) (filter _ (purchases ?t0)) _ _ _ _) =>
      apply (grows_trans _ t0);
      [|apply grows_frame; simpl; auto;
        first [ intros k; apply in_map_filter | rewrite unlink_ids; auto ]]
  | |- grows _ (mk_store (suppliers ?t0) (purchases ?t0) (filter _ (payments ?t0))
                  _ _ _) =>
      apply (grows_trans _ t0);
      [|apply grows_frame; simpl; auto; intros k; apply in_map_filter]
  end.

Ltac keep_growing := simpl; repeat grow_step; apply grows_refl.

Lemma Supplier_create_grows flt name contact address c o c' :
  clean c -> Supplier.create flt name contact address c = (o, c') ->
  grows (tables c) (tables c').
Proof. intros Hc H. split_clean c Hc; crunch H; finish H; keep_growing. Qed.

Lemma Supplier_update_grows flt id name contact address c o c' :
  clean c -> Supplier.update flt id name contact address c = (o, c') ->
  grows (tables c) (tables c').
Proof. intros Hc H. split_clean c Hc; crunch H; finish H; keep_growing. Qed.

Lemma Supplier_delete_grows flt id c o c' :
  clean c -> Supplier.delete flt id c = (o, c') -> grows (tables c) (tables c').
Proof. intros Hc H. split_clean c Hc; crunch H; finish H; keep_growing. Qed.

Lemma Purchase_create_grows flt date sid amount bill_no paid items notes c o c' :
  clean c ->
  Purchase.create flt date sid amount bill_no paid items notes c = (o, c') ->
  grows (tables c) (tables c').
Proof. intros Hc H. split_clean c Hc; crunch H; finish H; keep_growing. Qed.

Lemma Purchase_update_grows flt id date sid bill_no amount paid items notes c o c' :
  clean c ->
  Purchase.update flt id date sid bill_no amount paid items notes c = (o, c') ->
  grows (tables c) (tables c').
Proof. intros Hc H. split_clean c Hc; crunch H; finish H; keep_growing. Qed.

Lemma Purchase_delete_grows flt id c o c' :
  clean c -> Purchase.delete flt id c = (o, c') -> grows (tables c) (tables c').
Proof. intros Hc H. split_clean c Hc; crunch H; finish H; keep_growing. Qed.

Lemma Purchase_add_payment_grows flt id amount c o c' :
  clean c -> Purchase.add_payment flt id amount c = (o, c') ->
  grows (tables c) (tables c').
Proof.
  intros Hc H. unfold Purchase.add_payment in H.
  split_clean c Hc; crunch H; finish H; keep_growing.
Qed.

Lemma Payment_create_grows flt date sid amount mode purchase_id ref notes c o c' :
  clean c ->
  Payment.create flt date sid amount mode purchase_id ref notes c = (o, c') ->
  grows (tables c) (tables c').
Proof. intros Hc H. split_clean c Hc; crunch H; finish H; keep_growing. Qed.

Lemma Payment_update_grows flt id date amount mode ref notes c o c' :
  clean c ->
  Payment.update flt id date amount mode ref notes c = (o, c') ->
  grows (tables c) (tables c').
Proof. intros Hc H. split_clean c Hc; crunch H; finish H; keep_growing. Qed.

Lemma Payment_delete_grows flt id c o c' :
  clean c -> Payment.delete flt id c = (o, c') -> grows (tables c) (tables c').
Proof. intros Hc H. split_clean c Hc; crunch H; finish H; keep_growing. Qed.

Lemma api_step_grows c c' : clean c -> api_step c c' -> grows (tables c) (tables c').
Proof.
  intros Hc Hstep.
  destruct Hstep as [ ? ? ? ? ? ? ? H | ? ? ? ? ? ? ? ? H | ? ? ? ? ? H
                    | ? ? ? ? ? ? ? ? ? ? ? H | ? ? ? ? ? ? ? ? ? ? ? ? H
                    | ? ? ? ? ? H | ? ? ? ? ? ? H
                    | ? ? ? ? ? ? ? ? ? ? ? H | ? ? ? ? ? ? ? ? ? ? H
                    | ? ? ? ? ? H ].
  - eapply Supplier_create_grows; eassumption.
  - eapply Supplier_update_grows; eassumption.
  - eapply Supplier_delete_grows; eassumption.
  - eapply Purchase_create_grows; eassumption.
  - eapply Purchase_update_grows; eassumption.
  - eapply Purchase_delete_grows; eassumption.
  - eapply Purchase_add_payment_grows; eassumption.
  - eapply Payment_create_grows; eassumption.
  - eapply Payment_update_grows; eassumption.
  - eapply Payment_delete_grows; eassumption.
Qed.

Lemma steps_consistent c c' : consistent c -> steps api_step c c' -> consistent c'.
Proof.
  intros Hc Hs. induction Hs as [c | c c1 c2 Hs IH Hstep]; [exact Hc|].
  eapply api_step_consistent; [apply IH; exact Hc | exact Hstep].
Qed.

Lemma steps_grow c c' :
  consistent c -> steps api_step c c' -> grows (tables c) (tables c').
Proof.
  intros Hc Hs. induction Hs as [c | c c1 c2 Hs IH Hstep]; [apply grows_refl|].
  eapply grows_trans; [apply IH; exact Hc|].
  apply api_step_grows; [|exact Hstep].
  apply (steps_consistent _ _ Hc Hs).
Qed.

Lemma empty_consistent : consistent (fresh_connection empty_store).
Proof.
  split; [exact empty_ready|]. split; [split; constructor | intros p []].
Qed.

Lemma empty_sequenced : sequenced (tables (fresh_connection empty_store)).
Proof. repeat split; intros ? []. Qed.

(** Ids are never handed out twice in a session that starts from the empty
    database: an id that [Supplier.create], [Purchase.create] or
    [Payment.create] returns is larger than the id of every row its table
    held at any earlier point of the session, rows deleted since
    included. *)
Theorem ids_never_reused c c1 :
  steps api_step (fresh_connection empty_store) c ->
  steps api_step c c1 ->
  (forall flt name contact address id c2,
      Supplier.create flt name contact address c1 = (Return id, c2) ->
      forall s, In s (suppliers (tables c)) -> s_id s < id)
  /\ (forall flt date sid amount bill_no paid items notes id c2,
         Purchase.create flt date sid amount bill_no paid items notes c1
         = (Return id, c2) ->
         forall p, In p (purchases (tables c)) -> p_id p < id)
  /\ (forall flt date sid amount mode purchase_id ref notes id c2,
         Payment.create flt date sid amount mode purchase_id ref notes c1
         = (Return id, c2) ->
         forall y, In y (payments (tables c)) -> y_id y < id).
Proof.
  intros H0 H1.
  pose proof (steps_consistent _ _ empty_consistent H0) as Hc.
  pose proof (steps_consistent _ _ Hc H1) as Hc1.
  destruct (steps_grow _ _ empty_consistent H0) as [_ Hseq].
  destruct (Hseq empty_sequenced) as (S1 & S2 & S3).
  destruct (steps_grow _ _ Hc H1) as [(L1 & L2 & L3) _].
  destruct Hc1 as [[_ Hclean] _].
  split; [|split].
  - intros flt name contact address id c2 H s Hs.
    assert (Hins : insert_supplier (strip name) contact address (tables c1)
                   = Some (tables c2, id)).
    { clear - H. destruct c1 as [t [t0|]]; crunch H; finish H; assumption. }
    unfold insert_supplier in Hins. destruct (existsb _ _); [discriminate|].
    inversion Hins as [[Ht Hid]].
    pose proof (next_rowid_above (seq_suppliers (tables c1))
                  (map s_id (suppliers (tables c1)))).
    apply S1 in Hs. lia.
  - intros flt date sid amount bill_no paid items notes id c2 H p Hp.
    apply Purchase_create_return in H; [|exact Hclean].
    destruct H as (_ & Hins & _).
    unfold insert_purchase in Hins. destruct (_ && _); [|discriminate].
    inversion Hins as [[Ht Hid]].
    pose proof (next_rowid_above (seq_purchases (tables c1))
                  (map p_id (purchases (tables c1)))).
    apply S2 in Hp. lia.
  - intros flt date sid amount mode purchase_id ref notes id c2 H y Hy.
    apply Payment_create_return in H; [|exact Hclean].
    destruct H as (_ & t1 & Hins & _).
    unfold insert_payment in Hins. destruct (_ && _); [|discriminate].
    inversion Hins as [[Ht Hid]].
    pose proof (next_rowid_above (seq_payments (tables c1))
                  (map y_id (payments (tables c1)))).
    apply S3 in Hy. lia.
Qed.

(** ** The reading operations *)

Ltac run_read :=
  unfold Supplier.get_all, Supplier.get_by_id, Supplier.get_by_name, Supplier.search,
    Supplier.get_balance, Supplier.get_outstanding_purchases,
    Supplier.get_suppliers_with_balance, Supplier.get_summary_stats,
    Purchase.get_by_id, Purchase.get_by_supplier, Purchase.get_outstanding,
    Purchase.get_payments,
    Purchase.get_summary_stats, Payment.get_by_id, Payment.get_by_payment_mode,
    Payment.get_summary_stats, get_supplier_balance, get_outstanding_purchases,
    try_except, bind, ret, fetch.

(** A storage failure during a read is reported in two ways.  The reading
    operations of the three repositories catch it and return their empty
    answer (an empty list, or None), so that it cannot be told from an
    empty table; the two helpers of [Database], and the repository
    operations that only forward to them, let the error through. *)
Theorem failed_reads flt date_le c :
  (flt 13%nat = true -> fst (Supplier.get_all flt c) = Return [])
  /\ (flt 32%nat = true -> forall id, fst (Supplier.get_by_id flt id c) = Return None)
  /\ (flt 53%nat = true ->
      forall name, fst (Supplier.get_by_name flt name c) = Return None)
  /\ (flt 64%nat = true -> forall query, fst (Supplier.search flt query c) = Return [])
  /\ (flt 256%nat = true ->
      forall kind, fst (Supplier.get_suppliers_with_balance flt kind c) = Return [])
  /\ (flt 266%nat = true -> fst (Supplier.get_summary_stats flt c) = Return None)
  /\ (flt 46%nat = true -> forall id, fst (Purchase.get_by_id flt id c) = Return None)
  /\ (flt 87%nat = true ->
      forall id limit,
        fst (Purchase.get_by_supplier flt date_le id limit c) = Return [])
  /\ (flt 252%nat = true ->
      forall id, fst (Purchase.get_payments flt date_le id c) = Return [])
  /\ (flt 319%nat = true ->
      forall d e, fst (Purchase.get_summary_stats flt date_le d e c) = Return None)
  /\ (flt 44%nat = true -> forall id, fst (Payment.get_by_id flt id c) = Return None)
  /\ (flt 116%nat = true ->
      forall mode, fst (Payment.get_by_payment_mode flt date_le mode c) = Return [])
  /\ (flt 326%nat = true ->
      forall d e, fst (Payment.get_summary_stats flt date_le d e c) = Return None)
  /\ (flt 189%nat = true ->
      forall id,
        fst (get_supplier_balance flt id c) = Raise OperationalError
        /\ fst (Supplier.get_balance flt id c) = Raise OperationalError)
  /\ (flt 222%nat = true ->
      forall id,
        fst (get_outstanding_purchases flt date_le (Some id) c)
        = Raise OperationalError
        /\ fst (Supplier.get_outstanding_purchases flt date_le id c)
           = Raise OperationalError
        /\ fst (Purchase.get_outstanding flt date_le c) = Raise OperationalError).
Proof.
  repeat split; intros; run_read;
    match goal with E : flt _ = true |- _ => rewrite E end; reflexivity.
Qed.

(** ** Payment.update keeps the links *)

Lemma Payment_update_links flt id date amount mode ref notes c o c' :
  clean c ->
  Payment.update flt id date amount mode ref notes c = (o, c') ->
  map y_id (payments (tables c')) = map y_id (payments (tables c))
  /\ map y_supplier_id (payments (tables c'))
     = map y_supplier_id (payments (tables c))
  /\ map y_purchase_id (payments (tables c'))
     = map y_purchase_id (payments (tables c)).
Proof.
  intros Hc H. split_clean c Hc; crunch H; finish H; auto.
  all: repeat match goal with
       | E : update_paid_amount _ _ _ = Some _ |- _ =>
           apply update_paid_amount_effect in E; destruct E as (_ & _ & ->)
       | E : update_payments _ _ _ = Some _ |- _ =>
           apply update_payments_effect in E; destruct E as (_ & _ & ->)
       end.
  all: repeat split; apply update_where_key; intros r; apply set_payment_frame.
Qed.

(** [Payment.update] never moves a payment: whatever its arguments, the
    storage faults and the outcome, every payment keeps its id, its
    supplier and its purchase, and the number of payments is the same. *)
Theorem payment_update_keeps_links flt id date amount mode ref notes c :
  clean c ->
  map y_id (payments (tables (snd (Payment.update flt id date amount mode ref notes c))))
  = map y_id (payments (tables c))
  /\ map y_supplier_id
       (payments (tables (snd (Payment.update flt id date amount mode ref notes c))))
     = map y_supplier_id (payments (tables c))
  /\ map y_purchase_id
       (payments (tables (snd (Payment.update flt id date amount mode ref notes c))))
     = map y_purchase_id (payments (tables c)).
Proof.
  intros Hc.
  destruct (Payment.update flt id date amount mode ref notes c) as [o c'] eqn:H.
  eapply Payment_update_links; eassumption.
Qed.

(** ** The further properties on the scenarios *)


Lemma scenario_A_ready : ready (fresh_connection scenario_A).
Proof. split; [apply wfb_sound; reflexivity | left; reflexivity]. Qed.

Lemma acme_only_ready : ready (fresh_connection acme_only).
Proof. split; [apply wfb_sound; reflexivity | left; reflexivity]. Qed.

Lemma one_supplier_id (s : supplier_row) : NoDup (map s_id [s]).
Proof. constructor; [intros [] | constructor]. Qed.

Lemma scenario_A_session :
  steps api_step (fresh_connection empty_store) (fresh_connection scenario_A).
Proof.
  eapply steps_snoc; [eapply steps_snoc; [apply steps_nil|]|].
  - apply (api_supplier_create no_fault "Acme" None None
             (fresh_connection empty_store) (Return 1) (fresh_connection acme_only)).
    reflexivity.
  - apply (api_purchase_create no_fault "2024-01-01" 1 1000 None 0 None None
             (fresh_connection acme_only) (Return 1) (fresh_connection scenario_A)).
    reflexivity.
Qed.

Lemma purchase_stats_consistent_witness :
  exists st,
    Purchase.get_summary_stats no_fault String.leb None None
      (fresh_connection scenario_B)
    = (Return (Some st), fresh_connection scenario_B)
    /\ Purchase.total_outstanding st
       = Purchase.total_amount st - Purchase.total_paid st.
Proof.
  destruct (purchase_stats_consistent no_fault String.leb None None
              (fresh_connection scenario_B)) as (st & H1 & H2 & _).
  - apply wfb_sound. reflexivity.
  - intros p [<- | []]. simpl. lia.
  - apply Z.leb_le. reflexivity.
  - apply Z.leb_le. reflexivity.
  - reflexivity.
  - exists st. split; assumption.
Defined.

Lemma suppliers_by_balance_witness :
  exists rows,
    Supplier.get_suppliers_with_balance no_fault "payable"
      (fresh_connection scenario_B)
    = (Return rows, fresh_connection scenario_B)
    /\ ordered Supplier.by_name rows = true.
Proof.
  destruct (suppliers_by_balance no_fault "payable" (fresh_connection scenario_B))
    as (rows & H1 & H2 & _).
  - reflexivity.
  - exists rows. split; assumption.
Defined.

Lemma session_consistent_witness : consistent (fresh_connection scenario_B).
Proof.
  apply session_consistent.
  eapply steps_snoc; [exact scenario_A_session|].
  apply (api_payment_create no_fault "2024-01-02" 1 400 "cash" (Some 1) None None
           (fresh_connection scenario_A) (Return 1) (fresh_connection scenario_B)).
  reflexivity.
Defined.

Lemma payments_keep_within_amount_witness :
  all_within_amount (tables (fresh_connection scenario_B)).
Proof.
  apply (payments_keep_within_amount (fresh_connection scenario_A)).
  - exact scenario_A_ready.
  - intros p [<- | []]. unfold within_amount. simpl. lia.
  - eapply steps_snoc; [apply steps_nil|].
    split; [|split; apply in_rangeb_sound; reflexivity].
    apply (step_create no_fault "2024-01-02" 1 400 "cash" (Some 1) None None
             (fresh_connection scenario_A) 1 (fresh_connection scenario_B)).
    reflexivity.
Defined.


Lemma edits_never_touch_suppliers_witness :
  suppliers (tables (snd (Payment.delete no_fault 1 (fresh_connection scenario_B))))
  = suppliers (tables (fresh_connection scenario_B)).
Proof.
  apply (proj2 (proj2 (proj2 (edits_never_touch_suppliers no_fault
                                (fresh_connection scenario_B)
                                (or_introl eq_refl)))) 1).
Defined.

Lemma purchase_create_accepted_witness :
  exists id c',
    Purchase.create no_fault "2024-01-01" 1 1000 None 0 None None
      (fresh_connection acme_only) = (Return id, c')
    /\ get_supplier_balance no_fault 1 c' = (Return (0 + (1000 - 0)), c').
Proof.
  destruct (purchase_create_accepted no_fault "2024-01-01" 1 1000 None 0 None None
              (fresh_connection acme_only) 0)
    as (id & c' & H1 & _ & _ & H2);
    try reflexivity; try lia; try (apply exact_rangeb_sound; reflexivity).
  - exact acme_only_ready.
  - exists id, c'. split; assumption.
Defined.

Lemma payment_create_accepted_witness :
  exists id c',
    Payment.create no_fault "2024-01-02" 1 400 "cash" (Some 1) None None
      (fresh_connection scenario_A) = (Return id, c')
    /\ suppliers (tables c')
       = add_balance 1 (- 400) (suppliers (tables (fresh_connection scenario_A))).
Proof.
  destruct (payment_create_accepted no_fault "2024-01-02" 1 400 "cash"
              (Some (mk_purchase 1 "2024-01-01" 1 None 1000 0 None None)) None None
              (fresh_connection scenario_A))
    as (id & c' & H1 & _ & _ & H2);
    try reflexivity; try lia; try (apply exact_rangeb_sound; reflexivity).
  - exact scenario_A_ready.
  - apply in_rangeb_sound. reflexivity.
  - intros p E. inversion E; subst; clear E.
    split; [left; reflexivity|]. split; [reflexivity | simpl; lia].
  - exists id, c'. split; assumption.
Defined.

Lemma purchase_delete_accepted_witness :
  exists c',
    Purchase.delete no_fault 1 (fresh_connection scenario_A) = (Return true, c')
    /\ suppliers (tables c') = suppliers (tables (fresh_connection scenario_A)).
Proof.
  destruct (purchase_delete_accepted no_fault 1 (fresh_connection scenario_A))
    as (c' & H1 & _ & _ & H2 & _);
    try reflexivity.
  - left. reflexivity.
  - intros y [].
  - exists c'. split; assumption.
Defined.

Lemma supplier_delete_accepted_witness :
  exists c',
    Supplier.delete no_fault 1 (fresh_connection acme_only) = (Return true, c')
    /\ suppliers (tables c') = [].
Proof.
  destruct (supplier_delete_accepted no_fault 1 (fresh_connection acme_only))
    as (c' & H1 & H2 & _);
    try reflexivity.
  - left. reflexivity.
  - intros p [].
  - intros y [].
  - exists c'. split; assumption.
Defined.

Lemma supplier_update_keeps_accounts_witness :
  map s_balance
    (suppliers (tables (snd (Supplier.update no_fault 1 (Some "Apex") None None
                               (fresh_connection scenario_B)))))
  = map s_balance (suppliers (tables (fresh_connection scenario_B))).
Proof.
  apply (supplier_update_keeps_accounts no_fault 1 (Some "Apex") None None
           (fresh_connection scenario_B) (or_introl eq_refl)).
Defined.

Lemma supplier_rename_conflict_witness :
  refused_with "Supplier with name already exists" no_fault
    (fresh_connection two_suppliers)
    (Supplier.update no_fault 2 (Some " Acme ") None None
       (fresh_connection two_suppliers)).
Proof.
  apply (supplier_rename_conflict no_fault 2 " Acme " None None
           (fresh_connection two_suppliers)
           (mk_supplier 2 "Bolt" (Some "Bolt and Sons") None 0)
           (mk_supplier 1 "Acme" None None 0)).
  - left. reflexivity.
  - right. left. reflexivity.
  - reflexivity.
  - left. reflexivity.
  - simpl. lia.
  - reflexivity.
Defined.

Lemma supplier_create_then_get_by_name_witness :
  Supplier.get_by_name no_fault (strip " Acme ") (fresh_connection acme_only)
  = (Return (Some (mk_supplier 1 (strip " Acme ") None None 0)),
     fresh_connection acme_only).
Proof.
  apply (supplier_create_then_get_by_name no_fault " Acme " None None
           (fresh_connection empty_store) 1 (fresh_connection acme_only));
    reflexivity.
Defined.

Lemma get_all_totals_witness :
  exists rows,
    Supplier.get_all no_fault (fresh_connection scenario_advance)
    = (Return rows, fresh_connection scenario_advance)
    /\ Permutation (map Supplier.l_row rows)
         (suppliers (tables (fresh_connection scenario_advance))).
Proof.
  destruct (get_all_totals no_fault (fresh_connection scenario_advance))
    as (rows & H1 & H2 & _).
  - reflexivity.
  - apply one_supplier_id.
  - exists rows. split; assumption.
Defined.

Lemma outstanding_purchases_listed_witness :
  exists rows,
    get_outstanding_purchases no_fault String.leb None (fresh_connection scenario_B)
    = (Return rows, fresh_connection scenario_B)
    /\ forall r, In r rows -> 0 < o_outstanding r.
Proof.
  destruct (outstanding_purchases_listed no_fault String.leb None
              (fresh_connection scenario_B)) as (rows & H1 & _ & H2 & _).
  - reflexivity.
  - apply wfb_sound. reflexivity.
  - apply one_supplier_id.
  - exists rows. split; [exact H1|]. intros r Hr. apply (H2 r Hr).
Defined.

Lemma search_finds_substrings_witness :
  exists rows,
    Supplier.search no_fault "CM" (fresh_connection scenario_B)
    = (Return rows, fresh_connection scenario_B)
    /\ In acme rows.
Proof.
  destruct (search_finds_substrings no_fault "CM" (fresh_connection scenario_B))
    as (rows & H1 & _ & _ & _ & H2 & _).
  - reflexivity.
  - exists rows. split; [exact H1|].
    apply (H2 acme "A" "cm" "e");
      [ vm_compute; discriminate | left; reflexivity | reflexivity | reflexivity
      | reflexivity | left; reflexivity ].
Defined.

Lemma payments_of_mode_listed_witness :
  exists rows,
    Payment.get_by_payment_mode no_fault String.leb "cash"
      (fresh_connection scenario_advance)
    = (Return rows, fresh_connection scenario_advance)
    /\ Permutation (map fst rows) [part_payment].
Proof.
  destruct (payments_of_mode_listed no_fault String.leb "cash"
              (fresh_connection scenario_advance)) as (rows & H1 & H2 & _).
  - reflexivity.
  - apply wfb_sound. reflexivity.
  - apply one_supplier_id.
  - exists rows. split; [exact H1 | exact H2].
Defined.

Lemma purchases_of_supplier_listed_witness :
  exists rows,
    Purchase.get_by_supplier no_fault String.leb 1 None (fresh_connection scenario_B)
    = (Return rows, fresh_connection scenario_B)
    /\ Permutation (map Purchase.v_purchase rows) [bill].
Proof.
  destruct (purchases_of_supplier_listed no_fault String.leb 1
              (fresh_connection scenario_B)) as (rows & H1 & H2 & _).
  - reflexivity.
  - apply wfb_sound. reflexivity.
  - apply one_supplier_id.
  - exists rows. split; [exact H1 | exact H2].
Defined.

Lemma ids_never_reused_witness :
  Forall (fun p => p_id p < 2) (purchases (tables (fresh_connection scenario_A))).
Proof.
  assert (Hs : steps api_step (fresh_connection scenario_A)
                 (snd (Purchase.delete no_fault 1 (fresh_connection scenario_A)))).
  { eapply steps_snoc; [apply steps_nil|].
    apply (api_purchase_delete no_fault 1 (fresh_connection scenario_A)
             (fst (Purchase.delete no_fault 1 (fresh_connection scenario_A)))).
    reflexivity. }
  apply Forall_forall.
  apply (proj1 (proj2 (ids_never_reused _ _ scenario_A_session Hs))
           no_fault "2024-02-01" 1 50 None 0 None None 2
           (snd (Purchase.create no_fault "2024-02-01" 1 50 None 0 None None
                   (snd (Purchase.delete no_fault 1 (fresh_connection scenario_A)))))).
  reflexivity.
Defined.

Lemma payment_update_keeps_links_witness :
  map y_purchase_id
    (payments (tables (snd (Payment.update no_fault 1 None (Some 300) None None None
                              (fresh_connection scenario_B)))))
  = map y_purchase_id (payments (tables (fresh_connection scenario_B))).
Proof.
  apply (payment_update_keeps_links no_fault 1 None (Some 300) None None None
           (fresh_connection scenario_B) (or_introl eq_refl)).
Defined.

(** ** Purchase.get_payments *)

Lemma sum_Z_perm l l' : Permutation l l' -> sum_Z l = sum_Z l'.
Proof.
  intros H. induction H as [| x l l' H IH | x y l | l l' l'' H1 IH1 H2 IH2].
  - reflexivity.
  - rewrite !sum_Z_cons, IH. reflexivity.
  - rewrite !sum_Z_cons. lia.
  - congruence.
Qed.

(** In a state the schema allows, with distinct supplier ids and no storage
    fault, [Purchase.get_payments] lists exactly the payments linked to the
    purchase, each once; and when the purchase's paid_amount follows its
    payments (I2), the amounts listed add up to that paid_amount. *)
Theorem get_payments_add_up flt date_le id c :
  flt 252%nat = false ->
  wf (tables c) ->
  NoDup (map s_id (suppliers (tables c))) ->
  exists rows,
    Purchase.get_payments flt date_le id c = (Return rows, c)
    /\ Permutation (map fst rows) (filter (linked_to id) (payments (tables c)))
    /\ (paid_matches_payments id (tables c) ->
        forall p, In p (purchases (tables c)) -> p_id p = id ->
                  sum_Z (map (fun r => y_amount (fst r)) rows) = p_paid_amount p).
Proof.
  intros H252 Hw Hnd.
  exists (Purchase.select_payments date_le id (tables c)).
  split; [unfold Purchase.get_payments, try_except, fetch; rewrite H252;
          reflexivity|].
  unfold Purchase.select_payments.
  set (joined := inner_join (payments (tables c))
                   (fun y s => y_supplier_id y =? s_id s) (suppliers (tables c))).
  set (le := fun a b : payment_row * supplier_row =>
               date_le (y_date (fst b)) (y_date (fst a))).
  change (filter _ joined) with (filter (fun x => linked_to id (fst x)) joined).
  assert (Hperm : Permutation
            (map fst (map (fun r => (fst r, s_name (snd r)))
                        (order_by le (filter (fun x => linked_to id (fst x)) joined))))
            (filter (linked_to id) (payments (tables c)))).
  { rewrite map_map. cbn [fst].
    rewrite (Permutation_map fst (order_by_perm le _)).
    rewrite map_fst_filter. unfold joined.
    rewrite (inner_join_fst y_supplier_id); [reflexivity | exact Hnd |].
    intros y Hy. apply (wf_payment_fk _ Hw y Hy). }
  split; [exact Hperm|].
  intros Hm p Hp Hid. rewrite (Hm p Hp Hid). unfold linked_total.
  rewrite <- (map_map fst y_amount).
  apply sum_Z_perm. apply Permutation_map. exact Hperm.
Qed.

Lemma get_payments_add_up_witness :
  exists rows,
    Purchase.get_payments no_fault String.leb 1 (fresh_connection scenario_advance)
    = (Return rows, fresh_connection scenario_advance)
    /\ sum_Z (map (fun r => y_amount (fst r)) rows) = p_paid_amount bill.
Proof.
  destruct (get_payments_add_up no_fault String.leb 1
              (fresh_connection scenario_advance)) as (rows & H1 & _ & H2).
  - reflexivity.
  - apply wfb_sound. reflexivity.
  - apply one_supplier_id.
  - exists rows. split; [exact H1|]. apply H2.
    + intros p [<- | []] _. reflexivity.
    + left. reflexivity.
    + reflexivity.
Defined.
